(** * Payment, refund and fraud-scoring workflows of the school-fee backend

    A shallow embedding of the route handlers of
    [controller/paymentController.js], [controller/refundController.js] and of
    [checkFraud] (utils/fraudDetection.js), with the properties of the
    specification stated over them, followed by the token middleware
    (middleware/auth.js, module [Auth]) and the login and notification
    handlers of [controller/studentController.js] (modules [Login] and
    [Notifications]).

    Modelling conventions.
    - A handler is a state transformer over the document store [Db] that ends
      in an HTTP reply; [return res.status(c).json(..)] is [reply], a thrown
      JavaScript exception is [throw], and [try { .. } catch (error) { .. }]
      is [try_catch].
    - Mongoose documents are records; a collection is the list of its
      documents in insertion order ([findOne] returns the first match).
      [doc.save()] writes the in-memory document back by [_id].
    - Store operations are assumed to succeed.  What the outside world answers
      (payment gateway, file upload, anomaly API, HMAC digest) is an explicit
      argument of the handler.
    - Numbers are the doubles of JavaScript: IEEE 754 binary64 values with
      their rounding, signed zeros, infinities and NaN ([Number], over
      [spec_float] of the Standard Library).  Money amounts are such numbers.
      The text of a number in a template literal is the runtime's
      [Number::toString], an argument of the handler that prints one.
    - Status fields are the strings of the source.
    - A free identifier is looked up in the bindings that enclose it in the
      source file ([ident]); one that nothing binds raises a
      [ReferenceError]. *)

From Stdlib Require Import ZArith List String Bool Lia DecimalString.
From Stdlib Require Import Floats.SpecFloat.
Import ListNotations.
Open Scope string_scope.
Open Scope Z_scope.

Set Implicit Arguments.

(* ------------------------------------------------------------------ *)
(** ** JavaScript values shared by the handlers *)

(** ObjectIds, compared by value. *)
Definition Id := Z.

Definition id_eqb (a b : Id) : bool := Z.eqb a b.

(** Exceptions that the handlers can meet. *)
Inductive JsError : Type :=
| ReferenceError (ident : string)
| TypeError (msg : string)
| Error (msg : string).

(** [error.message] *)
Definition error_message (e : JsError) : string :=
  match e with
  | ReferenceError x => x ++ " is not defined"
  | TypeError m => m
  | Error m => m
  end.

(** [`${n}`] for an integral number. *)
Definition string_of_Z (z : Z) : string := NilZero.string_of_int (Z.to_int z).

(** Numbers: binary64, that is a precision of 53 bits and exponents below
    1024.  Every operation rounds to nearest, ties to even. *)
Definition Number : Type := spec_float.

Definition prec : Z := 53.

Definition emax : Z := 1024.

(** [a + b], [a - b], [a * b], [a / b] *)
Definition js_add (a b : Number) : Number := SFadd prec emax a b.

Definition js_sub (a b : Number) : Number := SFsub prec emax a b.

Definition js_mul (a b : Number) : Number := SFmul prec emax a b.

Definition js_div (a b : Number) : Number := SFdiv prec emax a b.

(** [a < b], [a <= b], [a > b], [a >= b]: false when an operand is NaN. *)
Definition js_lt (a b : Number) : bool := SFltb a b.

Definition js_le (a b : Number) : bool := SFleb a b.

Definition js_gt (a b : Number) : bool := SFltb b a.

Definition js_ge (a b : Number) : bool := SFleb b a.

(** The number that a whole literal denotes: [5000], [0], [100]. *)
Definition num (z : Z) : Number := binary_normalize prec emax z 0 false.

(** The literal [2.5]. *)
Definition two_and_a_half : Number := js_div (num 5) (num 2).

(** A number in a boolean position: [0], [-0] and [NaN] are falsy. *)
Definition falsy (x : Number) : bool :=
  match x with
  | S754_zero _ | S754_nan => true
  | _ => false
  end.

(** [Math.min(a, b)]: NaN when an argument is NaN, and [-0] below [+0]. *)
Definition Math_min (a b : Number) : Number :=
  match a, b with
  | S754_nan, _ | _, S754_nan => S754_nan
  | _, _ =>
    if js_lt a b then a
    else if js_lt b a then b
    else match a with
         | S754_zero true => a
         | _ => b
         end
  end.

(** The whole numbers that doubles represent without rounding. *)
Definition safe (z : Z) : Prop := - 2 ^ 53 < z < 2 ^ 53.

(** The mantissa [m] and the exponent [e] of the double of the whole number
    [a]: 53 bits, the leading one set. *)
Definition whole_repr (a m : positive) (e : Z) : Prop :=
  Zpos (digits2_pos m) = 53 /\ e = Zpos (digits2_pos a) - 53
  /\ Zpos m = Zpos a * 2 ^ (- e).

(** [array.includes(s)] on an array of strings. *)
Definition includes (xs : list string) (s : string) : bool :=
  existsb (String.eqb s) xs.

(** The body handed to [res.status(code).json(..)]. *)
Record Response : Type := mkResponse {
  code : nat;
  message : string;
  error : option string
}.

(* ------------------------------------------------------------------ *)
(** ** Control flow: a state monad with early return and exceptions *)

Inductive step (Res A : Type) : Type :=
| Next (a : A)          (* execution goes on with [a] *)
| Return (r : Res)      (* a [return] statement was executed *)
| Throw (e : JsError).  (* an exception is propagating *)

Arguments Next {Res A} a.
Arguments Return {Res A} r.
Arguments Throw {Res A} e.

Section Flow.
Variables St Res : Type.

Definition M (A : Type) : Type := St -> step Res A * St.

Definition ret {A} (a : A) : M A := fun s => (Next a, s).

Definition bind {A B} (m : M A) (k : A -> M B) : M B :=
  fun s =>
    match m s with
    | (Next a, s') => k a s'
    | (Return r, s') => (Return r, s')
    | (Throw e, s') => (Throw e, s')
    end.

Definition return_ {A} (r : Res) : M A := fun s => (Return r, s).

Definition throw {A} (e : JsError) : M A := fun s => (Throw e, s).

Definition get : M St := fun s => (Next s, s).

Definition modify (f : St -> St) : M unit := fun s => (Next tt, f s).

(** [try { body } catch (error) { handler }] *)
Definition try_catch {A} (body : M A) (handler : JsError -> M A) : M A :=
  fun s =>
    match body s with
    | (Throw e, s') => handler e s'
    | other => other
    end.
End Flow.

Arguments ret {St Res A} a.
Arguments return_ {St Res A} r.
Arguments throw {St Res A} e.
Arguments get {St Res}.
Arguments modify {St Res} f.

Declare Scope flow_scope.
Delimit Scope flow_scope with flow.
Notation "x <- m ;; k" := (bind m (fun x => k))
  (at level 61, m at next level, right associativity) : flow_scope.
Notation "m ;; k" := (bind m (fun _ => k))
  (at level 61, right associativity) : flow_scope.
Open Scope flow_scope.

(** Lexical scoping: an identifier that no enclosing scope binds raises a
    [ReferenceError] when it is evaluated (ES modules are strict). *)
Definition Scope := list string.

Definition ident {St Res} (scope : Scope) (name : string) : M St Res unit :=
  if includes scope name then ret tt else throw (ReferenceError name).

(* ------------------------------------------------------------------ *)
(** ** Documents *)

Record School : Type := mkSchool {
  sc_id : Id;
  sc_name : string;
  sc_email : string;
  paymentProviders : list string      (* the [provider] of each entry *)
}.

Record Fee : Type := mkFee {
  f_id : Id;
  f_schoolId : Id;
  f_amount : Number;
  allowPartialPayment : bool
}.

Record Student : Type := mkStudent {
  st_id : Id;
  st_name : string;
  st_email : string
}.

(** The [data] object of a Paystack verification body or charge event. *)
Record ChargeData : Type := mkChargeData {
  cd_status : string;
  cd_reference : string
}.

(** [providerMetadata] is a Map; the handlers use the keys [paystackRef] and
    [paystackData] only. *)
Record Payment : Type := mkPayment {
  p_id : Id;
  p_studentId : Id;
  p_schoolId : Id;
  p_feeId : Id;
  p_amount : Number;
  paymentProvider : string;
  paystackRef : option string;
  paystackData : option ChargeData;
  p_status : string
}.

Record FeeAssignment : Type := mkFeeAssignment {
  fa_id : Id;
  fa_feeId : Id;
  fa_studentId : Id;
  amountDue : Number;
  amountPaid : Number;
  fa_status : string
}.

Record Receipt : Type := mkReceipt {
  rc_paymentId : Id;
  rc_amount : Number;
  pdfUrl : string
}.

Record AuditItem : Type := mkAuditItem {
  action : string;
  actor : option Id;
  au_paystackRef : option string
}.

Record Refund : Type := mkRefund {
  r_id : Id;
  r_paymentId : Id;
  r_studentId : Id;
  r_schoolId : option Id;
  r_amount : Number;
  reason : string;
  r_status : string;
  fraudScore : Z;
  auditTrail : list AuditItem
}.

(** An entry of TransactionLog, and of the AuditLog behind [logActionUtil]. *)
Record LogEntry : Type := mkLogEntry {
  l_action : string;
  l_paymentId : option Id;
  l_refundId : option Id
}.

Record Db : Type := mkDb {
  fees : list Fee;
  schools : list School;
  students : list Student;
  payments : list Payment;
  assignments : list FeeAssignment;
  receipts : list Receipt;
  refunds : list Refund;
  invoices : list Id;
  transactionLog : list LogEntry;
  auditLog : list LogEntry
}.

Definition set_payments (f : list Payment -> list Payment) (d : Db) : Db :=
  mkDb d.(fees) d.(schools) d.(students) (f d.(payments)) d.(assignments)
       d.(receipts) d.(refunds) d.(invoices) d.(transactionLog) d.(auditLog).

Definition set_assignments (f : list FeeAssignment -> list FeeAssignment)
  (d : Db) : Db :=
  mkDb d.(fees) d.(schools) d.(students) d.(payments) (f d.(assignments))
       d.(receipts) d.(refunds) d.(invoices) d.(transactionLog) d.(auditLog).

Definition set_receipts (f : list Receipt -> list Receipt) (d : Db) : Db :=
  mkDb d.(fees) d.(schools) d.(students) d.(payments) d.(assignments)
       (f d.(receipts)) d.(refunds) d.(invoices) d.(transactionLog)
       d.(auditLog).

Definition set_refunds (f : list Refund -> list Refund) (d : Db) : Db :=
  mkDb d.(fees) d.(schools) d.(students) d.(payments) d.(assignments)
       d.(receipts) (f d.(refunds)) d.(invoices) d.(transactionLog)
       d.(auditLog).

Definition set_invoices (f : list Id -> list Id) (d : Db) : Db :=
  mkDb d.(fees) d.(schools) d.(students) d.(payments) d.(assignments)
       d.(receipts) d.(refunds) (f d.(invoices)) d.(transactionLog)
       d.(auditLog).

Definition set_transactionLog (f : list LogEntry -> list LogEntry) (d : Db)
  : Db :=
  mkDb d.(fees) d.(schools) d.(students) d.(payments) d.(assignments)
       d.(receipts) d.(refunds) d.(invoices) (f d.(transactionLog))
       d.(auditLog).

Definition set_auditLog (f : list LogEntry -> list LogEntry) (d : Db) : Db :=
  mkDb d.(fees) d.(schools) d.(students) d.(payments) d.(assignments)
       d.(receipts) d.(refunds) d.(invoices) d.(transactionLog)
       (f d.(auditLog)).

(** [doc.save()]: the stored document with this [_id] is replaced, a new
    document is appended. *)
Fixpoint save_by {A} (key : A -> Id) (doc : A) (coll : list A) : list A :=
  match coll with
  | [] => [doc]
  | x :: rest =>
      if id_eqb (key x) (key doc) then doc :: rest
      else x :: save_by key doc rest
  end.

(** A handler of the refund or payment routes.  A handler that builds a new
    document takes the ObjectId that [new Model({..})] draws as its first
    argument [_id]. *)
Definition Handler (A : Type) : Type := M Db Response A.

(** [return res.status(c).json({ message: m })], and the same with an
    [error] field. *)
Definition reply {St A} (c : nat) (m : string) : M St Response A :=
  return_ (mkResponse c m None).

Definition reply_error {St A} (c : nat) (m : string) (e : string)
  : M St Response A :=
  return_ (mkResponse c m (Some e)).

Definition TransactionLogModel_create (e : LogEntry) : Handler unit :=
  modify (set_transactionLog (fun l => (l ++ [e])%list)).

(** Modelled from the spec: [logActionUtil] (controller/auditController.js is
    not part of the sources) appends one entry to the audit log. *)
Definition logActionUtil (e : LogEntry) : Handler unit :=
  modify (set_auditLog (fun l => (l ++ [e])%list)).

Definition PaymentModel_findById (i : Id) : Handler (option Payment) :=
  d <- get ;; ret (find (fun p => id_eqb p.(p_id) i) d.(payments)).

(** [PaymentModel.findOne({ "providerMetadata.paystackRef": reference })] *)
Definition PaymentModel_findByRef (reference : string)
  : Handler (option Payment) :=
  d <- get ;;
  ret (find (fun p => match p.(paystackRef) with
                      | Some r => String.eqb r reference
                      | None => false
                      end) d.(payments)).

Definition Payment_save (p : Payment) : Handler unit :=
  modify (set_payments (save_by p_id p)).

Definition RefundModel_findById (i : Id) : Handler (option Refund) :=
  d <- get ;; ret (find (fun r => id_eqb r.(r_id) i) d.(refunds)).

(** [RefundModel.find({ paymentId, status: { $in: statuses } })] *)
Definition refunds_of (paymentId : Id) (statuses : list string)
  (coll : list Refund) : list Refund :=
  filter (fun r => id_eqb r.(r_paymentId) paymentId
                   && includes statuses r.(r_status)) coll.

Definition RefundModel_find (paymentId : Id) (statuses : list string)
  : Handler (list Refund) :=
  d <- get ;; ret (refunds_of paymentId statuses d.(refunds)).

Definition RefundModel_findOne (paymentId : Id) (statuses : list string)
  : Handler (option Refund) :=
  d <- get ;; ret (hd_error (refunds_of paymentId statuses d.(refunds))).

Definition Refund_save (r : Refund) : Handler unit :=
  modify (set_refunds (save_by r_id r)).

Definition SchoolModel_findById (i : Id) : Handler (option School) :=
  d <- get ;; ret (find (fun s => id_eqb s.(sc_id) i) d.(schools)).

(** [.populate('schoolId')]: the reference is replaced by the school
    document, or by [null] when there is none. *)
Definition populate_school (ref : option Id) : Handler (option School) :=
  match ref with
  | None => ret None
  | Some i => SchoolModel_findById i
  end.

(* ------------------------------------------------------------------ *)
(** ** controller/refundController.js *)

(** What the Paystack call of a handler produced: the promise rejected
    (network or JSON error), or a parsed body with its [status] and
    [message] fields ([status] stands for [body.status === true]). *)
Inductive GatewayAnswer : Type :=
| Rejected (e : JsError)
| Answered (status : bool) (msg : string).

(** [existingRefunds.reduce((sum, refund) => sum + refund.amount, 0)] *)
Definition totalRefunded (existingRefunds : list Refund) : Number :=
  fold_left (fun sum refund => js_add sum refund.(r_amount)) existingRefunds
            (num 0).

(** [payment.amount - totalRefunded] over the refunds of the payment that are
    approved or processed. *)
Definition refundableAmount (payment : Payment) (d : Db) : Number :=
  js_sub payment.(p_amount)
         (totalRefunded (refunds_of payment.(p_id) ["approved"; "processed"]
                                    d.(refunds))).

(** The placeholder at the end of the controller. *)
Definition calculateFraudScore (paymentId : Id) (amount : Number)
  (studentId : Id) : Handler Z := ret 0.

Definition with_status (s : string) (r : Refund) : Refund :=
  mkRefund r.(r_id) r.(r_paymentId) r.(r_studentId) r.(r_schoolId)
           r.(r_amount) r.(reason) s r.(fraudScore) r.(auditTrail).

(** [refund.auditTrail.push(item)] *)
Definition push_audit (item : AuditItem) (r : Refund) : Refund :=
  mkRefund r.(r_id) r.(r_paymentId) r.(r_studentId) r.(r_schoolId)
           r.(r_amount) r.(reason) r.(r_status) r.(fraudScore)
           (r.(auditTrail) ++ [item])%list.

(** [toString] is what the template literal makes of the number. *)
Definition invalid_refund_message (toString : Number -> string)
  (refundable : Number) : string :=
  "Invalid refund amount. Maximum refundable: " ++ toString refundable.

Definition requestRefund (toString : Number -> string) (_id : Id)
  (studentId paymentId : Id) (amount : Number) (reason : string)
  : Handler unit :=
  try_catch
    (found <- PaymentModel_findById paymentId ;;
     match found with
     | None => reply 404 "Payment not found"
     | Some payment =>
       school <- populate_school (Some payment.(p_schoolId)) ;;
       if negb (id_eqb payment.(p_studentId) studentId) then
         reply 403 "Unauthorized: Payment does not belong to this student"
       else
         (* the check on payment.status is commented out in the source *)
         existingRefunds <- RefundModel_find paymentId
                              ["approved"; "processed"] ;;
         let totalRefunded := totalRefunded existingRefunds in
         let refundableAmount := js_sub payment.(p_amount) totalRefunded in
         if js_le amount (num 0) || js_gt amount refundableAmount then
           reply 400 (invalid_refund_message toString refundableAmount)
         else
           fraudScore <- calculateFraudScore paymentId amount studentId ;;
           let refund :=
             mkRefund _id paymentId studentId (option_map sc_id school)
                      amount reason "requested" fraudScore
                      [mkAuditItem "refund_requested" (Some studentId) None]
           in
           Refund_save refund ;;
           TransactionLogModel_create
             (mkLogEntry "refund_requested" (Some paymentId) (Some _id)) ;;
           logActionUtil
             (mkLogEntry "refund_requested" (Some paymentId) (Some _id)) ;;
           reply 201 "Refund requested successfully"
     end)
    (fun error => reply_error 500 "Server error" (error_message error)).

(** A string in a boolean position: empty is falsy. *)
Definition truthy (s : option string) : bool :=
  match s with
  | Some r => negb (String.eqb r "")
  | None => false
  end.

Definition reviewRefund (paystack : GatewayAnswer) (adminId refundId : Id)
  (status : string) : Handler unit :=
  try_catch
    (found <- RefundModel_findById refundId ;;
     match found with
     | None => reply 404 "Refund not found"
     | Some refund =>
       school <- populate_school refund.(r_schoolId) ;;
       match school with
       | None =>
         throw (TypeError "Cannot read properties of null (reading '_id')")
       | Some school =>
         if negb (id_eqb school.(sc_id) adminId) then
           reply 403 "Unauthorized: Refund does not belong to this school"
         else
         (* the check on refund.status is commented out in the source *)
         if negb (includes ["approved"; "rejected"] status) then
           reply 400 "Invalid status. Must be approved or rejected"
         else
           let refund :=
             push_audit (mkAuditItem ("refund_" ++ status) (Some adminId) None)
                        (with_status status refund) in
           Refund_save refund ;;
           TransactionLogModel_create
             (mkLogEntry ("refund_" ++ status) (Some refund.(r_paymentId))
                         (Some refund.(r_id))) ;;
           logActionUtil
             (mkLogEntry ("refund_" ++ status) (Some refund.(r_paymentId))
                         (Some refund.(r_id))) ;;
           (if String.eqb status "approved" then
              payment <- PaymentModel_findById refund.(r_paymentId) ;;
              match payment with
              | None => reply 404 "Associated payment not found"
              | Some payment =>
                if negb (String.eqb payment.(paymentProvider) "Paystack") then
                  reply 400 ("Unsupported payment provider: "
                             ++ payment.(paymentProvider))
                else if negb (truthy payment.(paystackRef)) then
                  reply 400 "Paystack reference not found in payment"
                else if negb (includes school.(paymentProviders) "Paystack")
                then reply 400 "Paystack not configured for this school"
                else
                  match paystack with
                  | Rejected e => throw e
                  | Answered true _ =>
                    let refund :=
                      push_audit (mkAuditItem "refund_approved" (Some adminId)
                                              payment.(paystackRef))
                                 (with_status "approved" refund) in
                    Refund_save refund ;;
                    TransactionLogModel_create
                      (mkLogEntry "refund_approved"
                                  (Some refund.(r_paymentId))
                                  (Some refund.(r_id))) ;;
                    logActionUtil
                      (mkLogEntry "refund_approved"
                                  (Some refund.(r_paymentId))
                                  (Some refund.(r_id))) ;;
                    Refund_save refund
                  | Answered false msg =>
                    (* refund.status = 'failed' on the in-memory document;
                       the branch returns without refund.save() *)
                    let refund := with_status "failed" refund in
                    reply_error 400 "Paystack refund initiation failed" msg
                  end
              end
            else ret tt) ;;
           reply 200 ("Refund " ++ status ++ " successfully")
       end
     end)
    (fun error => reply_error 500 "Server error" (error_message error)).

(** The body of a Paystack refund webhook as far as the handler reads it:
    [event.event], and under [event.data] the objects [transaction], with
    its [reference], and [customer], with its [email].  Each of the three
    objects can be missing from the body; a [transaction] object that is
    there carries its [reference] as a string. *)
Record RefundEventData : Type := mkRefundEventData {
  red_transaction : option string;         (* [transaction.reference] *)
  red_customer : option (option string)    (* [customer.email] *)
}.

Record RefundEvent : Type := mkRefundEvent {
  re_event : string;
  re_data : option RefundEventData
}.

(** [event.data.transaction.reference] *)
Definition transaction_reference (event : RefundEvent) : Handler string :=
  match event.(re_data) with
  | None =>
    throw (TypeError
             "Cannot read properties of undefined (reading 'transaction')")
  | Some data =>
    match data.(red_transaction) with
    | None =>
      throw (TypeError
               "Cannot read properties of undefined (reading 'reference')")
    | Some reference => ret reference
    end
  end.

(** [event.data.customer.email] *)
Definition customer_email (event : RefundEvent) : Handler (option string) :=
  match event.(re_data) with
  | None =>
    throw (TypeError
             "Cannot read properties of undefined (reading 'customer')")
  | Some data =>
    match data.(red_customer) with
    | None =>
      throw (TypeError
               "Cannot read properties of undefined (reading 'email')")
    | Some email => ret email
    end
  end.

(** [hash] is the HMAC-SHA512 digest that the handler computes over the
    body, [signature] the [x-paystack-signature] header. *)
Definition handleRefundWebhook (hash signature : string) (event : RefundEvent)
  : Handler unit :=
  try_catch
    (if negb (String.eqb hash signature) then
       reply 401 "Invalid webhook signature"
     else if String.eqb event.(re_event) "refund.processed" then
       reference <- transaction_reference event ;;
       payment <- PaymentModel_findByRef reference ;;
       match payment with
       | None => reply 404 "Payment not found"
       | Some payment =>
         found <- RefundModel_findOne payment.(p_id)
                    ["approved"; "requested"] ;;
         match found with
         | None => reply 404 "Refund not found"
         | Some refund =>
           (if negb (String.eqb refund.(r_status) "processed") then
              let refund :=
                push_audit (mkAuditItem "refund_processed" None
                                        (Some reference))
                           (with_status "processed" refund) in
              Refund_save refund ;;
              TransactionLogModel_create
                (mkLogEntry "refund_processed" (Some refund.(r_paymentId))
                            (Some refund.(r_id))) ;;
              (* the argument of the call reads event.data.customer.email *)
              studentEmail <- customer_email event ;;
              logActionUtil
                (mkLogEntry "refund_processed" (Some refund.(r_paymentId))
                            (Some refund.(r_id)))
            else ret tt) ;;
           reply 200 "Refund webhook processed successfully"
         end
       end
     else if String.eqb event.(re_event) "refund.failed" then
       reference <- transaction_reference event ;;
       payment <- PaymentModel_findByRef reference ;;
       match payment with
       | None => reply 404 "Payment not found"
       | Some payment =>
         found <- RefundModel_findOne payment.(p_id)
                    ["approved"; "requested"] ;;
         match found with
         | None => reply 404 "Refund not found"
         | Some refund =>
           let refund :=
             push_audit (mkAuditItem "refund_failed" None (Some reference))
                        (with_status "failed" refund) in
           Refund_save refund ;;
           TransactionLogModel_create
             (mkLogEntry "refund_failed" (Some refund.(r_paymentId))
                         (Some refund.(r_id))) ;;
           (* the argument of the call reads event.data.customer.email *)
           studentEmail <- customer_email event ;;
           logActionUtil
             (mkLogEntry "refund_failed" (Some refund.(r_paymentId))
                         (Some refund.(r_id))) ;;
           reply 200 "Refund webhook processed successfully"
         end
       end
     else reply 200 "Webhook event ignored")
    (fun error => reply_error 500 "Server error" (error_message error)).

(* ------------------------------------------------------------------ *)
(** ** controller/paymentController.js *)

(** The bindings of the module: its imports, constants and exports. *)
Definition paymentController_scope : Scope :=
  ["https"; "PaymentModel"; "FeeModel"; "SchoolModel"; "TransactionLogModel";
   "logActionUtil"; "createInvoice"; "updateFeeAssignmentStatus"; "axios";
   "FeeAssignmentModel"; "ReceiptModel"; "StudentModel"; "cloudinary";
   "jsPDF"; "sendFraudAlertEmail"; "sendReceipt"; "mongoose"; "COLORS";
   "autoTable"; "checkFraud"; "PAYSTACK_BASE_URL"; "PAYSTACK_SECRET_KEY";
   "initializePayment"; "verifyPayment"; "handleWebhook"].

(** What is in scope in the try block of [initializePayment]: its parameters
    and local constants, and the bindings of the module. *)
Definition initializePayment_scope : Scope :=
  (["req"; "res"; "session"; "feeId"; "amount"; "studentId"; "fee"; "school";
    "paystackProvider"; "schoolId"; "payment"; "params"; "options";
    "paystackRequest"; "assignment"; "student"; "doc"; "pdfBuffer";
    "uploadResult"; "receipt"; "mailOptions"]
   ++ paymentController_scope)%list.

(** A Mongoose session with its transaction: documents saved with
    [{ session }] are held back until [commitTransaction]. *)
Record Tx : Type := mkTx {
  db : Db;
  pendingPayments : list Payment;
  pendingReceipts : list Receipt
}.

Definition Transactional (A : Type) : Type := M Tx Response A.

(** An operation that does not go through the session. *)
Definition direct {A} (h : Handler A) : Transactional A :=
  fun t =>
    let (r, d) := h t.(db) in
    (r, mkTx d t.(pendingPayments) t.(pendingReceipts)).

Definition startTransaction : Transactional unit :=
  modify (fun t => mkTx t.(db) [] []).

Definition abortTransaction : Transactional unit :=
  modify (fun t => mkTx t.(db) [] []).

Definition endSession : Transactional unit :=
  modify (fun t => mkTx t.(db) [] []).

Definition commitTransaction : Transactional unit :=
  modify (fun t =>
    mkTx (set_receipts (fun l => l ++ t.(pendingReceipts))%list
            (set_payments
               (fun l => fold_left (fun c p => save_by p_id p c)
                                   t.(pendingPayments) l)
               t.(db)))
         [] []).

(** [payment.save({ session })] *)
Definition Payment_save_in_session (p : Payment) : Transactional unit :=
  modify (fun t => mkTx t.(db) (t.(pendingPayments) ++ [p])%list
                        t.(pendingReceipts)).

(** [receipt.save({ session })] *)
Definition Receipt_save_in_session (r : Receipt) : Transactional unit :=
  modify (fun t => mkTx t.(db) t.(pendingPayments)
                        (t.(pendingReceipts) ++ [r])%list).

Definition FeeModel_findById (i : Id) : Handler (option Fee) :=
  d <- get ;; ret (find (fun f => id_eqb f.(f_id) i) d.(fees)).

Definition StudentModel_findById (i : Id) : Handler (option Student) :=
  d <- get ;; ret (find (fun s => id_eqb s.(st_id) i) d.(students)).

(** [FeeAssignmentModel.findOne({ feeId, studentId })] *)
Definition FeeAssignmentModel_findOne (feeId studentId : Id)
  : Handler (option FeeAssignment) :=
  d <- get ;;
  ret (find (fun a => id_eqb a.(fa_feeId) feeId
                      && id_eqb a.(fa_studentId) studentId) d.(assignments)).

Definition FeeAssignment_save (a : FeeAssignment) : Handler unit :=
  modify (set_assignments (save_by fa_id a)).

(** The body that the [/transaction/initialize] request resolved with
    ([status], [message], [data.reference], [data.authorization_url]), or the
    rejection of the request. *)
Inductive InitAnswer : Type :=
| InitRejected (e : JsError)
| InitAnswered (status : bool) (msg : string) (reference : string)
               (authorization_url : string).

(** The outcome of the Cloudinary upload of the receipt. *)
Inductive UploadResult : Type :=
| UploadFailed (e : JsError)
| Uploaded (secure_url : string).

Definition set_paystackRef (reference : string) (p : Payment) : Payment :=
  mkPayment p.(p_id) p.(p_studentId) p.(p_schoolId) p.(p_feeId) p.(p_amount)
            p.(paymentProvider) (Some reference) p.(paystackData)
            p.(p_status).

Definition initializePayment_body (paystack : InitAnswer)
  (upload : UploadResult) (_id : Id) (studentId feeId : Id)
  (amount : Number) : Transactional unit :=
  try_catch
    (startTransaction ;;
     found <- direct (FeeModel_findById feeId) ;;
     match found with
     | None => endSession ;; reply 404 "Fee not found"
     | Some fee =>
       (* Check partial payment *)
       if js_lt amount fee.(f_amount) && negb fee.(allowPartialPayment) then
         abortTransaction ;; endSession ;;
         reply 400 "Partial payments not allowed for this fee"
       (* Validate amount *)
       else if js_le amount (num 0) then
         abortTransaction ;; endSession ;;
         reply 400 "Amount must be greater than 0"
       else
         school <- direct (SchoolModel_findById fee.(f_schoolId)) ;;
         match school with
         | None =>
           abortTransaction ;; endSession ;;
           reply 404 "School not found"
         | Some school =>
           if negb (includes school.(paymentProviders) "Paystack") then
             abortTransaction ;; endSession ;;
             reply 400 "Paystack not configured for this school"
           else
             let schoolId := fee.(f_schoolId) in
             let payment :=
               mkPayment _id studentId schoolId feeId amount "Paystack"
                         None None "initiated" in
             match paystack with
             | InitRejected e => throw e
             | InitAnswered false msg _ _ =>
               abortTransaction ;; endSession ;;
               reply_error 500 "Paystack initialization failed" msg
             | InitAnswered true _ reference authorization_url =>
               let payment := set_paystackRef reference payment in
               Payment_save_in_session payment ;;
               assignment <-
                 direct (FeeAssignmentModel_findOne payment.(p_feeId)
                                                    payment.(p_studentId)) ;;
               match assignment with
               | None =>
                 (* returns with the transaction left open *)
                 reply 404 "Fee assignment not found"
               | Some assignment =>
                 let paid :=
                   js_add assignment.(amountPaid) payment.(p_amount) in
                 let assignment :=
                   mkFeeAssignment assignment.(fa_id) assignment.(fa_feeId)
                     assignment.(fa_studentId) assignment.(amountDue) paid
                     (if js_ge paid assignment.(amountDue) then "fully_paid"
                      else "partially_paid") in
                 (* assignment.save() carries no session *)
                 direct (FeeAssignment_save assignment) ;;
                 student <- direct (StudentModel_findById studentId) ;;
                 match student with
                 | None =>
                   abortTransaction ;; endSession ;;
                   reply 404 "Student not found"
                 | Some student =>
                   match upload with
                   | UploadFailed e => throw e
                   | Uploaded secure_url =>
                     let receipt := mkReceipt payment.(p_id) amount secure_url
                     in
                     Receipt_save_in_session receipt ;;
                     ident initializePayment_scope "sendFeeAssignmentEmail" ;;
                     try_catch
                       (direct (TransactionLogModel_create
                                  (mkLogEntry "receipt_generated"
                                              (Some payment.(p_id)) None)))
                       (fun _ => ret tt) ;;
                     commitTransaction ;; endSession ;;
                     reply 200 "Payment initialized successfully"
                   end
                 end
               end
             end
         end
     end)
    (fun error =>
       abortTransaction ;; endSession ;;
       try_catch
         (direct (TransactionLogModel_create
                    (mkLogEntry "payment_initialization_error" None None)))
         (fun _ => ret tt) ;;
       reply_error 500 "Server error" (error_message error)).

(** The handler as the store sees it: what the session still holds when the
    handler is left was never committed. *)
Definition initializePayment (paystack : InitAnswer) (upload : UploadResult)
  (_id : Id) (studentId feeId : Id) (amount : Number) : Handler unit :=
  fun d =>
    let (r, t) := initializePayment_body paystack upload _id studentId feeId
                    amount (mkTx d [] []) in
    (r, t.(db)).

(** Modelled from the spec: [createInvoice] (controller/invoiceController.js
    is not part of the sources) generates one invoice for the payment. *)
Definition createInvoice (paymentId : Id) : Handler unit :=
  modify (set_invoices (fun l => l ++ [paymentId])%list).

(** Modelled from the spec: [updateFeeAssignmentStatus]
    (controller/feeAssignController.js is not part of the sources) is the
    settlement step: it increments [amountPaid] of the payment's fee
    assignment by the payment's amount and recomputes the status, which is
    [fully_paid] iff [amountPaid >= amountDue], else [partially_paid] if
    [amountPaid > 0], else what it was. *)
Definition updateFeeAssignmentStatus (paymentId : Id) : Handler unit :=
  found <- PaymentModel_findById paymentId ;;
  match found with
  | None => ret tt
  | Some payment =>
    assignment <- FeeAssignmentModel_findOne payment.(p_feeId)
                                             payment.(p_studentId) ;;
    match assignment with
    | None => ret tt
    | Some a =>
      let paid := js_add a.(amountPaid) payment.(p_amount) in
      FeeAssignment_save
        (mkFeeAssignment a.(fa_id) a.(fa_feeId) a.(fa_studentId)
           a.(amountDue) paid
           (if js_ge paid a.(amountDue) then "fully_paid"
            else if js_gt paid (num 0) then "partially_paid"
            else a.(fa_status)))
    end
  end.

(** The answer of [axios.get] on [/transaction/verify/:reference]: a
    rejection, or [response.data] with its [status], [message] and [data]. *)
Inductive VerifyAnswer : Type :=
| VerifyRejected (e : JsError)
| VerifyAnswered (status : bool) (msg : string) (data : ChargeData).

Definition set_p_status (s : string) (p : Payment) : Payment :=
  mkPayment p.(p_id) p.(p_studentId) p.(p_schoolId) p.(p_feeId) p.(p_amount)
            p.(paymentProvider) p.(paystackRef) p.(paystackData) s.

Definition set_paystackData (data : ChargeData) (p : Payment) : Payment :=
  mkPayment p.(p_id) p.(p_studentId) p.(p_schoolId) p.(p_feeId) p.(p_amount)
            p.(paymentProvider) p.(paystackRef) (Some data) p.(p_status).

Definition verifyPayment (paystack : VerifyAnswer) (reference : string)
  : Handler unit :=
  try_catch
    (found <- PaymentModel_findByRef reference ;;
     match found with
     | None => reply 404 "Payment not found"
     | Some payment =>
       match paystack with
       | VerifyRejected e => throw e
       | VerifyAnswered status msg data =>
         if status && String.eqb data.(cd_status) "success" then
           let payment :=
             set_paystackData data (set_p_status "confirmed" payment) in
           Payment_save payment ;;
           TransactionLogModel_create
             (mkLogEntry "payment_confirmed" (Some payment.(p_id)) None) ;;
           logActionUtil
             (mkLogEntry "payment_confirmed" (Some payment.(p_id)) None) ;;
           createInvoice payment.(p_id) ;;
           updateFeeAssignmentStatus payment.(p_id) ;;
           reply 200 "Payment verified successfully"
         else
           let payment := set_p_status "rejected" payment in
           Payment_save payment ;;
           logActionUtil
             (mkLogEntry "payment_rejected" (Some payment.(p_id)) None) ;;
           reply_error 400 "Payment verification failed" msg
       end
     end)
    (fun error => reply_error 500 "Server error" (error_message error)).

(** The body of a Paystack charge webhook. *)
Record ChargeEvent : Type := mkChargeEvent {
  ce_event : string;
  ce_data : ChargeData
}.

Definition handleWebhook (event : ChargeEvent) : Handler unit :=
  try_catch
    (if String.eqb event.(ce_event) "charge.success" then
       let reference := event.(ce_data).(cd_reference) in
       found <- PaymentModel_findByRef reference ;;
       match found with
       | None => reply 404 "Payment not found"
       | Some payment =>
         (if negb (String.eqb payment.(p_status) "confirmed") then
            let payment :=
              set_paystackData event.(ce_data)
                               (set_p_status "confirmed" payment) in
            Payment_save payment ;;
            TransactionLogModel_create
              (mkLogEntry "payment_confirmed" (Some payment.(p_id)) None) ;;
            logActionUtil
              (mkLogEntry "payment_confirmed" (Some payment.(p_id)) None) ;;
            createInvoice payment.(p_id) ;;
            updateFeeAssignmentStatus payment.(p_id)
          else ret tt) ;;
         reply 200 "Webhook processed successfully"
       end
     else if String.eqb event.(ce_event) "charge.failed" then
       let reference := event.(ce_data).(cd_reference) in
       found <- PaymentModel_findByRef reference ;;
       match found with
       | None => reply 404 "Payment not found"
       | Some payment =>
         let payment := set_p_status "rejected" payment in
         Payment_save payment ;;
         TransactionLogModel_create
           (mkLogEntry "payment_rejected" (Some payment.(p_id)) None) ;;
         logActionUtil
           (mkLogEntry "payment_rejected" (Some payment.(p_id)) None) ;;
         reply 200 "Webhook processed successfully"
       end
     else reply 200 "Webhook event ignored")
    (fun error => reply_error 500 "Server error" (error_message error)).

(* ------------------------------------------------------------------ *)
(** ** utils/fraudDetection.js *)

Module FraudDetection.

(** [Math.min((reconstruction_error / (threshold * 2.5)) * 100, 100)] *)
Definition fraudScoreOf (reconstruction_error threshold : Number) : Number :=
  Math_min
    (js_mul (js_div reconstruction_error (js_mul threshold two_and_a_half))
            (num 100))
    (num 100).

Definition mapStudentType (studentType : string) : string :=
  let universityTypes := ["Full-time"; "Part-time"; "Foreign"] in
  if includes universityTypes studentType then "university" else "middle".

Definition mapPaymentMethod (paymentProvider : string) : string :=
  if String.eqb paymentProvider "Paystack" then "Mobile Money" else "Bank".

(** The feature vector sent to the anomaly API. *)
Record RequestData : Type := mkRequestData {
  fee_amount_due : Number;
  amount_paid : Number;
  payment_method : string;
  student_type : string;
  is_new_device : bool;
  student_name_match : bool;
  time_since_last_payment_days : Z
}.

Record QueueEntry : Type := mkQueueEntry {
  q_paymentId : Id;
  requestData : RequestData;
  q_status : string;
  retries : Z
}.

(** The collections that [checkFraud] writes. *)
Record Store : Type := mkStore {
  transactionLog : list string;        (* the [action] of each entry *)
  fraudLog : list Number;              (* the [reconstruction_error] *)
  fraudCheckQueue : list QueueEntry
}.

(** What the lookups and the anomaly API answer during one call.  A number
    that the body of the answer lacks is [undefined], which is NaN in the
    arithmetic of the score. *)
Inductive OracleAnswer : Type :=
| OracleRejected (e : JsError)
| OracleAnswered (reconstruction_error threshold : Number)
                 (anomaly_scale : option string).

Record World : Type := mkWorld {
  (* StudentModel.findById: [registrationInfo.studentType] of the student *)
  w_student : option (option string);
  (* FeeAssignmentModel.findOne: [amountDue] of the document found *)
  w_feeAssignment : option Number;
  (* the device of the last payment_initiated/payment_confirmed entry *)
  w_lastTransaction : option string;
  (* whole days since the last confirmed payment *)
  w_lastPayment : option Z;
  w_oracle : OracleAnswer
}.

Record Result : Type := mkResult {
  fraudScore : Number;
  anomaly_scale : option string
}.

Definition Check (A : Type) : Type := M Store Result A.

Definition TransactionLogModel_create (action : string) : Check unit :=
  modify (fun s => mkStore (s.(transactionLog) ++ [action])%list s.(fraudLog)
                           s.(fraudCheckQueue)).

Definition FraudLogModel_create (reconstruction_error : Number)
  : Check unit :=
  modify (fun s => mkStore s.(transactionLog)
                           (s.(fraudLog) ++ [reconstruction_error])%list
                           s.(fraudCheckQueue)).

Definition FraudCheckQueueModel_create (e : QueueEntry) : Check unit :=
  modify (fun s => mkStore s.(transactionLog) s.(fraudLog)
                           (s.(fraudCheckQueue) ++ [e])%list).

(** An identifier in an expression: its value [v] where [scope] binds it, a
    [ReferenceError] where it does not. *)
Definition binding {A} (scope : Scope) (name : string) (v : A) : Check A :=
  ident scope name ;; ret v.

(** The bindings of the module (imports and top-level constants), of the
    function (parameters), and of the two blocks of its try statement. *)
Definition module_scope : Scope :=
  ["axios"; "TransactionLogModel"; "FraudCheckQueueModel"; "PaymentModel";
   "StudentModel"; "FeeAssignmentModel"; "ANOMALY_API_URL"; "mapStudentType";
   "mapPaymentMethod"; "checkFraud"].

Definition function_scope : Scope :=
  (["payment"; "req"; "session"] ++ module_scope)%list.

Definition try_scope : Scope :=
  (["student"; "feeAssignment"; "lastTransaction"; "isNewDevice";
    "lastPayment"; "timeSinceLastPaymentDays"; "requestData"; "response";
    "reconstruction_error"; "threshold"; "anomaly_scale"; "fraudScore"]
   ++ function_scope)%list.

Definition catch_scope : Scope := ("error" :: function_scope)%list.

(** [s || 'Full-time'] *)
Definition or_default (s : option string) (d : string) : string :=
  if truthy s then match s with Some x => x | None => d end else d.

Definition checkFraud (w : World) (payment : Payment) (userAgent : string)
  : Check unit :=
  try_catch
    (ident try_scope "StudentModel" ;;
     match w.(w_student) with
     | None => throw (Error "Student not found")
     | Some student =>
     ident try_scope "FeeAssignmentModel" ;;
     match w.(w_feeAssignment) with
     | None => throw (Error "Fee assignment not found")
     | Some feeAssignment =>
       (* Check for previous device info *)
       ident try_scope "TransactionLogModel" ;;
       let lastTransaction := w.(w_lastTransaction) in
       let isNewDevice :=
         match lastTransaction with
         | None => true
         | Some deviceInfo => negb (String.eqb deviceInfo userAgent)
         end in
       (* Calculate time since last payment *)
       ident try_scope "PaymentModel" ;;
       let timeSinceLastPaymentDays :=
         match w.(w_lastPayment) with
         | Some days => days
         | None => 30
         end in
       let requestData :=
         mkRequestData feeAssignment payment.(p_amount)
           (mapPaymentMethod payment.(paymentProvider))
           (mapStudentType (or_default student "Full-time"))
           isNewDevice true timeSinceLastPaymentDays in
       ident try_scope "axios" ;;
       match w.(w_oracle) with
       | OracleRejected e => throw e
       | OracleAnswered reconstruction_error threshold anomaly_scale =>
         (* Scale reconstruction_error to 0-100 *)
         let fraudScore := fraudScoreOf reconstruction_error threshold in
         (* Log API call in TransactionLog *)
         ident try_scope "TransactionLogModel" ;;
         TransactionLogModel_create "fraud_check" ;;
         (* Log fraud evaluation in FraudLog *)
         ident try_scope "FraudLogModel" ;;
         FraudLogModel_create reconstruction_error ;;
         return_ (mkResult fraudScore anomaly_scale)
       end
     end
     end)
    (fun error =>
       (* Log error in TransactionLog *)
       ident catch_scope "TransactionLogModel" ;;
       TransactionLogModel_create "fraud_check_error" ;;
       (* Queue for retry: the arguments of the call are evaluated first *)
       ident catch_scope "FraudCheckQueueModel" ;;
       feeAssignment <-
         binding catch_scope "feeAssignment" w.(w_feeAssignment) ;;
       student <- binding catch_scope "student" w.(w_student) ;;
       isNewDevice <- binding catch_scope "isNewDevice" false ;;
       timeSinceLastPaymentDays <-
         binding catch_scope "timeSinceLastPaymentDays" 0 ;;
       FraudCheckQueueModel_create
         (mkQueueEntry payment.(p_id)
            (mkRequestData
               (match feeAssignment with            (* ?.amountDue || 0 *)
                | Some due => if falsy due then num 0 else due
                | None => num 0
                end)
               payment.(p_amount)
               (mapPaymentMethod payment.(paymentProvider))
               (mapStudentType
                  (or_default (match student with
                               | Some studentType => studentType
                               | None => None
                               end) "Full-time"))
               (isNewDevice || true)
               true
               (if timeSinceLastPaymentDays =? 0 then 30
                else timeSinceLastPaymentDays))
            "queued" 0) ;;
       return_ (mkResult (num 0) (Some "Low"))).

End FraudDetection.

(* ------------------------------------------------------------------ *)
(** ** Sample stores *)

(** One school (id 3) with Paystack configured, one student (id 7), one fee
    of 5000 (id 5) that forbids partial payment, and the student's fee
    assignment with nothing paid yet. *)
Definition school3 : School := mkSchool 3 "Hilltop" "bursar@hilltop.example"
                                        ["Paystack"].

Definition fee5 : Fee := mkFee 5 3 (num 5000) false.

Definition student7 : Student := mkStudent 7 "Ada" "ada@hilltop.example".

Definition assignment9 : FeeAssignment :=
  mkFeeAssignment 9 5 7 (num 5000) (num 0) "assigned".

Definition emptyDb : Db :=
  mkDb [fee5] [school3] [student7] [] [assignment9] [] [] [] [] [].

(** A payment of 5000 by student 7 with gateway reference [PAY-1], in the
    given status. *)
Definition payment1 (status : string) : Payment :=
  mkPayment 1 7 3 5 (num 5000) "Paystack" (Some "PAY-1") None status.

Definition dbWithPayment (status : string) : Db :=
  set_payments (fun _ => [payment1 status]) emptyDb.

(** A refund (id 10) of that payment, in the given status. *)
Definition refund10 (status : string) : Refund :=
  mkRefund 10 1 7 (Some 3) (num 2000) "duplicate charge" status 0
           [mkAuditItem "refund_requested" (Some 7) None].

Definition dbWithRefund (status : string) : Db :=
  set_refunds (fun _ => [refund10 status]) (dbWithPayment "confirmed").

(** The store after a handler has run. *)
Definition after {A} (h : Handler A) (d : Db) : Db := snd (h d).

(** The reply of a handler. *)
Definition response_of {A} (h : Handler A) (d : Db) : step Response A :=
  fst (h d).

(** [findById] on the stored refunds and payments. *)
Definition stored_refund (i : Id) (d : Db) : option Refund :=
  find (fun r => id_eqb r.(r_id) i) d.(refunds).

Definition stored_payment (i : Id) (d : Db) : option Payment :=
  find (fun p => id_eqb p.(p_id) i) d.(payments).

(** [findOne] by gateway reference on the stored payments. *)
Definition payment_by_ref (reference : string) (d : Db) : option Payment :=
  find (fun p => match p.(paystackRef) with
                 | Some r => String.eqb r reference
                 | None => false
                 end) d.(payments).

(** The status of the stored payment with this id. *)
Definition payment_status (i : Id) (d : Db) : option string :=
  option_map p_status (stored_payment i d).

(** Gateway answers and events about the payment with reference [PAY-1]. *)
Definition chargeData1 (status : string) : ChargeData :=
  mkChargeData status "PAY-1".

Definition verifiedOk : VerifyAnswer :=
  VerifyAnswered true "Verification successful" (chargeData1 "success").


Definition chargeSuccess : ChargeEvent :=
  mkChargeEvent "charge.success" (chargeData1 "success").


(** The replies of [initializePayment] to a partial payment and to an
    exception, and the store with the error entry that its catch block
    writes. *)
Definition partial_not_allowed : Response :=
  mkResponse 400 "Partial payments not allowed for this fee" None.

Definition server_error (e : JsError) : Response :=
  mkResponse 500 "Server error" (Some (error_message e)).

Definition error_logged (d : Db) : Db :=
  set_transactionLog
    (fun l => l ++ [mkLogEntry "payment_initialization_error" None None])%list
    d.

(** The gateway accepted the initialization of payment [PAY-1]. *)
Definition initializedOk : InitAnswer :=
  InitAnswered true "Authorization URL created" "PAY-1"
               "https://checkout.paystack.example/PAY-1".

(** The whole number that a double is, if it is one. *)
Definition whole_value (x : Number) : option Z :=
  match x with
  | S754_zero _ => Some 0
  | S754_finite s m e =>
    let z := if s then Zneg m else Zpos m in
    if 0 <=? e then Some (z * 2 ^ e)
    else if Zpos m mod 2 ^ (- e) =? 0 then Some (z / 2 ^ (- e))
    else None
  | _ => None
  end.

(** The text of the whole numbers of the sample stores; other numbers do not
    occur there. *)
Definition sample_toString (x : Number) : string :=
  match whole_value x with
  | Some z => string_of_Z z
  | None => ""
  end.

(** The sum of a list of whole numbers. *)
Definition total (zs : list Z) : Z := fold_right Z.add 0 zs.

(** A signed refund event about the payment with reference [PAY-1], with
    all the objects that the handler reads. *)
Definition refundEvent1 (type : string) : RefundEvent :=
  mkRefundEvent type
    (Some (mkRefundEventData (Some "PAY-1")
                             (Some (Some "ada@hilltop.example")))).

(** What a refund event carries: the reference under [data.transaction],
    and the email under [data.customer], each [None] when the object that
    holds it is missing. *)
Definition reference_of (event : RefundEvent) : option string :=
  match event.(re_data) with
  | Some data => data.(red_transaction)
  | None => None
  end.

Definition customer_of (event : RefundEvent) : option (option string) :=
  match event.(re_data) with
  | Some data => data.(red_customer)
  | None => None
  end.

(** The sum that the refund cap is about. *)
Definition refundedTotal (paymentId : Id) (d : Db) : Number :=
  totalRefunded (refunds_of paymentId ["approved"; "processed"] d.(refunds)).

(** What [reviewRefund] does up to and including the first save, for a
    refund of the reviewing school and an accepted decision word. *)
Definition decided (adminId : Id) (status : string) (refund : Refund)
  : Refund :=
  push_audit (mkAuditItem ("refund_" ++ status) (Some adminId) None)
             (with_status status refund).

Definition decision_recorded (adminId : Id) (status : string)
  (refund : Refund) (d : Db) : Db :=
  set_auditLog
    (fun l => l ++ [mkLogEntry ("refund_" ++ status)
                               (Some refund.(r_paymentId))
                               (Some refund.(r_id))])%list
    (set_transactionLog
       (fun l => l ++ [mkLogEntry ("refund_" ++ status)
                                  (Some refund.(r_paymentId))
                                  (Some refund.(r_id))])%list
       (set_refunds (save_by r_id (decided adminId status refund)) d)).

(* ------------------------------------------------------------------ *)
(** ** controller/refundController.js: the read handlers *)

(** A reference path of a document that is sent to the client: the stored
    id where the query does not populate the path, else the document that
    [populate] found, or [null]. *)
Inductive Ref (A : Type) : Type :=
| Unpopulated (i : option Id)
| Populated (doc : option A).

Arguments Unpopulated {A} i.
Arguments Populated {A} doc.

Record RefundView : Type := mkRefundView {
  v_refund : Refund;
  v_payment : Ref Payment;
  v_student : Ref Student;
  v_school : Ref School
}.

(** [{ success, refunds }], [{ success, refund }] or
    [{ success, message, error }]. *)
Inductive RefundsBody : Type :=
| Refunds (refunds : list RefundView)
| OneRefund (refund : RefundView)
| Failure (msg : string) (err : option string).

Record RefundsReply : Type := mkRefundsReply {
  rr_code : nat;
  rr_success : bool;
  rr_body : RefundsBody
}.

Definition Query (A : Type) : Type := M Db RefundsReply A.

(** [.populate('paymentId studentId schoolId')] and
    [.populate('paymentId schoolId')]. *)
Definition populate_refund (withStudent : bool) (d : Db) (r : Refund)
  : RefundView :=
  mkRefundView r
    (Populated (find (fun p => id_eqb p.(p_id) r.(r_paymentId)) d.(payments)))
    (if withStudent
     then Populated (find (fun s => id_eqb s.(st_id) r.(r_studentId))
                          d.(students))
     else Unpopulated (Some r.(r_studentId)))
    (Populated (match r.(r_schoolId) with
                | Some i => find (fun s => id_eqb s.(sc_id) i) d.(schools)
                | None => None
                end)).

Definition getAllRefunds : Query unit :=
  try_catch
    (d <- get ;;
     let refunds := map (populate_refund true d) d.(refunds) in
     return_ (mkRefundsReply 200 true (Refunds refunds)))
    (fun error =>
       return_ (mkRefundsReply 500 false
                  (Failure "Server error" (Some (error_message error))))).

Definition getStudentRefunds (studentId : Id) : Query unit :=
  try_catch
    (d <- get ;;
     let refunds :=
       map (populate_refund false d)
           (filter (fun r => id_eqb r.(r_studentId) studentId) d.(refunds)) in
     return_ (mkRefundsReply 200 true (Refunds refunds)))
    (fun error =>
       return_ (mkRefundsReply 500 false
                  (Failure "Server error" (Some (error_message error))))).

Definition getRefundById (id : Id) : Query unit :=
  try_catch
    (d <- get ;;
     match find (fun r => id_eqb r.(r_id) id) d.(refunds) with
     | None =>
       return_ (mkRefundsReply 404 false (Failure "Refund not found" None))
     | Some refund =>
       return_ (mkRefundsReply 200 true
                  (OneRefund (populate_refund true d refund)))
     end)
    (fun error =>
       return_ (mkRefundsReply 500 false
                  (Failure "Server error" (Some (error_message error))))).

(** The refunds of a reply, without what [populate] added. *)
Definition listed (r : step RefundsReply unit) : list Refund :=
  match r with
  | Return (mkRefundsReply _ _ (Refunds views)) => map v_refund views
  | Return (mkRefundsReply _ _ (OneRefund view)) => [view.(v_refund)]
  | _ => []
  end.

(* ------------------------------------------------------------------ *)
(** ** middleware/auth.js *)

Module Auth.

(** [s.startsWith(prefix)] *)
Fixpoint starts_with (prefix s : string) : bool :=
  match prefix, s with
  | EmptyString, _ => true
  | String a p, String b t => Ascii.eqb a b && starts_with p t
  | String _ _, EmptyString => false
  end.

(** [s.split(sep)] for a separator that is not empty: [piece] is the piece
    read so far, [skip] the number of characters of a separator that was
    found and is still to be passed over. *)
Fixpoint split_from (sep s piece : string) (skip : nat) : list string :=
  match s with
  | EmptyString => [piece]
  | String c rest =>
    match skip with
    | S k => split_from sep rest piece k
    | O =>
      if starts_with sep s
      then piece :: split_from sep rest EmptyString (String.length sep - 1)
      else split_from sep rest (piece ++ String c EmptyString) O
    end
  end.

Definition split (s sep : string) : list string :=
  split_from sep s EmptyString O.

(** The string contains a space. *)
Fixpoint has_space (s : string) : bool :=
  match s with
  | EmptyString => false
  | String c rest => Ascii.eqb c Ascii.Space || has_space rest
  end.

(** [req.headers.authorization?.split("Bearer ")[1]] *)
Definition bearer_token (authorization : option string) : option string :=
  match authorization with
  | None => None
  | Some header => nth_error (split header "Bearer ") 1
  end.

(** What the middleware reads of a school and of a student. *)
Record SchoolDoc : Type := mkSchoolDoc {
  school_id : Id;
  school_email : string;
  isVerified : bool
}.

Record StudentDoc : Type := mkStudentDoc {
  student_id : Id;
  student_email : string;
  student_schoolId : Id;
  studentId : string
}.

Record Accounts : Type := mkAccounts {
  schools : list SchoolDoc;
  students : list StudentDoc
}.

(** The payload of a token. *)
Record Decoded : Type := mkDecoded {
  decoded_id : Id;
  isTemp : bool
}.

(** [jwt.verify(token, secret)]: the payload, or the error it throws. *)
Definition Verify : Type := string -> string -> JsError + Decoded.

(** [req.user] *)
Record User : Type := mkUser {
  user_id : Id;
  user_email : string;
  user_schoolId : option Id;
  user_studentId : option string
}.

(** [{ success: false, message }] *)
Record Denial : Type := mkDenial {
  denial_code : nat;
  denial_message : string
}.

(** A middleware either answers itself or sets [req.user] and calls
    [next()]. *)
Definition Middleware : Type := M Accounts Denial User.

(** [error.message || "Unauthorized"] *)
Definition message_or_unauthorized (e : JsError) : string :=
  if String.eqb (error_message e) "" then "Unauthorized" else error_message e.

Definition jwt_verify (verify : Verify) (token secret : string)
  : M Accounts Denial Decoded :=
  match verify token secret with
  | inl e => throw e
  | inr decoded => ret decoded
  end.

Definition authenticateSchool (verify : Verify) (JWT_SECRET : string)
  (authorization : option string) : Middleware :=
  try_catch
    (let token := bearer_token authorization in
     if negb (truthy token) then throw (Error "No token provided")
     else
       decoded <- jwt_verify verify
                    (match token with Some t => t | None => "" end)
                    JWT_SECRET ;;
       a <- get ;;
       match find (fun s => id_eqb s.(school_id) decoded.(decoded_id))
                  a.(schools) with
       | None => throw (Error "School not found")
       | Some school =>
         if negb decoded.(isTemp) && negb school.(isVerified) then
           throw (Error "MFA verification required")
         else
           ret (mkUser school.(school_id) school.(school_email) None None)
       end)
    (fun error => return_ (mkDenial 401 (message_or_unauthorized error))).

Definition authenticateStudent (verify : Verify) (STUDENT_JWT_SECRET : string)
  (authorization : option string) : Middleware :=
  try_catch
    (let token := bearer_token authorization in
     if negb (truthy token) then throw (Error "No token provided")
     else
       decoded <- jwt_verify verify
                    (match token with Some t => t | None => "" end)
                    STUDENT_JWT_SECRET ;;
       a <- get ;;
       match find (fun s => id_eqb s.(student_id) decoded.(decoded_id))
                  a.(students) with
       | None => throw (Error "Student not found")
       | Some student =>
         ret (mkUser student.(student_id) student.(student_email)
                     (Some student.(student_schoolId))
                     (Some student.(studentId)))
       end)
    (fun error => return_ (mkDenial 401 (message_or_unauthorized error))).

Definition verifySchoolToken (verify : Verify) (JWT_SECRET : string)
  (authorization : option string) : Middleware :=
  try_catch
    (let token := bearer_token authorization in
     if negb (truthy token) then return_ (mkDenial 401 "No token provided")
     else
       decoded <- jwt_verify verify
                    (match token with Some t => t | None => "" end)
                    JWT_SECRET ;;
       a <- get ;;
       match find (fun s => id_eqb s.(school_id) decoded.(decoded_id))
                  a.(schools) with
       | None => return_ (mkDenial 404 "School not found")
       | Some school =>
         ret (mkUser school.(school_id) school.(school_email) None None)
       end)
    (fun error => return_ (mkDenial 401 "Invalid token")).

(** A verifier that accepts the token [tok-3] as a full token of school 3
    and [tmp-3] as a temporary one, and an account store with the school
    not yet verified. *)
Definition sampleVerify : Verify :=
  fun token secret =>
    if String.eqb secret "school-secret" then
      if String.eqb token "tok-3" then inr (mkDecoded 3 false)
      else if String.eqb token "tmp-3" then inr (mkDecoded 3 true)
      else inl (Error "invalid signature")
    else inl (Error "invalid signature").

Definition sampleAccounts : Accounts :=
  mkAccounts [mkSchoolDoc 3 "bursar@hilltop.example" false]
             [mkStudentDoc 7 "ada@hilltop.example" 3 "HT-0007"].

End Auth.

(* ------------------------------------------------------------------ *)
(** ** controller/studentController.js: login *)

Module Login.

Record StudentDoc : Type := mkStudentDoc {
  s_id : Id;
  s_name : string;
  s_email : string;
  s_password : string;         (* the stored hash *)
  s_studentId : string;
  s_schoolId : Id;
  s_department : option string;
  s_yearOfStudy : option Z
}.

(** A TransactionLog entry as far as [login] writes and counts it;
    [createdAt] is the time of the save in milliseconds. *)
Record LogDoc : Type := mkLogDoc {
  action : string;
  log_studentId : option Id;
  log_ip : string;
  log_fraudScore : option Z;
  createdAt : Z
}.

Record RefreshTokenDoc : Type := mkRefreshTokenDoc {
  rt_studentId : Id;
  rt_token : string;
  rt_expiresAt : Z
}.

Record NotificationDoc : Type := mkNotificationDoc {
  recipient : string;
  n_type : string;
  n_studentId : Id
}.

Record Store : Type := mkStore {
  students : list StudentDoc;
  transactionLog : list LogDoc;
  refreshTokens : list RefreshTokenDoc;
  notifications : list NotificationDoc
}.

(** The session of the handler: what was saved with [{ session }] and is
    not committed yet. *)
Record Session : Type := mkSession {
  store : Store;
  inTransaction : bool;
  pendingLogs : list LogDoc;
  pendingTokens : list RefreshTokenDoc;
  pendingNotifications : list NotificationDoc
}.

(** The collaborators of the handler and its configuration. *)
Record Env : Type := mkEnv {
  isEmail : string -> bool;                       (* validator.isEmail *)
  compare : string -> string -> bool;             (* bcrypt.compare *)
  sign : StudentDoc -> string;                    (* the access token *)
  signRefresh : StudentDoc -> string;             (* the refresh token *)
  mail : option JsError;         (* the error of the one email sent, if any *)
  MAX_LOGIN_ATTEMPTS : Z
}.

Record Request : Type := mkRequest {
  email : option string;
  password : option string;
  ip : string;
  userAgent : string;
  now : Z                                         (* Date.now() *)
}.

(** The [data] of the 200 reply. *)
Record Profile : Type := mkProfile {
  profile_id : Id;
  profile_name : string;
  profile_email : string;
  profile_studentId : string;
  profile_schoolId : Id;
  profile_department : option string;
  profile_yearOfStudy : option Z
}.

Record Reply : Type := mkReply {
  status : nat;
  success : bool;
  msg : option string;
  data : option Profile;
  token : option string;
  refreshToken : option string
}.

Definition Flow (A : Type) : Type := M Session Reply A.

Definition startTransaction : Flow unit :=
  modify (fun t => mkSession t.(store) true [] [] []).

Definition abortTransaction : Flow unit :=
  modify (fun t => mkSession t.(store) false [] [] []).

Definition commitTransaction : Flow unit :=
  modify (fun t =>
    mkSession
      (mkStore t.(store).(students)
               (t.(store).(transactionLog) ++ t.(pendingLogs))%list
               (t.(store).(refreshTokens) ++ t.(pendingTokens))%list
               (t.(store).(notifications) ++ t.(pendingNotifications))%list)
      false [] [] []).

(** [session.endSession()]: an open transaction is dropped. *)
Definition endSession (t : Session) : Session :=
  mkSession t.(store) false [] [] [].

(** [new TransactionLog(..).save()] without a session. *)
Definition save_log (l : LogDoc) : Flow unit :=
  modify (fun t =>
    mkSession (mkStore t.(store).(students)
                       (t.(store).(transactionLog) ++ [l])%list
                       t.(store).(refreshTokens) t.(store).(notifications))
              t.(inTransaction) t.(pendingLogs) t.(pendingTokens)
              t.(pendingNotifications)).

Definition save_log_in_session (l : LogDoc) : Flow unit :=
  modify (fun t =>
    mkSession t.(store) t.(inTransaction) (t.(pendingLogs) ++ [l])%list
              t.(pendingTokens) t.(pendingNotifications)).

Definition save_token_in_session (r : RefreshTokenDoc) : Flow unit :=
  modify (fun t =>
    mkSession t.(store) t.(inTransaction) t.(pendingLogs)
              (t.(pendingTokens) ++ [r])%list t.(pendingNotifications)).

Definition save_notification_in_session (n : NotificationDoc) : Flow unit :=
  modify (fun t =>
    mkSession t.(store) t.(inTransaction) t.(pendingLogs) t.(pendingTokens)
              (t.(pendingNotifications) ++ [n])%list).

(** The [student_login_failure] entries of this address since [since]. *)
Definition recent_failure (address : string) (since : Z) (l : LogDoc) : bool :=
  String.eqb l.(action) "student_login_failure"
  && String.eqb l.(log_ip) address
  && (since <=? l.(createdAt)).

(** [TransactionLog.countDocuments({ action, "metadata.ip", createdAt })] *)
Definition failedAttempts (address : string) (since : Z) (s : Store) : Z :=
  Z.of_nat (List.length (filter (recent_failure address since)
                                s.(transactionLog))).

(** [Math.min(failedAttempts * 20, 100)] *)
Definition failure_score (failedAttempts : Z) : Z :=
  Z.min (failedAttempts * 20) 100.

Definition logFailedLogin (address : string) (studentId : option Id)
  (failedAttempts : Z) (time : Z) : Flow unit :=
  try_catch
    (let fraudScore := failure_score failedAttempts in
     save_log (mkLogDoc "student_login_failure" studentId address
                        (Some fraudScore) time))
    (fun _ => ret tt).

(** The email of the request and the notification that follows it, or the
    [notification_failure] entry when the email fails. *)
Definition notify (env : Env) (req : Request) (student : StudentDoc)
  (type : string) : Flow unit :=
  try_catch
    (match env.(mail) with
     | Some e => throw e
     | None =>
       save_notification_in_session
         (mkNotificationDoc student.(s_email) type student.(s_id))
     end)
    (fun notificationError =>
       save_log_in_session
         (mkLogDoc "notification_failure" (Some student.(s_id)) req.(ip)
                   None req.(now))).

Definition invalid_credentials : Reply :=
  mkReply 401 false (Some "Invalid credentials") None None None.

(** [missingFields.join(", ")] *)
Fixpoint join (l : list string) : string :=
  match l with
  | [] => ""
  | [x] => x
  | x :: rest => x ++ ", " ++ join rest
  end.

Definition login_body (env : Env) (req : Request) : Flow unit :=
  try_catch
    (startTransaction ;;
     let missingFields :=
       ((if truthy req.(email) then [] else ["email"])
        ++ (if truthy req.(password) then [] else ["password"]))%list in
     if (0 <? Z.of_nat (List.length missingFields)) then
       throw (Error ("Missing required fields: " ++ join missingFields))
     else
     let email := match req.(email) with Some e => e | None => "" end in
     let password := match req.(password) with Some p => p | None => "" end in
     if negb (env.(isEmail) email) then throw (Error "Invalid email format")
     else
     (* Check for login lockout *)
     let oneHourAgo := req.(now) - 60 * 60 * 1000 in
     t <- get ;;
     let failedAttempts := failedAttempts req.(ip) oneHourAgo t.(store) in
     if failedAttempts >=? env.(MAX_LOGIN_ATTEMPTS) then
       throw (Error "Too many failed login attempts. Please try again later.")
     else
     (* Find student *)
     match find (fun s => String.eqb s.(s_email) email) t.(store).(students)
     with
     | None =>
       logFailedLogin req.(ip) None (failedAttempts + 1) req.(now) ;;
       return_ invalid_credentials
     | Some student =>
       (* Verify password *)
       let isMatch := env.(compare) password student.(s_password) in
       if negb isMatch then
         logFailedLogin req.(ip) (Some student.(s_id)) (failedAttempts + 1)
                        req.(now) ;;
         notify env req student "login_failure" ;;
         return_ invalid_credentials
       else
         (* Generate JWT and refresh token *)
         let token := env.(sign) student in
         let refreshToken := env.(signRefresh) student in
         save_token_in_session
           (mkRefreshTokenDoc student.(s_id) refreshToken
                              (req.(now) + 7 * 24 * 60 * 60 * 1000)) ;;
         save_log_in_session
           (mkLogDoc "student_login_success" (Some student.(s_id)) req.(ip)
                     (Some 0) req.(now)) ;;
         notify env req student "student_login_success" ;;
         commitTransaction ;;
         return_ (mkReply 200 true None
                          (Some (mkProfile student.(s_id) student.(s_name)
                                           student.(s_email)
                                           student.(s_studentId)
                                           student.(s_schoolId)
                                           student.(s_department)
                                           student.(s_yearOfStudy)))
                          (Some token) (Some refreshToken))
     end)
    (fun error =>
       t <- get ;;
       (if t.(inTransaction) then abortTransaction else ret tt) ;;
       (* error.statusCode || 400, error.message || "Internal server error" *)
       return_ (mkReply 400 false
                  (Some (if String.eqb (error_message error) ""
                         then "Internal server error"
                         else error_message error))
                  None None None)).

(** The handler as the store sees it, the [finally] block included. *)
Definition login (env : Env) (req : Request) (s : Store)
  : step Reply unit * Store :=
  let (r, t) := login_body env req (mkSession s false [] [] []) in
  (r, (endSession t).(store)).

(** A student with password hash [h(pw)], and collaborators that accept the
    password [pw] for it and allow three failed attempts. *)
Definition ada : StudentDoc :=
  mkStudentDoc 7 "Ada" "ada@hilltop.example" "h(pw)" "HT-0007" 3
               (Some "Physics") (Some 2).

Definition sampleEnv : Env :=
  mkEnv (fun _ => true)
        (fun password hash => String.eqb ("h(" ++ password ++ ")") hash)
        (fun s => "access:" ++ s.(s_email))
        (fun s => "refresh:" ++ s.(s_email))
        None 3.

Definition sampleStore : Store := mkStore [ada] [] [] [].

Definition attempt (password : string) (time : Z) : Request :=
  mkRequest (Some "ada@hilltop.example") (Some password) "203.0.113.9"
            "Mozilla/5.0" time.

(** The entry that a failed attempt leaves, and a store with more log
    entries. *)
Definition failure_entry (req : Request) (studentId : option Id)
  (attempts : Z) : LogDoc :=
  mkLogDoc "student_login_failure" studentId req.(ip)
           (Some (failure_score attempts)) req.(now).

Definition add_logs (ls : list LogDoc) (s : Store) : Store :=
  mkStore s.(students) (s.(transactionLog) ++ ls)%list s.(refreshTokens)
          s.(notifications).

Definition locked_out : Reply :=
  mkReply 400 false
          (Some "Too many failed login attempts. Please try again later.")
          None None None.

(** The number of failed attempts that the lockout check of a request
    sees. *)
Definition attempts_seen (req : Request) (s : Store) : Z :=
  failedAttempts req.(ip) (req.(now) - 60 * 60 * 1000) s.

(** A series of requests, one after the other. *)
Fixpoint logins (env : Env) (reqs : list Request) (s : Store) : Store :=
  match reqs with
  | [] => s
  | req :: rest => logins env rest (snd (login env req s))
  end.

(** The request names an email and a password, and the email passes the
    format check. *)
Definition well_formed (env : Env) (req : Request) : Prop :=
  exists e p, req.(email) = Some e /\ e <> "" /\ req.(password) = Some p
              /\ p <> "" /\ env.(isEmail) e = true.

(** The credentials of the request are not those of a stored student. *)
Definition wrong_credentials (env : Env) (req : Request) (s : Store) : Prop :=
  match find (fun st => String.eqb st.(s_email)
                          (match req.(email) with Some e => e | None => "" end))
             s.(students) with
  | None => True
  | Some student =>
    env.(compare) (match req.(password) with Some p => p | None => "" end)
                  student.(s_password) = false
  end.

End Login.

(* ------------------------------------------------------------------ *)
(** ** controller/studentController.js: notifications *)

Module Notifications.

(** A notification as far as the three handlers read and write it. *)
Record NotificationDoc : Type := mkNotificationDoc {
  n_id : Id;
  n_studentId : Id;
  n_schoolId : Id;
  n_type : string;
  n_status : string;
  read : bool;
  sentAt : option Z;
  deletedAt : option Z
}.

Record Store : Type := mkStore {
  notifications : list NotificationDoc;
  transactionLog : list string;       (* the [action] of each entry *)
  auditLog : list string
}.

Definition Handler (A : Type) : Type := M Store Response A.

(** Modelled from the spec: [logActionUtil] (controller/auditController.js is
    not part of the sources) appends one AuditLog entry. *)
Definition logActionUtil (action : string) : Handler unit :=
  modify (fun s => mkStore s.(notifications) s.(transactionLog)
                           (s.(auditLog) ++ [action])%list).

(** [TransactionLog.create({ schoolId, action, metadata })] *)
Definition TransactionLog_create (action : string) : Handler unit :=
  modify (fun s => mkStore s.(notifications)
                           (s.(transactionLog) ++ [action])%list
                           s.(auditLog)).

(** The two log calls that every handler makes after its update. *)
Definition logged (action : string) : Handler unit :=
  logActionUtil action ;;
  TransactionLog_create action.

(** [Notification.updateMany(query, { $set })]: every document that
    matches is updated; the result is [modifiedCount]. *)
Definition updateMany (query : NotificationDoc -> bool)
  (set : NotificationDoc -> NotificationDoc) : Handler nat :=
  s <- get ;;
  modify (fun s => mkStore (map (fun n => if query n then set n else n)
                                s.(notifications))
                           s.(transactionLog) s.(auditLog)) ;;
  ret (List.length (filter query s.(notifications))).

Definition is_null (d : option Z) : bool :=
  match d with None => true | Some _ => false end.

Definition set_deletedAt (time : Z) (n : NotificationDoc) : NotificationDoc :=
  mkNotificationDoc n.(n_id) n.(n_studentId) n.(n_schoolId) n.(n_type)
                    n.(n_status) n.(read) n.(sentAt) (Some time).

(** [{ $set: { read: true, status: 'sent', sentAt: new Date() } }] *)
Definition set_read (time : Z) (n : NotificationDoc) : NotificationDoc :=
  mkNotificationDoc n.(n_id) n.(n_studentId) n.(n_schoolId) n.(n_type)
                    "sent" true (Some time) n.(deletedAt).

(** [{ studentId, schoolId, deletedAt: null }] *)
Definition visible_to (studentId schoolId : Id) (n : NotificationDoc) : bool :=
  id_eqb n.(n_studentId) studentId && id_eqb n.(n_schoolId) schoolId
  && is_null n.(deletedAt).

Definition count_message (verb : string) (n : nat) (noun : string) : string :=
  verb ++ " " ++ string_of_Z (Z.of_nat n) ++ " " ++ noun.

Definition markNotificationsRead (studentId schoolId : Id)
  (notificationIds : option (list Id)) (time : Z) : Handler unit :=
  try_catch
    (let query n :=
       visible_to studentId schoolId n && negb n.(read)
       && match notificationIds with
          | Some ids => existsb (id_eqb n.(n_id)) ids
          | None => true
          end in
     modifiedCount <- updateMany query (set_read time) ;;
     logged "notifications_marked_read" ;;
     reply 200 (count_message "Marked" modifiedCount "notifications as read"))
    (fun error => reply_error 500 "Server error" (error_message error)).

Definition deleteNotification (studentId schoolId notificationId : Id)
  (time : Z) : Handler unit :=
  try_catch
    (s <- get ;;
     match find (fun n => id_eqb n.(n_id) notificationId
                          && visible_to studentId schoolId n)
                s.(notifications) with
     | None => reply 404 "Notification not found or already deleted"
     | Some notification =>
       let notification := set_deletedAt time notification in
       modify (fun s => mkStore (save_by n_id notification s.(notifications))
                                s.(transactionLog) s.(auditLog)) ;;
       logged "notification_deleted" ;;
       reply 200 "Notification deleted successfully"
     end)
    (fun error => reply_error 500 "Server error" (error_message error)).

Definition clearAllNotifications (studentId schoolId : Id) (time : Z)
  : Handler unit :=
  try_catch
    (modifiedCount <- updateMany (visible_to studentId schoolId)
                                 (set_deletedAt time) ;;
     logged "notifications_cleared" ;;
     reply 200 (count_message "Cleared" modifiedCount "notifications"))
    (fun error => reply_error 500 "Server error" (error_message error)).

(** Two notifications of student 7 and one of student 8, all of school 3. *)
Definition sampleStore : Store :=
  mkStore [mkNotificationDoc 1 7 3 "login_failure" "sent" false None None;
           mkNotificationDoc 2 8 3 "fee_assigned" "pending" false None None;
           mkNotificationDoc 3 7 3 "fee_assigned" "pending" false None None]
          [] [].

End Notifications.


(* ------------------------------------------------------------------ *)
(** ** Lemmas on numbers *)

Unset Implicit Arguments.

Lemma digits2_bounds (p : positive) :
  2 ^ (Zpos (digits2_pos p) - 1) <= Zpos p < 2 ^ Zpos (digits2_pos p).
Proof.
  induction p as [p IH|p IH|]; cbn [digits2_pos].
  - rewrite Pos2Z.inj_succ. change (Zpos p~1) with (2 * Zpos p + 1).
    replace (Z.succ (Zpos (digits2_pos p)) - 1)
      with (Z.succ (Zpos (digits2_pos p) - 1)) by lia.
    rewrite !Z.pow_succ_r by lia.
    generalize dependent (2 ^ (Zpos (digits2_pos p) - 1)).
    generalize (2 ^ Zpos (digits2_pos p)). lia.
  - rewrite Pos2Z.inj_succ. change (Zpos p~0) with (2 * Zpos p).
    replace (Z.succ (Zpos (digits2_pos p)) - 1)
      with (Z.succ (Zpos (digits2_pos p) - 1)) by lia.
    rewrite !Z.pow_succ_r by lia.
    generalize dependent (2 ^ (Zpos (digits2_pos p) - 1)).
    generalize (2 ^ Zpos (digits2_pos p)). lia.
  - cbn. lia.
Qed.

Lemma digits2_unique (p : positive) (n : Z) :
  2 ^ (n - 1) <= Zpos p < 2 ^ n -> Zpos (digits2_pos p) = n.
Proof.
  intros [Hlo Hhi]. pose proof (digits2_bounds p) as [Dlo Dhi].
  assert (Hn : 0 < n).
  { destruct (Z.lt_ge_cases 0 n) as [|Hle]; [assumption|].
    exfalso. destruct (Z.eq_dec n 0) as [->|Hne].
    - cbn in Hhi. lia.
    - rewrite Z.pow_neg_r in Hhi by lia. lia. }
  destruct (Z.lt_trichotomy (Zpos (digits2_pos p)) n) as [Hlt|[E|Hgt]].
  - exfalso.
    assert (2 ^ Zpos (digits2_pos p) <= 2 ^ (n - 1))
      by (apply Z.pow_le_mono_r; lia).
    generalize dependent (2 ^ Zpos (digits2_pos p)).
    generalize dependent (2 ^ (n - 1)). lia.
  - exact E.
  - exfalso.
    assert (2 ^ n <= 2 ^ (Zpos (digits2_pos p) - 1))
      by (apply Z.pow_le_mono_r; lia).
    generalize dependent (2 ^ (Zpos (digits2_pos p) - 1)).
    generalize dependent (2 ^ n). lia.
Qed.

Lemma iter_xO_Z (m d : positive) :
  Zpos (Pos.iter xO m d) = Zpos m * 2 ^ Zpos d.
Proof.
  change (Pos.iter xO m d) with (shift_pos d m).
  rewrite shift_pos_correct. change (Z.pow_pos 2 d) with (2 ^ Zpos d). lia.
Qed.

Lemma iter_pos_nat (A : Type) (f : A -> A) (p : positive) (x : A) :
  iter_pos f p x = Nat.iter (Pos.to_nat p) f x.
Proof.
  revert x. induction p as [p IH|p IH|]; intros x; cbn [iter_pos].
  - rewrite !IH, Pos2Nat.inj_xI, <- Nat.iter_add.
    replace (S (2 * Pos.to_nat p))%nat
      with (S (Pos.to_nat p + Pos.to_nat p))%nat by lia.
    now rewrite Nat.iter_succ_r.
  - rewrite !IH, Pos2Nat.inj_xO, <- Nat.iter_add.
    f_equal. lia.
  - reflexivity.
Qed.

Lemma shr_1_exact (n : nat) (m : positive) :
  Nat.iter n shr_1 (Build_shr_record (Zpos (Nat.iter n xO m)) false false)
  = Build_shr_record (Zpos m) false false.
Proof.
  revert m. induction n as [|n IH]; intros m.
  - reflexivity.
  - rewrite (Nat.iter_succ_r n positive xO).
    match goal with
    | |- Nat.iter (S n) shr_1 ?r = _ =>
        change (Nat.iter (S n) shr_1 r) with (shr_1 (Nat.iter n shr_1 r))
    end.
    now rewrite IH.
Qed.

Lemma iter_pos_shr_1_exact (p m : positive) :
  iter_pos shr_1 p (Build_shr_record (Zpos (Pos.iter xO m p)) false false)
  = Build_shr_record (Zpos m) false false.
Proof.
  rewrite iter_pos_nat, Pos2Nat.inj_iter. apply shr_1_exact.
Qed.

Lemma whole_repr_unique (a m m' : positive) (e e' : Z) :
  whole_repr a m e -> whole_repr a m' e' -> m = m' /\ e = e'.
Proof.
  intros (_ & He & Hm) (_ & He' & Hm'). subst e e'. split; [|reflexivity].
  apply Pos2Z.inj. congruence.
Qed.

Lemma digits2_scaled (a M : positive) (k : Z) :
  0 <= k -> Zpos M = Zpos a * 2 ^ k ->
  Zpos (digits2_pos M) = Zpos (digits2_pos a) + k.
Proof.
  intros Hk HM. apply digits2_unique. rewrite HM.
  pose proof (digits2_bounds a) as [Dlo Dhi].
  replace (Zpos (digits2_pos a) + k - 1)
    with (Zpos (digits2_pos a) - 1 + k) by lia.
  assert (0 < 2 ^ k) by (apply Z.pow_pos_nonneg; lia).
  rewrite !Z.pow_add_r by lia. nia.
Qed.

Lemma digits2_le_53 (a : positive) :
  Zpos a < 2 ^ 53 -> Zpos (digits2_pos a) <= 53.
Proof.
  intros Ha. pose proof (digits2_bounds a) as [Dlo _].
  destruct (Z.le_gt_cases (Zpos (digits2_pos a)) 53) as [|Hgt];
    [assumption|exfalso].
  assert (2 ^ 53 <= 2 ^ (Zpos (digits2_pos a) - 1))
    by (apply Z.pow_le_mono_r; lia).
  lia.
Qed.

Lemma binary_round_aux_canonical (s : bool) (m : positive) (e : Z) :
  Zpos (digits2_pos m) = 53 -> -1074 <= e <= 971 ->
  binary_round_aux prec emax s (Zpos m) e loc_Exact = S754_finite s m e.
Proof.
  intros Hd He.
  assert (Hf : fexp prec emax (53 + e) - e = 0).
  { unfold fexp, emin, prec, emax. lia. }
  unfold binary_round_aux, shr_fexp. cbn [Zdigits2 shr_record_of_loc].
  rewrite Hd, Hf. cbn [shr shr_m loc_of_shr_record round_nearest_even Zdigits2
                       shr_record_of_loc].
  rewrite Hd, Hf. cbn [shr shr_m].
  replace (e <=? emax - prec) with true
    by (symmetry; apply Z.leb_le; unfold emax, prec; lia).
  reflexivity.
Qed.

Lemma binary_round_aux_shifted (s : bool) (m q : positive) (e : Z) :
  Zpos (digits2_pos m) = 53 -> -1074 <= e + Zpos q <= 971 ->
  binary_round_aux prec emax s (Zpos (Pos.iter xO m q)) e loc_Exact
  = S754_finite s m (e + Zpos q).
Proof.
  intros Hd He.
  assert (HD : Zpos (digits2_pos (Pos.iter xO m q)) = 53 + Zpos q).
  { rewrite (digits2_scaled m _ (Zpos q)); [lia | lia | apply iter_xO_Z]. }
  assert (Hf : fexp prec emax (53 + Zpos q + e) - e = Zpos q).
  { unfold fexp, emin, prec, emax. lia. }
  assert (Hf' : fexp prec emax (53 + (e + Zpos q)) - (e + Zpos q) = 0).
  { unfold fexp, emin, prec, emax. lia. }
  unfold binary_round_aux, shr_fexp. cbn [Zdigits2 shr_record_of_loc].
  rewrite HD, Hf. cbn [shr]. rewrite iter_pos_shr_1_exact.
  cbn [shr_m loc_of_shr_record round_nearest_even Zdigits2
       shr_record_of_loc].
  rewrite Hd, Hf'. cbn [shr shr_m].
  replace (e + Zpos q <=? emax - prec) with true
    by (symmetry; apply Z.leb_le; unfold emax, prec; lia).
  reflexivity.
Qed.

(** Rounding the whole number [a * 2 ^ k * 2 ^ (- k)] gives the double of
    [a]. *)
Lemma binary_round_whole (s : bool) (a M : positive) (k : Z) :
  0 <= k -> Zpos M = Zpos a * 2 ^ k -> Zpos a < 2 ^ 53 ->
  exists m e,
    binary_round prec emax s M (- k) = S754_finite s m e
    /\ whole_repr a m e.
Proof.
  intros Hk HM Ha.
  pose proof (digits2_le_53 a Ha) as Hd.
  pose proof (digits2_bounds a) as [Dlo Dhi].
  assert (Hd1 : 1 <= Zpos (digits2_pos a)) by lia.
  set (d := Zpos (digits2_pos a)) in *.
  pose proof (digits2_scaled a M k Hk HM) as HD. fold d in HD.
  assert (Hpow : 0 < 2 ^ (53 - d)) by (apply Z.pow_pos_nonneg; lia).
  assert (Hm : exists m, Zpos m = Zpos a * 2 ^ (53 - d)).
  { exists (Z.to_pos (Zpos a * 2 ^ (53 - d))). rewrite Z2Pos.id; lia. }
  destruct Hm as (m & Hm).
  assert (Hdm : Zpos (digits2_pos m) = 53).
  { rewrite (digits2_scaled a m (53 - d)); fold d; lia. }
  exists m, (d - 53).
  split; [|split; [exact Hdm | split; [reflexivity|]]].
  2:{ rewrite Hm. f_equal. f_equal. lia. }
  assert (Hf : fexp prec emax (d + k + - k) = d - 53).
  { unfold fexp, emin, prec, emax. lia. }
  unfold binary_round. rewrite HD, Hf. unfold shl_align.
  destruct (d - 53 - - k) as [|q|q] eqn:Et.
  - assert (M = m) as ->.
    { apply Pos2Z.inj. rewrite HM, Hm. f_equal. f_equal. lia. }
    replace (- k) with (d - 53) by lia.
    apply binary_round_aux_canonical; [exact Hdm | lia].
  - assert (M = Pos.iter xO m q) as ->.
    { apply Pos2Z.inj. rewrite iter_xO_Z, HM, Hm, <- Z.mul_assoc.
      rewrite <- Z.pow_add_r by lia. f_equal. f_equal. lia. }
    replace (d - 53) with (- k + Zpos q) by lia.
    apply binary_round_aux_shifted; [exact Hdm | lia].
  - assert (Pos.iter xO M q = m) as ->.
    { apply Pos2Z.inj. rewrite iter_xO_Z, HM, Hm, <- Z.mul_assoc.
      rewrite <- Z.pow_add_r by lia. f_equal. f_equal. lia. }
    apply binary_round_aux_canonical; [exact Hdm | lia].
Qed.

Lemma num_nonzero (z : Z) :
  z <> 0 -> safe z ->
  exists m e,
    num z = S754_finite (z <? 0) m e /\ whole_repr (Z.to_pos (Z.abs z)) m e
    /\ e <= 0 /\ cond_Zopp (z <? 0) (Zpos m) = z * 2 ^ (- e).
Proof.
  intros Hz [Hlo Hhi].
  destruct z as [|a|a]; [contradiction| |].
  - destruct (binary_round_whole false a a 0) as (m & e & Hr & Hw);
      [lia | cbn; lia | lia |].
    exists m, e. cbn [Z.ltb Z.compare Z.abs Z.to_pos cond_Zopp].
    split; [exact Hr | split; [exact Hw|]].
    destruct Hw as (_ & He & Hm).
    pose proof (digits2_le_53 a Hhi). split; [lia | exact Hm].
  - destruct (binary_round_whole true a a 0) as (m & e & Hr & Hw);
      [lia | cbn; lia | lia |].
    exists m, e. cbn [Z.ltb Z.compare Z.abs Z.to_pos cond_Zopp].
    split; [exact Hr | split; [exact Hw|]].
    destruct Hw as (_ & He & Hm).
    assert (Zpos a < 2 ^ 53) by lia.
    pose proof (digits2_le_53 a H). split; [lia|].
    rewrite Hm. lia.
Qed.

Lemma normalize_whole (z k : Z) :
  0 <= k -> safe z ->
  binary_normalize prec emax (z * 2 ^ k) (- k) false = num z.
Proof.
  intros Hk [Hlo Hhi].
  assert (Hpow : 0 < 2 ^ k) by (apply Z.pow_pos_nonneg; lia).
  destruct z as [|a|a].
  - reflexivity.
  - assert (HM : exists M, Zpos a * 2 ^ k = Zpos M).
    { exists (Z.to_pos (Zpos a * 2 ^ k)). rewrite Z2Pos.id; lia. }
    destruct HM as (M & HM). rewrite HM. cbn [binary_normalize].
    destruct (binary_round_whole false a M k) as (m & e & Hr & Hw);
      [lia | lia | lia |].
    destruct (binary_round_whole false a a 0) as (m' & e' & Hr' & Hw');
      [lia | cbn; lia | lia |].
    destruct (whole_repr_unique _ _ _ _ _ Hw Hw') as [-> ->].
    unfold num. cbn [binary_normalize]. change 0 with (- 0) at 1.
    now rewrite Hr, Hr'.
  - assert (HM : exists M, Zneg a * 2 ^ k = Zneg M).
    { exists (Z.to_pos (Zpos a * 2 ^ k)).
      change (Zneg a) with (- Zpos a).
      rewrite <- Pos2Z.opp_pos, Z2Pos.id by lia. lia. }
    destruct HM as (M & HM). rewrite HM. cbn [binary_normalize].
    assert (HM' : Zpos M = Zpos a * 2 ^ k) by lia.
    destruct (binary_round_whole true a M k) as (m & e & Hr & Hw);
      [lia | lia | lia |].
    destruct (binary_round_whole true a a 0) as (m' & e' & Hr' & Hw');
      [lia | cbn; lia | lia |].
    destruct (whole_repr_unique _ _ _ _ _ Hw Hw') as [-> ->].
    unfold num. cbn [binary_normalize]. change 0 with (- 0) at 1.
    now rewrite Hr, Hr'.
Qed.

Lemma shl_align_Z (m : positive) (e ez : Z) :
  ez <= e -> Zpos (fst (shl_align m e ez)) = Zpos m * 2 ^ (e - ez).
Proof.
  intros Hle. unfold shl_align.
  destruct (ez - e) as [|q|q] eqn:Et; cbn [fst].
  - replace (e - ez) with 0 by lia. cbn. lia.
  - lia.
  - rewrite iter_xO_Z. f_equal. f_equal. lia.
Qed.

Lemma aligned_whole (z : Z) (s : bool) (m : positive) (e ez : Z) :
  cond_Zopp s (Zpos m) = z * 2 ^ (- e) -> e <= 0 -> ez <= e ->
  cond_Zopp s (Zpos (fst (shl_align m e ez))) = z * 2 ^ (- ez).
Proof.
  intros Hm He Hez. rewrite (shl_align_Z m e ez Hez).
  replace (- ez) with (- e + (e - ez)) by lia.
  rewrite Z.pow_add_r, Z.mul_assoc, <- Hm by lia.
  destruct s; cbn [cond_Zopp]; lia.
Qed.

Lemma num_0 : num 0 = S754_zero false.
Proof. reflexivity. Qed.

(** Sums and differences of safe integers are exact. *)
Lemma js_add_whole (a b : Z) :
  safe a -> safe b -> safe (a + b) -> js_add (num a) (num b) = num (a + b).
Proof.
  intros Ha Hb Hab.
  destruct (Z.eq_dec a 0) as [->|Hna]; [|destruct (Z.eq_dec b 0) as [->|Hnb]].
  - rewrite num_0, Z.add_0_l.
    destruct (Z.eq_dec b 0) as [->|Hnb]; [reflexivity|].
    destruct (num_nonzero b Hnb Hb) as (m & e & -> & _). reflexivity.
  - rewrite num_0, Z.add_0_r.
    destruct (num_nonzero a Hna Ha) as (m & e & -> & _). reflexivity.
  - destruct (num_nonzero a Hna Ha) as (ma & ea & -> & _ & Hea & Hma).
    destruct (num_nonzero b Hnb Hb) as (mb & eb & -> & _ & Heb & Hmb).
    unfold js_add. cbn [SFadd].
    rewrite (aligned_whole a _ ma ea (Z.min ea eb) Hma Hea) by lia.
    rewrite (aligned_whole b _ mb eb (Z.min ea eb) Hmb Heb) by lia.
    rewrite <- Z.mul_add_distr_r.
    replace (Z.min ea eb) with (- - Z.min ea eb) at 2 by lia.
    apply normalize_whole; [lia | exact Hab].
Qed.

Lemma js_sub_whole (a b : Z) :
  safe a -> safe b -> safe (a - b) -> js_sub (num a) (num b) = num (a - b).
Proof.
  intros Ha Hb Hab.
  destruct (Z.eq_dec b 0) as [->|Hnb]; [|destruct (Z.eq_dec a 0) as [->|Hna]].
  - rewrite num_0, Z.sub_0_r.
    destruct (Z.eq_dec a 0) as [->|Hna]; [reflexivity|].
    destruct (num_nonzero a Hna Ha) as (m & e & -> & _). reflexivity.
  - rewrite num_0, Z.sub_0_l.
    assert (Hnb' : - b <> 0) by lia.
    assert (Hb' : safe (- b)) by (unfold safe in *; lia).
    destruct (num_nonzero b Hnb Hb) as (m & e & -> & Hw & _).
    destruct (num_nonzero (- b) Hnb' Hb') as (m' & e' & -> & Hw' & _).
    rewrite Z.abs_opp in Hw'.
    destruct (whole_repr_unique _ _ _ _ _ Hw Hw') as [-> ->].
    cbn [js_sub SFsub]. f_equal.
    destruct (b <? 0) eqn:E1, (- b <? 0) eqn:E2; try reflexivity;
      [apply Z.ltb_lt in E1, E2 | apply Z.ltb_ge in E1, E2]; lia.
  - destruct (num_nonzero a Hna Ha) as (ma & ea & -> & _ & Hea & Hma).
    destruct (num_nonzero b Hnb Hb) as (mb & eb & -> & _ & Heb & Hmb).
    unfold js_sub. cbn [SFsub].
    rewrite (aligned_whole a _ ma ea (Z.min ea eb) Hma Hea) by lia.
    rewrite (aligned_whole b _ mb eb (Z.min ea eb) Hmb Heb) by lia.
    rewrite <- Z.mul_sub_distr_r.
    replace (Z.min ea eb) with (- - Z.min ea eb) at 2 by lia.
    apply normalize_whole; [lia | exact Hab].
Qed.

(** The doubles of two positive safe integers compare as the integers. *)
Lemma whole_repr_compare (a b ma mb : positive) (ea eb : Z) :
  whole_repr a ma ea -> whole_repr b mb eb ->
  match ea ?= eb with
  | Lt => Lt
  | Gt => Gt
  | Eq => Pos.compare_cont Eq ma mb
  end = (Zpos a ?= Zpos b).
Proof.
  intros (Hda & Hea & Hma) (Hdb & Heb & Hmb).
  pose proof (digits2_bounds ma) as [Alo Ahi].
  pose proof (digits2_bounds mb) as [Blo Bhi].
  rewrite Hda in Alo, Ahi. rewrite Hdb in Blo, Bhi.
  change (2 ^ (53 - 1)) with (2 ^ 52) in *.
  pose proof (digits2_bounds a) as [_ Da].
  pose proof (digits2_bounds b) as [_ Db].
  assert (Hna : 0 <= - ea \/ 53 < Zpos (digits2_pos a)) by lia.
  assert (Hnb : 0 <= - eb \/ 53 < Zpos (digits2_pos b)) by lia.
  assert (Ea : 0 <= - ea).
  { destruct Hna as [|Hbig]; [assumption|exfalso].
    rewrite Z.pow_neg_r in Hma by lia. lia. }
  assert (Eb : 0 <= - eb).
  { destruct Hnb as [|Hbig]; [assumption|exfalso].
    rewrite Z.pow_neg_r in Hmb by lia. lia. }
  symmetry.
  destruct (ea ?= eb) eqn:E.
  - apply Z.compare_eq in E. rewrite <- E in Hmb.
    change (Pos.compare_cont Eq ma mb) with (Zpos ma ?= Zpos mb).
    rewrite Hma, Hmb.
    apply Zmult_compare_compat_r. apply Z.lt_gt. apply Z.pow_pos_nonneg; lia.
  - assert (E' : ea < eb) by exact E. clear E. apply Z.compare_lt_iff.
    assert (Hpow : 2 ^ (- ea) = 2 ^ (- eb) * 2 ^ (eb - ea)).
    { rewrite <- Z.pow_add_r by lia. f_equal. lia. }
    assert (H2 : 2 <= 2 ^ (eb - ea)).
    { change 2 with (2 ^ 1) at 1. apply Z.pow_le_mono_r; lia. }
    assert (Hp : 0 < 2 ^ (- ea)) by (apply Z.pow_pos_nonneg; lia).
    apply Z.mul_lt_mono_pos_r with (p := 2 ^ (- ea)); [exact Hp|].
    rewrite <- Hma. rewrite Hpow, Z.mul_assoc, <- Hmb. nia.
  - assert (E' : eb < ea) by (apply Z.gt_lt; exact E). clear E.
    apply Z.compare_gt_iff.
    assert (Hpow : 2 ^ (- eb) = 2 ^ (- ea) * 2 ^ (ea - eb)).
    { rewrite <- Z.pow_add_r by lia. f_equal. lia. }
    assert (H2 : 2 <= 2 ^ (ea - eb)).
    { change 2 with (2 ^ 1) at 1. apply Z.pow_le_mono_r; lia. }
    assert (Hp : 0 < 2 ^ (- eb)) by (apply Z.pow_pos_nonneg; lia).
    apply Z.mul_lt_mono_pos_r with (p := 2 ^ (- eb)); [exact Hp|].
    rewrite <- Hmb. rewrite Hpow, Z.mul_assoc, <- Hma. nia.
Qed.

Lemma SFcompare_whole (a b : Z) :
  safe a -> safe b -> SFcompare (num a) (num b) = Some (a ?= b).
Proof.
  intros Ha Hb.
  destruct (Z.eq_dec a 0) as [->|Hna].
  - rewrite num_0. destruct (Z.eq_dec b 0) as [->|Hnb]; [reflexivity|].
    destruct (num_nonzero b Hnb Hb) as (m & e & -> & _).
    cbn [SFcompare]. destruct b; try contradiction; reflexivity.
  - destruct (num_nonzero a Hna Ha) as (ma & ea & -> & Hwa & _).
    destruct (Z.eq_dec b 0) as [->|Hnb].
    + rewrite num_0. cbn [SFcompare].
      destruct a; try contradiction; reflexivity.
    + destruct (num_nonzero b Hnb Hb) as (mb & eb & -> & Hwb & _).
      cbn [SFcompare]. f_equal.
      destruct a as [|a|a], b as [|b|b]; try contradiction;
        cbn [Z.ltb Z.compare Z.abs Z.to_pos] in *; try reflexivity.
      * apply (whole_repr_compare a b); assumption.
      * change (a ?= b)%positive with (Zpos a ?= Zpos b).
        rewrite <- (whole_repr_compare a b ma mb ea eb Hwa Hwb).
        destruct (ea ?= eb); reflexivity.
Qed.

Lemma js_lt_whole (a b : Z) :
  safe a -> safe b -> js_lt (num a) (num b) = (a <? b).
Proof.
  intros Ha Hb. unfold js_lt, SFltb. rewrite (SFcompare_whole a b Ha Hb).
  unfold Z.ltb. destruct (a ?= b); reflexivity.
Qed.

Lemma js_le_whole (a b : Z) :
  safe a -> safe b -> js_le (num a) (num b) = (a <=? b).
Proof.
  intros Ha Hb. unfold js_le, SFleb. rewrite (SFcompare_whole a b Ha Hb).
  unfold Z.leb. destruct (a ?= b); reflexivity.
Qed.

(** Comparing the other way round. *)
Lemma SFcompare_swap (x y : Number) :
  SFcompare y x = option_map CompOpp (SFcompare x y).
Proof.
  destruct x as [sx|sx| |sx mx ex], y as [sy|sy| |sy my ey];
    try reflexivity;
    try (destruct sx; reflexivity);
    try (destruct sy; reflexivity);
    try (destruct sx, sy; reflexivity).
  cbn [SFcompare option_map]. f_equal.
  rewrite (Z.compare_antisym ex ey), (ZC4 my mx).
  destruct sx, sy; try reflexivity;
    destruct (ex ?= ey); cbn [CompOpp]; reflexivity.
Qed.

Lemma js_lt_not_ge (x y : Number) : js_lt x y = true -> js_le y x = false.
Proof.
  unfold js_lt, js_le, SFltb, SFleb. rewrite (SFcompare_swap x y).
  destruct (SFcompare x y) as [[| |]|]; cbn; congruence.
Qed.

Lemma js_le_not_gt (x y : Number) : js_le x y = true -> js_gt x y = false.
Proof.
  unfold js_gt, js_le, SFltb, SFleb. rewrite (SFcompare_swap x y).
  destruct (SFcompare x y) as [[| |]|]; cbn; congruence.
Qed.

(* ------------------------------------------------------------------ *)
(** ** Lemmas on collections *)

Lemma id_eqb_eq (a b : Id) : id_eqb a b = true <-> a = b.
Proof. unfold id_eqb. apply Z.eqb_eq. Qed.

Lemma id_eqb_refl (a : Id) : id_eqb a a = true.
Proof. apply id_eqb_eq. reflexivity. Qed.

Section SaveBy.
Variable A : Type.
Variable key : A -> Id.

Lemma find_save_by (doc : A) (coll : list A) :
  find (fun x => id_eqb (key x) (key doc)) (save_by key doc coll) = Some doc.
Proof.
  induction coll as [|x rest IH]; simpl.
  - now rewrite id_eqb_refl.
  - destruct (id_eqb (key x) (key doc)) eqn:E; simpl.
    + now rewrite id_eqb_refl.
    + now rewrite E.
Qed.

Lemma save_by_fresh (doc : A) (coll : list A) :
  (forall x, In x coll -> key x <> key doc) ->
  save_by key doc coll = (coll ++ [doc])%list.
Proof.
  induction coll as [|x rest IH]; simpl; intros fresh.
  - reflexivity.
  - destruct (id_eqb (key x) (key doc)) eqn:E.
    + apply id_eqb_eq in E. exfalso. apply (fresh x); auto.
    + f_equal. apply IH. intros y Hy. apply fresh. now right.
Qed.

Lemma save_by_keeps (doc x : A) (coll : list A) :
  In x coll -> key x <> key doc -> In x (save_by key doc coll).
Proof.
  induction coll as [|y rest IH]; simpl; intros Hin Hne.
  - contradiction.
  - destruct (id_eqb (key y) (key doc)) eqn:E.
    + destruct Hin as [->|Hin].
      * apply id_eqb_eq in E. contradiction.
      * now right.
    + destruct Hin as [->|Hin]; [now left | right; auto].
Qed.

Lemma unique_key (a b : A) (coll : list A) :
  NoDup (map key coll) -> In a coll -> In b coll -> key a = key b -> a = b.
Proof.
  induction coll as [|y rest IH]; simpl; intros Hnd Ha Hb Hk.
  - contradiction.
  - inversion Hnd as [|? ? Hnotin Hnd']; subst.
    destruct Ha as [->|Ha], Hb as [->|Hb]; auto.
    + exfalso. apply Hnotin. rewrite Hk. now apply in_map.
    + exfalso. apply Hnotin. rewrite <- Hk. now apply in_map.
Qed.

Lemma find_unique (a : A) (coll : list A) :
  NoDup (map key coll) -> In a coll ->
  find (fun x => id_eqb (key x) (key a)) coll = Some a.
Proof.
  intros Hnd Hin.
  destruct (find (fun x => id_eqb (key x) (key a)) coll) as [b|] eqn:F.
  - apply find_some in F. destruct F as [Hb E]. apply id_eqb_eq in E.
    f_equal. now apply (unique_key b a coll).
  - exfalso. apply (find_none _ _ F) in Hin. now rewrite id_eqb_refl in Hin.
Qed.
End SaveBy.

(* ------------------------------------------------------------------ *)
(** ** Refund workflow *)

(** Unfolds the control-flow combinators and the store operations. *)
Ltac unfold_flow :=
  unfold try_catch, bind, ret, get, modify, reply, reply_error, return_,
    throw, ident in *.

Ltac unfold_store :=
  unfold populate_school in *;
  unfold PaymentModel_findById, PaymentModel_findByRef, Payment_save,
    RefundModel_findById, RefundModel_find, RefundModel_findOne, Refund_save,
    SchoolModel_findById, TransactionLogModel_create,
    logActionUtil, calculateFraudScore, FeeModel_findById,
    StudentModel_findById, FeeAssignmentModel_findOne, FeeAssignment_save,
    createInvoice in *.

Lemma stored_payment_id (i : Id) (d : Db) (payment : Payment) :
  stored_payment i d = Some payment -> payment.(p_id) = i.
Proof.
  unfold stored_payment. intros F. apply find_some in F.
  now apply id_eqb_eq.
Qed.

(** What [requestRefund] does once the payment is found and owned: the
    amount check decides between the 400 reply, which leaves the store as it
    was, and the creation of the refund. *)
Lemma requestRefund_owned (toString : Number -> string) (d : Db)
  (_id studentId paymentId : Id) (amount : Number) (reason : string)
  (payment : Payment) :
  stored_payment paymentId d = Some payment ->
  payment.(p_studentId) = studentId ->
  requestRefund toString _id studentId paymentId amount reason d =
    if js_le amount (num 0) || js_gt amount (refundableAmount payment d) then
      (Return (mkResponse 400
                 (invalid_refund_message toString
                    (refundableAmount payment d)) None),
       d)
    else
      (Return (mkResponse 201 "Refund requested successfully" None),
       set_auditLog
         (fun l => l ++ [mkLogEntry "refund_requested" (Some paymentId)
                                    (Some _id)])%list
         (set_transactionLog
            (fun l => l ++ [mkLogEntry "refund_requested" (Some paymentId)
                                       (Some _id)])%list
            (set_refunds
               (save_by r_id
                  (mkRefund _id paymentId studentId
                     (option_map sc_id
                        (find (fun s => id_eqb s.(sc_id) payment.(p_schoolId))
                              d.(schools)))
                     amount reason "requested" 0
                     [mkAuditItem "refund_requested" (Some studentId) None]))
               d))).
Proof.
  intros Hfind Hown.
  pose proof (stored_payment_id _ _ _ Hfind) as Hid.
  unfold stored_payment in Hfind.
  unfold refundableAmount. rewrite Hid.
  unfold requestRefund. unfold_store. unfold_flow.
  rewrite Hfind. rewrite Hown, id_eqb_refl. cbn [negb].
  cbv beta iota.
  destruct (js_le amount (num 0)
            || js_gt amount
                 (js_sub (p_amount payment)
                    (totalRefunded
                       (refunds_of paymentId ["approved"; "processed"]
                                   (refunds d))))); reflexivity.
Qed.

(** The refunds that count against the cap add up without rounding when
    their amounts are whole and the sum is a safe integer. *)
Lemma totalRefunded_whole (l : list Refund) (rs : list Z) (acc : Z) :
  map r_amount l = map num rs ->
  Forall (fun r => 0 <= r) rs ->
  0 <= acc -> acc + total rs < 2 ^ 53 ->
  fold_left (fun sum refund => js_add sum refund.(r_amount)) l (num acc)
  = num (acc + total rs).
Proof.
  revert rs acc. induction l as [|x l IH]; intros rs acc Hmap Hpos Hacc Hsum.
  - destruct rs; [|discriminate]. cbn. now rewrite Z.add_0_r.
  - destruct rs as [|r rs]; [discriminate|].
    cbn [map] in Hmap. injection Hmap as Hx Hl.
    inversion Hpos as [|? ? Hr Hrs]; subst.
    cbn [total fold_right] in Hsum. fold (total rs) in Hsum.
    assert (Htot : 0 <= total rs).
    { clear -Hrs. induction Hrs; cbn; [lia|]. fold (total l). lia. }
    cbn [fold_left]. rewrite Hx.
    rewrite js_add_whole by (unfold safe; lia).
    rewrite (IH rs (acc + r)) by (assumption || lia).
    cbn [total fold_right]. fold (total rs). f_equal. lia.
Qed.

(** C10.  [requestRefund] does not look at the status of the payment: for a
    payment of the requesting student in any status, a request with a valid
    amount (positive, at most the refundable amount) is answered with 201
    and adds one refund in status [requested] to the store. *)
Theorem requestRefund_any_payment_status
  (toString : Number -> string) (d : Db) (_id studentId paymentId : Id)
  (amount : Number) (reason : string) (payment : Payment) :
  stored_payment paymentId d = Some payment ->
  payment.(p_studentId) = studentId ->
  js_lt (num 0) amount = true ->
  js_le amount (refundableAmount payment d) = true ->
  (forall r, In r d.(refunds) -> r.(r_id) <> _id) ->
  exists refund,
    response_of (requestRefund toString _id studentId paymentId amount reason)
                d
      = Return (mkResponse 201 "Refund requested successfully" None)
    /\ (after (requestRefund toString _id studentId paymentId amount reason)
              d).(refunds)
       = (d.(refunds) ++ [refund])%list
    /\ refund.(r_status) = "requested"
    /\ refund.(r_id) = _id
    /\ refund.(r_paymentId) = paymentId
    /\ refund.(r_studentId) = studentId
    /\ refund.(r_amount) = amount.
Proof.
  intros Hfind Hown Hpos Hcap Hfresh.
  unfold response_of, after.
  rewrite (requestRefund_owned toString d _id studentId paymentId amount
             reason payment Hfind Hown).
  rewrite (js_lt_not_ge _ _ Hpos), (js_le_not_gt _ _ Hcap). cbn [orb].
  eexists. cbn [fst snd].
  split; [reflexivity|].
  split.
  - cbn [refunds set_auditLog set_transactionLog set_refunds].
    apply save_by_fresh. exact Hfresh.
  - repeat split.
Qed.

(** The payment is rejected, and the request is still accepted. *)
Lemma requestRefund_any_payment_status_witness :
  exists refund,
    response_of (requestRefund sample_toString 10 7 1 (num 2000)
                               "changed my mind")
                (dbWithPayment "rejected")
      = Return (mkResponse 201 "Refund requested successfully" None)
    /\ (after (requestRefund sample_toString 10 7 1 (num 2000)
                             "changed my mind")
              (dbWithPayment "rejected")).(refunds)
       = ((dbWithPayment "rejected").(refunds) ++ [refund])%list
    /\ refund.(r_status) = "requested"
    /\ refund.(r_id) = 10
    /\ refund.(r_paymentId) = 1
    /\ refund.(r_studentId) = 7
    /\ refund.(r_amount) = num 2000.
Proof.
  apply (requestRefund_any_payment_status sample_toString
           (dbWithPayment "rejected") 10 7 1 (num 2000) "changed my mind"
           (payment1 "rejected")).
  - reflexivity.
  - reflexivity.
  - reflexivity.
  - reflexivity.
  - simpl. intros r [].
Defined.

(** C2, as far as the code goes.  For a payment that exists and belongs to
    the requesting student, [requestRefund] answers 400 "Invalid refund
    amount" exactly when the amount is not positive or exceeds the
    refundable amount, which is the payment's amount less the sum of its
    approved and processed refunds, both computed in double precision.
    Where the amounts are whole numbers and safe integers, nothing is
    rounded: the refundable amount is the exact difference, and a request
    that is accepted keeps its own amount plus the approved and processed
    refunds within the payment's amount.  Refunds that are only requested
    are not counted. *)
Theorem requestRefund_amount_check
  (toString : Number -> string) (d : Db) (_id studentId paymentId : Id)
  (amount : Number) (reason : string) (payment : Payment) :
  stored_payment paymentId d = Some payment ->
  payment.(p_studentId) = studentId ->
  (response_of (requestRefund toString _id studentId paymentId amount reason)
               d
     = Return (mkResponse 400
                 (invalid_refund_message toString
                    (refundableAmount payment d)) None)
   <-> js_le amount (num 0) = true
       \/ js_gt amount (refundableAmount payment d) = true)
  /\ (forall (paid requested : Z) (counted : list Z),
         payment.(p_amount) = num paid ->
         amount = num requested ->
         map r_amount (refunds_of paymentId ["approved"; "processed"]
                                  d.(refunds))
         = map num counted ->
         Forall (fun r => 0 <= r) counted ->
         0 <= paid < 2 ^ 53 -> safe requested -> total counted < 2 ^ 53 ->
         refundableAmount payment d = num (paid - total counted)
         /\ (response_of (requestRefund toString _id studentId paymentId
                            amount reason) d
             = Return (mkResponse 201 "Refund requested successfully" None)
             -> 0 < requested /\ requested + total counted <= paid)).
Proof.
  intros Hfind Hown.
  unfold response_of.
  rewrite (requestRefund_owned toString d _id studentId paymentId amount
             reason payment Hfind Hown).
  split.
  - destruct (js_le amount (num 0)
              || js_gt amount (refundableAmount payment d)) eqn:E;
      cbn [fst].
    + apply orb_true_iff in E. split; [intros _; exact E | reflexivity].
    + apply orb_false_iff in E. destruct E as [E1 E2].
      split; [discriminate | intros [H|H]; congruence].
  - intros paid requested counted Hpaid Hamount Hcounted Hpos Hp Hreq Htot.
    assert (Htot0 : 0 <= total counted).
    { clear -Hpos. induction Hpos; cbn; [lia|]. fold (total l). lia. }
    assert (Hcap : refundableAmount payment d = num (paid - total counted)).
    { unfold refundableAmount, totalRefunded.
      rewrite (stored_payment_id _ _ _ Hfind), Hpaid.
      rewrite (totalRefunded_whole _ counted 0 Hcounted Hpos) by lia.
      rewrite Z.add_0_l. apply js_sub_whole; unfold safe; lia. }
    split; [exact Hcap|].
    rewrite Hcap, Hamount. unfold js_gt.
    rewrite js_le_whole, js_lt_whole by (unfold safe in *; lia).
    destruct ((requested <=? 0) || (paid - total counted <? requested)) eqn:E;
      cbn [fst]; [discriminate|].
    apply orb_false_iff in E. rewrite Z.leb_gt, Z.ltb_ge in E.
    intros _. lia.
Qed.

(** A request for 6000 on the payment of 5000. *)
Lemma requestRefund_amount_check_witness :
  let request :=
    requestRefund sample_toString 10 7 1 (num 6000) "too much" in
  let payment := payment1 "confirmed" in
  let d := dbWithPayment "confirmed" in
  (response_of request d
     = Return (mkResponse 400
                 (invalid_refund_message sample_toString
                    (refundableAmount payment d)) None)
   <-> js_le (num 6000) (num 0) = true
       \/ js_gt (num 6000) (refundableAmount payment d) = true)
  /\ (forall (paid requested : Z) (counted : list Z),
         payment.(p_amount) = num paid ->
         num 6000 = num requested ->
         map r_amount (refunds_of 1 ["approved"; "processed"] d.(refunds))
         = map num counted ->
         Forall (fun r => 0 <= r) counted ->
         0 <= paid < 2 ^ 53 -> safe requested -> total counted < 2 ^ 53 ->
         refundableAmount payment d = num (paid - total counted)
         /\ (response_of request d
             = Return (mkResponse 201 "Refund requested successfully" None)
             -> 0 < requested /\ requested + total counted <= paid)).
Proof.
  apply (requestRefund_amount_check sample_toString
           (dbWithPayment "confirmed") 10 7 1 (num 6000) "too much"
           (payment1 "confirmed")); reflexivity.
Defined.

(** C2 as the specification has it does not hold: two requests for the full
    5000 are both accepted, since the first is only [requested] when the
    second arrives, and [reviewRefund] approves both; the approved refunds
    of the payment then add up to 10000, twice its amount. *)
Lemma approved_refunds_exceed_payment :
  let d0 := dbWithPayment "confirmed" in
  let d1 :=
    after (requestRefund sample_toString 10 7 1 (num 5000) "first") d0 in
  let d2 :=
    after (requestRefund sample_toString 11 7 1 (num 5000) "second") d1 in
  let d3 := after (reviewRefund (Answered true "ok") 3 10 "approved") d2 in
  let d4 := after (reviewRefund (Answered true "ok") 3 11 "approved") d3 in
  response_of (requestRefund sample_toString 10 7 1 (num 5000) "first") d0
    = Return (mkResponse 201 "Refund requested successfully" None)
  /\ response_of (requestRefund sample_toString 11 7 1 (num 5000) "second")
                 d1
     = Return (mkResponse 201 "Refund requested successfully" None)
  /\ response_of (reviewRefund (Answered true "ok") 3 10 "approved") d2
     = Return (mkResponse 200 "Refund approved successfully" None)
  /\ response_of (reviewRefund (Answered true "ok") 3 11 "approved") d3
     = Return (mkResponse 200 "Refund approved successfully" None)
  /\ option_map p_amount (stored_payment 1 d4) = Some (num 5000)
  /\ refundedTotal 1 d4 = num 10000
  /\ js_gt (refundedTotal 1 d4) (num 5000) = true.
Proof. vm_compute. repeat split. Qed.

(** C8.  The school approves the requested refund and the gateway
    declines: the caller gets the 400 "Paystack refund initiation failed",
    but the branch sets [failed] on the in-memory document only, so the
    stored refund is still [approved] and its audit trail ends with
    [refund_approved]. *)
Theorem reviewRefund_decline_is_not_saved :
  let review := reviewRefund (Answered false "declined") 3 10 "approved" in
  response_of review (dbWithRefund "requested")
    = Return (mkResponse 400 "Paystack refund initiation failed"
                         (Some "declined"))
  /\ option_map r_status
       (stored_refund 10 (after review (dbWithRefund "requested")))
     = Some "approved"
  /\ option_map auditTrail
       (stored_refund 10 (after review (dbWithRefund "requested")))
     = Some [mkAuditItem "refund_requested" (Some 7) None;
             mkAuditItem "refund_approved" (Some 3) None].
Proof. vm_compute. repeat split. Qed.

(** C9 as the specification has it does not hold: the school reviews a
    rejected refund again, with [approved], and the stored refund becomes
    [approved]. *)
Lemma rejected_refund_is_approved_later :
  let review := reviewRefund (Answered true "ok") 3 10 "approved" in
  option_map r_status (stored_refund 10 (dbWithRefund "rejected"))
    = Some "rejected"
  /\ response_of review (dbWithRefund "rejected")
     = Return (mkResponse 200 "Refund approved successfully" None)
  /\ option_map r_status
       (stored_refund 10 (after review (dbWithRefund "rejected")))
     = Some "approved".
Proof. vm_compute. repeat split. Qed.

Lemma findOne_some (paymentId : Id) (statuses : list string)
  (coll : list Refund) (r : Refund) :
  hd_error (refunds_of paymentId statuses coll) = Some r ->
  In r coll /\ includes statuses r.(r_status) = true.
Proof.
  unfold refunds_of. intros H.
  assert (Hin : In r (filter (fun r => id_eqb r.(r_paymentId) paymentId
                                      && includes statuses r.(r_status))
                             coll)).
  { destruct (filter _ coll) as [|x rest]; [discriminate|].
    injection H as ->. now left. }
  apply filter_In in Hin. destruct Hin as [Hin Hb].
  apply andb_true_iff in Hb. tauto.
Qed.

(** Saving a refund that the webhook selected leaves a rejected refund of
    the store in place. *)
Lemma rejected_refund_kept (d : Db) (r found saved : Refund)
  (paymentId : Id) :
  NoDup (map r_id d.(refunds)) ->
  In r d.(refunds) ->
  r.(r_status) = "rejected" ->
  hd_error (refunds_of paymentId ["approved"; "requested"] d.(refunds))
    = Some found ->
  saved.(r_id) = found.(r_id) ->
  In r (save_by r_id saved d.(refunds)).
Proof.
  intros Hnd Hin Hst Hfound Hid.
  apply findOne_some in Hfound. destruct Hfound as [Hfin Hfst].
  apply save_by_keeps; [exact Hin|].
  rewrite Hid. intros Heq.
  assert (r = found) by (apply (unique_key Refund r_id r found d.(refunds));
                         assumption).
  subst found. rewrite Hst in Hfst. discriminate.
Qed.

Lemma handleRefundWebhook_keeps_rejected
  (d : Db) (hash signature : string) (event : RefundEvent) (r : Refund) :
  NoDup (map r_id d.(refunds)) ->
  In r d.(refunds) ->
  r.(r_status) = "rejected" ->
  In r (after (handleRefundWebhook hash signature event) d).(refunds).
Proof.
  intros Hnd Hin Hst.
  unfold after, handleRefundWebhook, transaction_reference, customer_email.
  unfold_store. unfold_flow.
  destruct (String.eqb hash signature); cbn [negb]; [|exact Hin].
  destruct (String.eqb (re_event event) "refund.processed").
  - destruct (re_data event) as [[[reference|] customer]|];
      cbn [red_transaction red_customer]; [|exact Hin|exact Hin].
    destruct (find _ (payments d)) as [payment|]; [|exact Hin].
    destruct (hd_error _) as [found|] eqn:F; [|exact Hin].
    destruct (negb (String.eqb (r_status found) "processed"));
      [|exact Hin].
    destruct customer as [email|];
      cbn [snd refunds set_auditLog set_transactionLog set_refunds];
      now apply (rejected_refund_kept d r found _ (p_id payment)).
  - destruct (String.eqb (re_event event) "refund.failed"); [|exact Hin].
    destruct (re_data event) as [[[reference|] customer]|];
      cbn [red_transaction red_customer]; [|exact Hin|exact Hin].
    destruct (find _ (payments d)) as [payment|]; [|exact Hin].
    destruct (hd_error _) as [found|] eqn:F; [|exact Hin].
    destruct customer as [email|];
      cbn [snd refunds set_auditLog set_transactionLog set_refunds];
      now apply (rejected_refund_kept d r found _ (p_id payment)).
Qed.

(** Once the school owns the refund and the decision is one of the two
    accepted words, the stored refund carries the decision, whatever the
    refund's status was and whatever the gateway answers. *)
Lemma reviewRefund_stores_decision
  (d : Db) (paystack : GatewayAnswer) (adminId refundId : Id)
  (status : string) (refund : Refund) (school : School) :
  stored_refund refundId d = Some refund ->
  populate_school refund.(r_schoolId) d = (Next (Some school), d) ->
  school.(sc_id) = adminId ->
  includes ["approved"; "rejected"] status = true ->
  option_map r_status
    (stored_refund refundId (after (reviewRefund paystack adminId refundId
                                                 status) d))
  = Some status.
Proof.
  intros Hfind Hschool Hown Hdec.
  assert (Hid : refund.(r_id) = refundId).
  { unfold stored_refund in Hfind. apply find_some in Hfind.
    now apply id_eqb_eq. }
  subst refundId.
  unfold stored_refund in *.
  unfold after, reviewRefund.
  unfold RefundModel_findById at 1. unfold bind at 1, try_catch, get, ret at 1.
  unfold bind at 1. rewrite Hfind.
  unfold bind at 1. rewrite Hschool.
  rewrite Hown, id_eqb_refl, Hdec. cbn [negb].
  unfold_store. unfold_flow. cbv beta iota.
  assert (Hsaved : forall doc coll,
             doc.(r_id) = refund.(r_id) ->
             find (fun r => id_eqb r.(r_id) refund.(r_id))
                  (save_by r_id doc coll) = Some doc).
  { intros doc coll E. rewrite <- E. apply find_save_by. }
  destruct (String.eqb status "approved") eqn:Eapp.
  - apply String.eqb_eq in Eapp. subst status.
    destruct (find _ (payments _)) as [payment|];
      [|cbn; rewrite Hsaved; reflexivity].
    destruct (negb (String.eqb (paymentProvider payment) "Paystack"));
      [cbn; rewrite Hsaved; reflexivity|].
    destruct (negb (truthy (paystackRef payment)));
      [cbn; rewrite Hsaved; reflexivity|].
    destruct (negb (includes (paymentProviders school) "Paystack"));
      [cbn; rewrite Hsaved; reflexivity|].
    destruct paystack as [e|[|] msg]; cbn; rewrite Hsaved; reflexivity.
  - cbn. rewrite Hsaved; reflexivity.
Qed.

(** C9, as far as the code goes.  A refund webhook never touches a rejected
    refund (it only selects refunds that are approved or requested).
    [reviewRefund] does not look at the current status: a review by the
    owning school stores its decision, so [rejected] is kept by a second
    rejection and replaced by a later approval. *)
Theorem rejected_refund_after_operations
  (d : Db) (r : Refund) (school : School) :
  NoDup (map r_id d.(refunds)) ->
  In r d.(refunds) ->
  r.(r_status) = "rejected" ->
  populate_school r.(r_schoolId) d = (Next (Some school), d) ->
  (forall hash signature event,
      In r (after (handleRefundWebhook hash signature event) d).(refunds))
  /\ (forall paystack status,
         includes ["approved"; "rejected"] status = true ->
         option_map r_status
           (stored_refund r.(r_id)
              (after (reviewRefund paystack school.(sc_id) r.(r_id) status) d))
         = Some status).
Proof.
  intros Hnd Hin Hst Hschool. split.
  - intros hash signature event.
    now apply handleRefundWebhook_keeps_rejected.
  - intros paystack status Hdec.
    apply (reviewRefund_stores_decision d paystack school.(sc_id) r.(r_id)
             status r school); auto.
    unfold stored_refund. now apply (find_unique Refund r_id r).
Qed.

Lemma rejected_refund_after_operations_witness :
  (forall hash signature event,
      In (refund10 "rejected")
         (after (handleRefundWebhook hash signature event)
                (dbWithRefund "rejected")).(refunds))
  /\ (forall paystack status,
         includes ["approved"; "rejected"] status = true ->
         option_map r_status
           (stored_refund (refund10 "rejected").(r_id)
              (after (reviewRefund paystack school3.(sc_id)
                                   (refund10 "rejected").(r_id) status)
                     (dbWithRefund "rejected")))
         = Some status).
Proof.
  apply (rejected_refund_after_operations (dbWithRefund "rejected")
           (refund10 "rejected") school3).
  - simpl. constructor; [intros [] | constructor].
  - simpl. now left.
  - reflexivity.
  - reflexivity.
Defined.

(* ------------------------------------------------------------------ *)
(** ** Payment workflow: confirmation *)

Lemma updateFeeAssignmentStatus_logs (i : Id) (d : Db) :
  exists d', updateFeeAssignmentStatus i d = (Next tt, d')
             /\ d'.(transactionLog) = d.(transactionLog)
             /\ d'.(invoices) = d.(invoices).
Proof.
  unfold updateFeeAssignmentStatus. unfold_store. unfold_flow.
  destruct (find _ (payments d)); [|eexists; repeat split].
  destruct (find _ (assignments d)); eexists; repeat split.
Qed.

(** The guard of the [charge.success] branch: a payment that is already
    confirmed is acknowledged and the store is left as it was. *)
Lemma handleWebhook_confirmed_unchanged (d : Db) (event : ChargeEvent)
  (payment : Payment) :
  event.(ce_event) = "charge.success" ->
  payment_by_ref event.(ce_data).(cd_reference) d = Some payment ->
  payment.(p_status) = "confirmed" ->
  handleWebhook event d
  = (Return (mkResponse 200 "Webhook processed successfully" None), d).
Proof.
  intros He F Hs. unfold payment_by_ref in F.
  unfold handleWebhook, PaymentModel_findByRef. unfold_flow.
  rewrite He. cbn [String.eqb Ascii.eqb Bool.eqb]. cbv beta iota.
  rewrite F, Hs. reflexivity.
Qed.

(** No such guard in [verifyPayment]: whatever the status of the payment, a
    success report is answered 200 after one more [payment_confirmed] entry
    and one more invoice. *)
Lemma verifyPayment_confirms_again (d : Db) (reference msg : string)
  (data : ChargeData) (payment : Payment) :
  payment_by_ref reference d = Some payment ->
  data.(cd_status) = "success" ->
  exists d',
    verifyPayment (VerifyAnswered true msg data) reference d
    = (Return (mkResponse 200 "Payment verified successfully" None), d')
    /\ d'.(transactionLog)
       = (d.(transactionLog)
          ++ [mkLogEntry "payment_confirmed" (Some payment.(p_id)) None])%list
    /\ d'.(invoices) = (d.(invoices) ++ [payment.(p_id)])%list.
Proof.
  intros F Hs. unfold payment_by_ref in F.
  unfold verifyPayment.
  unfold PaymentModel_findByRef, try_catch, get.
  unfold bind at 1. unfold bind at 1. unfold ret at 1. cbv beta iota.
  rewrite F, Hs. cbv beta iota. cbn [andb String.eqb Ascii.eqb Bool.eqb].
  unfold Payment_save, TransactionLogModel_create, logActionUtil,
    createInvoice.
  unfold_flow. cbv beta iota.
  match goal with
  | |- context [updateFeeAssignmentStatus ?i ?s] =>
      destruct (updateFeeAssignmentStatus_logs i s) as (d' & -> & Hl & Hi)
  end.
  exists d'. split; [reflexivity|].
  split; [rewrite Hl | rewrite Hi]; reflexivity.
Qed.

(** C1.  [verifyPayment] has no check of the current status, unlike the
    [charge.success] branch of [handleWebhook]: a second verification of a
    confirmed payment is answered 200 after writing a second
    [payment_confirmed] entry and invoice and calling the settlement step
    again, and so is a verification that follows the webhook.  With the
    settlement step of the specification the assignment of the 5000 payment
    ends at 10000 paid.  The webhook, delivered after either, changes
    nothing. *)
Theorem verifyPayment_settles_again :
  let d0 := dbWithPayment "initiated" in
  let verified := after (verifyPayment verifiedOk "PAY-1") d0 in
  let verified_twice := after (verifyPayment verifiedOk "PAY-1") verified in
  let hooked := after (handleWebhook chargeSuccess) d0 in
  let hooked_verified := after (verifyPayment verifiedOk "PAY-1") hooked in
  map amountPaid verified.(assignments) = [num 5000]
  /\ map amountPaid hooked.(assignments) = [num 5000]
  /\ payment_status 1 verified = Some "confirmed"
  /\ response_of (verifyPayment verifiedOk "PAY-1") verified
     = Return (mkResponse 200 "Payment verified successfully" None)
  /\ map amountPaid verified_twice.(assignments) = [num 10000]
  /\ map l_action verified_twice.(transactionLog)
     = ["payment_confirmed"; "payment_confirmed"]
  /\ verified_twice.(invoices) = [1; 1]
  /\ map amountPaid hooked_verified.(assignments) = [num 10000]
  /\ after (handleWebhook chargeSuccess) hooked = hooked
  /\ after (handleWebhook chargeSuccess) verified = verified.
Proof. vm_compute. repeat split. Qed.




Lemma updateFeeAssignmentStatus_next (i : Id) (d : Db) :
  exists d', updateFeeAssignmentStatus i d = (Next tt, d')
             /\ d'.(payments) = d.(payments).
Proof.
  unfold updateFeeAssignmentStatus. unfold_store. unfold_flow.
  destruct (find _ (payments d)); [|eexists; split; reflexivity].
  destruct (find _ (assignments d)); eexists; split; reflexivity.
Qed.






(* ------------------------------------------------------------------ *)
(** ** Payment workflow: initialization *)

Ltac unfold_tx :=
  unfold initializePayment, initializePayment_body, direct, startTransaction,
    abortTransaction, endSession, commitTransaction, Payment_save_in_session,
    Receipt_save_in_session in *.

(** The partial-payment check comes first once the fee is found, and it
    compares with [<]. *)
Lemma initializePayment_partial_check
  (d : Db) (paystack : InitAnswer) (upload : UploadResult)
  (_id studentId feeId : Id) (amount : Number) (fee : Fee) :
  find (fun f => id_eqb f.(f_id) feeId) d.(fees) = Some fee ->
  fee.(allowPartialPayment) = false ->
  if js_lt amount fee.(f_amount) then
    initializePayment paystack upload _id studentId feeId amount d
    = (Return partial_not_allowed, d)
  else
    response_of (initializePayment paystack upload _id studentId feeId amount)
                d
    <> Return partial_not_allowed.
Proof.
  intros Hfee Hpartial.
  unfold response_of. unfold_tx. unfold_store. unfold_flow.
  cbn [db]. rewrite Hfee, Hpartial.
  destruct (js_lt amount (f_amount fee)); cbn [andb negb]; [reflexivity|].
  destruct (js_le amount (num 0)); [discriminate|].
  cbn [db pendingPayments pendingReceipts schools].
  destruct (find _ (schools d)) as [school|]; [|discriminate].
  destruct (negb (includes (paymentProviders school) "Paystack"));
    [discriminate|].
  destruct paystack as [e|[|] msg reference url]; try discriminate.
  cbn [db pendingPayments pendingReceipts p_feeId p_studentId
       set_paystackRef].
  destruct (find _ (assignments d)) as [assignment|]; [|discriminate].
  cbn [db pendingPayments pendingReceipts set_assignments students].
  destruct (find _ (students d)) as [student|]; [|discriminate].
  destruct upload as [e|url']; discriminate.
Qed.

(** C7, as far as the code goes.  For a fee that forbids partial payment the
    request is answered 400 "Partial payments not allowed for this fee"
    exactly when the amount is below the fee's amount, and then nothing is
    written; an amount equal to or above the fee's amount passes this
    check. *)
Theorem initializePayment_partial_payment
  (d : Db) (paystack : InitAnswer) (upload : UploadResult)
  (_id studentId feeId : Id) (amount : Number) (fee : Fee) :
  find (fun f => id_eqb f.(f_id) feeId) d.(fees) = Some fee ->
  fee.(allowPartialPayment) = false ->
  (response_of (initializePayment paystack upload _id studentId feeId amount)
               d
   = Return partial_not_allowed
   <-> js_lt amount fee.(f_amount) = true)
  /\ (js_lt amount fee.(f_amount) = true ->
      after (initializePayment paystack upload _id studentId feeId amount) d
      = d).
Proof.
  intros Hfee Hpartial.
  pose proof (initializePayment_partial_check d paystack upload _id studentId
                feeId amount fee Hfee Hpartial) as H.
  unfold response_of, after in *.
  destruct (js_lt amount (f_amount fee)) eqn:E.
  - rewrite H. cbn [fst snd].
    split; [split; reflexivity | reflexivity].
  - split; [split; [intros R; contradiction | discriminate] | discriminate].
Qed.

(** 3000 against the fee of 5000. *)
Lemma initializePayment_partial_payment_witness :
  (response_of (initializePayment (InitRejected (Error "unreachable"))
                                  (Uploaded "https://files.example/r.pdf")
                                  1 7 5 (num 3000)) emptyDb
   = Return partial_not_allowed
   <-> js_lt (num 3000) fee5.(f_amount) = true)
  /\ (js_lt (num 3000) fee5.(f_amount) = true ->
      after (initializePayment (InitRejected (Error "unreachable"))
                               (Uploaded "https://files.example/r.pdf")
                               1 7 5 (num 3000)) emptyDb
      = emptyDb).
Proof.
  apply (initializePayment_partial_payment emptyDb
           (InitRejected (Error "unreachable"))
           (Uploaded "https://files.example/r.pdf") 1 7 5 (num 3000) fee5);
    reflexivity.
Defined.

(** C7 as the specification has it does not hold: 7000 against the fee of
    5000 that forbids partial payment is not answered with "Partial payments
    not allowed": the request goes on to the gateway, whose answer decides
    the reply. *)
Lemma overpayment_passes_partial_check :
  fee5.(allowPartialPayment) = false
  /\ fee5.(f_amount) = num 5000
  /\ js_lt (num 7000) fee5.(f_amount) = false
  /\ response_of (initializePayment
                    (InitAnswered false "Invalid key" "" "")
                    (Uploaded "https://files.example/r.pdf") 1 7 5
                    (num 7000))
                 emptyDb
     = Return (mkResponse 500 "Paystack initialization failed"
                          (Some "Invalid key"))
  /\ response_of (initializePayment
                    (InitAnswered false "Invalid key" "" "")
                    (Uploaded "https://files.example/r.pdf") 1 7 5
                    (num 3000))
                 emptyDb
     = Return partial_not_allowed.
Proof. vm_compute. repeat split. Qed.

(** The three ways in which a request that passed validation fails before
    the commit. *)
Section InitializationFailures.
Variables (d : Db) (_id studentId feeId : Id) (amount : Number).
Variables (fee : Fee) (school : School).
Hypothesis fee_found :
  find (fun f => id_eqb f.(f_id) feeId) d.(fees) = Some fee.
Hypothesis not_partial :
  js_lt amount fee.(f_amount) && negb fee.(allowPartialPayment) = false.
Hypothesis positive : js_lt (num 0) amount = true.
Hypothesis school_found :
  find (fun s => id_eqb s.(sc_id) fee.(f_schoolId)) d.(schools)
  = Some school.
Hypothesis configured : includes school.(paymentProviders) "Paystack" = true.

Lemma initializePayment_declined (upload : UploadResult)
  (msg reference url : string) :
  initializePayment (InitAnswered false msg reference url) upload _id
                    studentId feeId amount d
  = (Return (mkResponse 500 "Paystack initialization failed" (Some msg)),
     d).
Proof.
  unfold_tx. unfold_store. unfold_flow.
  cbn [db]. rewrite fee_found, not_partial.
  rewrite (js_lt_not_ge _ _ positive).
  cbn [db pendingPayments pendingReceipts schools].
  rewrite school_found, configured. reflexivity.
Qed.

Lemma initializePayment_unreachable (upload : UploadResult) (e : JsError) :
  initializePayment (InitRejected e) upload _id studentId feeId amount d
  = (Return (server_error e), error_logged d).
Proof.
  unfold_tx. unfold_store. unfold_flow.
  cbn [db]. rewrite fee_found, not_partial.
  rewrite (js_lt_not_ge _ _ positive).
  cbn [db pendingPayments pendingReceipts schools].
  rewrite school_found, configured. reflexivity.
Qed.

Lemma initializePayment_upload_failed (msg reference url : string)
  (e : JsError) (assignment : FeeAssignment) (student : Student) :
  find (fun a => id_eqb a.(fa_feeId) feeId
                 && id_eqb a.(fa_studentId) studentId) d.(assignments)
  = Some assignment ->
  find (fun s => id_eqb s.(st_id) studentId) d.(students) = Some student ->
  initializePayment (InitAnswered true msg reference url) (UploadFailed e)
                    _id studentId feeId amount d
  = (Return (server_error e),
     error_logged
       (set_assignments
          (save_by fa_id
             (mkFeeAssignment assignment.(fa_id) assignment.(fa_feeId)
                assignment.(fa_studentId) assignment.(amountDue)
                (js_add assignment.(amountPaid) amount)
                (if js_ge (js_add assignment.(amountPaid) amount)
                          assignment.(amountDue)
                 then "fully_paid" else "partially_paid")))
          d)).
Proof.
  intros Hassignment Hstudent.
  unfold_tx. unfold_store. unfold_flow.
  cbn [db]. rewrite fee_found, not_partial.
  rewrite (js_lt_not_ge _ _ positive).
  cbn [db pendingPayments pendingReceipts schools].
  rewrite school_found, configured.
  cbn [negb db pendingPayments pendingReceipts p_feeId p_studentId p_amount
       set_paystackRef].
  rewrite Hassignment.
  cbn [db pendingPayments pendingReceipts set_assignments students].
  rewrite Hstudent. reflexivity.
Qed.

(** C4, as far as the code goes.  For a request that passed validation: if
    the gateway answers with a false status nothing at all is written; if
    the gateway call fails, or if the upload of the receipt fails after
    the gateway accepted, the transaction is aborted and the caller gets a
    500, so that no Payment and no Receipt persists; after a failed gateway
    call the store differs by the [payment_initialization_error] entry
    only. *)
Theorem initializePayment_failure_aborts :
  (forall upload msg reference url,
      initializePayment (InitAnswered false msg reference url) upload _id
                        studentId feeId amount d
      = (Return (mkResponse 500 "Paystack initialization failed"
                            (Some msg)), d))
  /\ (forall upload e,
         initializePayment (InitRejected e) upload _id studentId feeId amount
                           d
         = (Return (server_error e), error_logged d))
  /\ (forall msg reference url e assignment student,
         find (fun a => id_eqb a.(fa_feeId) feeId
                        && id_eqb a.(fa_studentId) studentId)
              d.(assignments) = Some assignment ->
         find (fun s => id_eqb s.(st_id) studentId) d.(students)
         = Some student ->
         let run := initializePayment (InitAnswered true msg reference url)
                                      (UploadFailed e) _id studentId feeId
                                      amount in
         response_of run d = Return (server_error e)
         /\ (after run d).(payments) = d.(payments)
         /\ (after run d).(receipts) = d.(receipts)).
Proof.
  split; [|split].
  - intros. apply initializePayment_declined.
  - intros. apply initializePayment_unreachable.
  - intros msg reference url e assignment student Ha Hs run.
    unfold run, response_of, after.
    rewrite (initializePayment_upload_failed msg reference url e assignment
               student Ha Hs).
    repeat split.
Qed.
End InitializationFailures.

Lemma initializePayment_failure_aborts_witness :
  (forall upload msg reference url,
      initializePayment (InitAnswered false msg reference url) upload 1 7 5
                        (num 5000) emptyDb
      = (Return (mkResponse 500 "Paystack initialization failed" (Some msg)),
         emptyDb))
  /\ (forall upload e,
         initializePayment (InitRejected e) upload 1 7 5 (num 5000) emptyDb
         = (Return (server_error e), error_logged emptyDb))
  /\ (forall msg reference url e assignment student,
         find (fun a => id_eqb a.(fa_feeId) 5 && id_eqb a.(fa_studentId) 7)
              emptyDb.(assignments) = Some assignment ->
         find (fun s => id_eqb s.(st_id) 7) emptyDb.(students)
         = Some student ->
         let run := initializePayment (InitAnswered true msg reference url)
                                      (UploadFailed e) 1 7 5 (num 5000) in
         response_of run emptyDb = Return (server_error e)
         /\ (after run emptyDb).(payments) = emptyDb.(payments)
         /\ (after run emptyDb).(receipts) = emptyDb.(receipts)).
Proof.
  apply (initializePayment_failure_aborts emptyDb 1 7 5 (num 5000) fee5
           school3).
  - reflexivity.
  - reflexivity.
  - reflexivity.
  - reflexivity.
  - reflexivity.
Defined.

(** C4 as the specification has it does not hold: the gateway accepted the
    initialization and the handler saved the payment in its session and
    updated the fee assignment; the upload of the receipt then fails, the
    caller gets a 500 and the payment is not in the store. *)
Lemma upload_failure_rolls_payment_back :
  let run := initializePayment initializedOk
                               (UploadFailed (Error "upload timed out"))
                               1 7 5 (num 5000) in
  response_of run emptyDb
    = Return (mkResponse 500 "Server error" (Some "upload timed out"))
  /\ map amountPaid (after run emptyDb).(assignments) = [num 5000]
  /\ (after run emptyDb).(payments) = []
  /\ (after run emptyDb).(receipts) = []
  /\ stored_payment 1 (after run emptyDb) = None.
Proof. vm_compute. repeat split. Qed.

(* ------------------------------------------------------------------ *)
(** ** Fraud scoring *)

(** C3.  [checkFraud] never returns a value: whatever the lookups and the
    anomaly API answer, the call ends in the catch block, which logs
    [fraud_check_error] and then evaluates [feeAssignment], a constant of the
    try block that the catch block does not see.  The [ReferenceError]
    leaves the function, and no queue entry is created. *)
Theorem checkFraud_always_throws
  (w : FraudDetection.World) (payment : Payment) (userAgent : string)
  (s : FraudDetection.Store) :
  fst (FraudDetection.checkFraud w payment userAgent s)
    = Throw (ReferenceError "feeAssignment")
  /\ (snd (FraudDetection.checkFraud w payment userAgent s))
       .(FraudDetection.fraudCheckQueue)
     = s.(FraudDetection.fraudCheckQueue)
  /\ exists before,
       (snd (FraudDetection.checkFraud w payment userAgent s))
         .(FraudDetection.transactionLog)
       = (before ++ ["fraud_check_error"])%list.
Proof.
  destruct w as [student feeAssignment lastTransaction lastPayment oracle].
  unfold FraudDetection.checkFraud. cbn [FraudDetection.w_student
    FraudDetection.w_feeAssignment FraudDetection.w_oracle
    FraudDetection.w_lastTransaction FraudDetection.w_lastPayment].
  destruct student as [student|];
    [destruct feeAssignment as [feeAssignment|];
     [destruct oracle as [e|re th scale]|]|];
    (split; [reflexivity | split; [reflexivity | eexists; reflexivity]]).
Qed.

(** C6.  The scenario of the specification run through [checkFraud]: the
    student and the fee assignment are found and the oracle answers a
    reconstruction error of 50 and a threshold of 40.  Line 64 derives the
    score 50, in double precision as on paper, and the call is logged as
    [fraud_check]; but the call does not return the score: the try block
    goes on to evaluate [FraudLogModel], which the module does not import,
    and the catch block then fails as in C3.  The caller gets a
    [ReferenceError], and no answer of the oracle makes the call return a
    score. *)
Theorem checkFraud_returns_no_score
  (studentType : option string) (amountDue : Number)
  (lastTransaction : option string) (lastPayment : option Z)
  (scale : option string) (payment : Payment) (userAgent : string)
  (s : FraudDetection.Store) :
  let answered re th :=
    FraudDetection.mkWorld (Some studentType) (Some amountDue)
      lastTransaction lastPayment
      (FraudDetection.OracleAnswered re th scale) in
  let scenario := answered (num 50) (num 40) in
  FraudDetection.fraudScoreOf (num 50) (num 40) = num 50
  /\ fst (FraudDetection.checkFraud scenario payment userAgent s)
     = Throw (ReferenceError "feeAssignment")
  /\ (snd (FraudDetection.checkFraud scenario payment userAgent s))
       .(FraudDetection.transactionLog)
     = (s.(FraudDetection.transactionLog)
        ++ ["fraud_check"; "fraud_check_error"])%list
  /\ (forall re th result,
         fst (FraudDetection.checkFraud (answered re th) payment userAgent s)
         <> Return result).
Proof.
  cbv zeta. split; [vm_compute; reflexivity|].
  unfold FraudDetection.checkFraud.
  cbn [FraudDetection.w_student FraudDetection.w_feeAssignment
       FraudDetection.w_oracle FraudDetection.w_lastTransaction
       FraudDetection.w_lastPayment].
  split; [reflexivity|]. split.
  - cbn. now rewrite <- app_assoc.
  - intros re th result. cbn. discriminate.
Qed.

(* ------------------------------------------------------------------ *)
(** ** Further properties of the refund handlers *)

(** A document that [save] writes back over the one a query found stays
    the answer of that query, as long as it still satisfies it. *)
Lemma id_eqb_neq (a b : Id) : id_eqb a b = false <-> a <> b.
Proof. unfold id_eqb. apply Z.eqb_neq. Qed.

Lemma find_save_by_pred (A : Type) (key : A -> Id) (P : A -> bool)
  (a doc : A) (coll : list A) :
  NoDup (map key coll) ->
  find P coll = Some a ->
  key doc = key a ->
  P doc = true ->
  find P (save_by key doc coll) = Some doc.
Proof.
  induction coll as [|x rest IH]; simpl; intros Hnd F Hk HP.
  - discriminate.
  - inversion Hnd as [|? ? Hnotin Hnd']; subst.
    destruct (P x) eqn:Px.
    + injection F as ->. rewrite <- Hk, id_eqb_refl. simpl. now rewrite HP.
    + assert (Hne : id_eqb (key x) (key doc) = false).
      { apply not_true_is_false. intros E. apply id_eqb_eq in E.
        apply Hnotin. rewrite E, Hk. apply in_map.
        now apply find_some in F. }
      rewrite Hne. simpl. rewrite Px. now apply IH.
Qed.

(** Saving a document changes the answer of [findById] for its own id
    only. *)
Lemma find_save_by_other (A : Type) (key : A -> Id) (doc : A) (i : Id)
  (coll : list A) :
  key doc <> i ->
  find (fun x => id_eqb (key x) i) (save_by key doc coll)
  = find (fun x => id_eqb (key x) i) coll.
Proof.
  intros Hne. induction coll as [|y rest IH]; simpl.
  - apply id_eqb_neq in Hne. now rewrite Hne.
  - destruct (id_eqb (key y) (key doc)) eqn:E; simpl.
    + apply id_eqb_eq in E. rewrite E.
      apply id_eqb_neq in Hne. now rewrite Hne.
    + now rewrite IH.
Qed.

(** X1.  A refund webhook whose signature is not the digest of its body is
    answered 401 and writes nothing. *)
Theorem handleRefundWebhook_bad_signature
  (d : Db) (hash signature : string) (event : RefundEvent) :
  hash <> signature ->
  handleRefundWebhook hash signature event d
  = (Return (mkResponse 401 "Invalid webhook signature" None), d).
Proof.
  intros Hne. apply String.eqb_neq in Hne.
  unfold handleRefundWebhook. unfold_flow. now rewrite Hne.
Qed.

Lemma handleRefundWebhook_bad_signature_witness :
  handleRefundWebhook "9f2c" "0000" (refundEvent1 "refund.processed")
                      (dbWithRefund "approved")
  = (Return (mkResponse 401 "Invalid webhook signature" None),
     dbWithRefund "approved").
Proof.
  apply (handleRefundWebhook_bad_signature (dbWithRefund "approved") "9f2c"
           "0000" (refundEvent1 "refund.processed")).
  discriminate.
Defined.

(** What a signed [refund.processed] or [refund.failed] event does once
    the payment and an open refund are found: the refund and the
    TransactionLog entry are written before the handler reads
    [event.data.customer.email], the AuditLog entry after it. *)
Lemma handleRefundWebhook_settles
  (d : Db) (signature : string) (event : RefundEvent) (status : string)
  (reference : string) (payment : Payment) (refund : Refund) :
  (event.(re_event) = "refund.processed" /\ status = "processed")
  \/ (event.(re_event) = "refund.failed" /\ status = "failed") ->
  reference_of event = Some reference ->
  payment_by_ref reference d = Some payment ->
  hd_error (refunds_of payment.(p_id) ["approved"; "requested"] d.(refunds))
  = Some refund ->
  let logged :=
    set_transactionLog
      (fun l => l ++ [mkLogEntry ("refund_" ++ status)
                                 (Some refund.(r_paymentId))
                                 (Some refund.(r_id))])%list
      (set_refunds
         (save_by r_id
            (push_audit (mkAuditItem ("refund_" ++ status) None
                                     (Some reference))
                        (with_status status refund)))
         d) in
  handleRefundWebhook signature signature event d
  = match customer_of event with
    | Some email =>
      (Return (mkResponse 200 "Refund webhook processed successfully" None),
       set_auditLog
         (fun l => l ++ [mkLogEntry ("refund_" ++ status)
                                    (Some refund.(r_paymentId))
                                    (Some refund.(r_id))])%list
         logged)
    | None =>
      (Return (mkResponse 500 "Server error"
                 (Some "Cannot read properties of undefined (reading 'email')")),
       logged)
    end.
Proof.
  intros Hev Href Hpay Hfound.
  pose proof (findOne_some _ _ _ _ Hfound) as [_ Hst].
  unfold payment_by_ref in Hpay.
  unfold reference_of in Href. unfold customer_of.
  destruct (re_data event) as [[transaction customer]|] eqn:Hdata;
    [|discriminate].
  cbn [red_transaction red_customer] in *. subst transaction.
  unfold handleRefundWebhook, transaction_reference, customer_email.
  unfold_store. unfold_flow.
  rewrite String.eqb_refl, Hdata. cbn [negb red_transaction red_customer].
  destruct Hev as [[-> ->]|[-> ->]]; cbn [String.eqb Ascii.eqb Bool.eqb].
  - rewrite Hpay. cbv beta iota. rewrite Hfound.
    replace (String.eqb (r_status refund) "processed") with false.
    + destruct customer; reflexivity.
    + symmetry. apply String.eqb_neq. intros E. rewrite E in Hst.
      discriminate.
  - rewrite Hpay. cbv beta iota. rewrite Hfound.
    destruct customer; reflexivity.
Qed.

(** X2.  A signed [refund.processed] ([refund.failed]) event for a known
    payment marks the first stored refund of the payment that is approved
    or requested as processed (failed), appends one audit entry with the
    gateway reference to it, leaves every other refund as it was and writes
    one TransactionLog entry.  With a [customer] object in the event the
    AuditLog entry follows and the event is acknowledged with 200; without
    one the handler fails on [event.data.customer.email] after these writes:
    the reply is a 500 and the AuditLog entry is missing. *)
Theorem handleRefundWebhook_settles_first_open
  (d : Db) (signature : string) (event : RefundEvent) (status : string)
  (reference : string) (payment : Payment) (refund : Refund) :
  (event.(re_event) = "refund.processed" /\ status = "processed")
  \/ (event.(re_event) = "refund.failed" /\ status = "failed") ->
  reference_of event = Some reference ->
  payment_by_ref reference d = Some payment ->
  hd_error (refunds_of payment.(p_id) ["approved"; "requested"] d.(refunds))
  = Some refund ->
  let run := handleRefundWebhook signature signature event in
  let entry :=
    mkLogEntry ("refund_" ++ status) (Some refund.(r_paymentId))
               (Some refund.(r_id)) in
  stored_refund refund.(r_id) (after run d)
  = Some (mkRefund refund.(r_id) refund.(r_paymentId)
            refund.(r_studentId) refund.(r_schoolId) refund.(r_amount)
            refund.(reason) status refund.(fraudScore)
            (refund.(auditTrail)
             ++ [mkAuditItem ("refund_" ++ status) None (Some reference)])%list)
  /\ (forall i, i <> refund.(r_id) ->
        stored_refund i (after run d) = stored_refund i d)
  /\ (after run d).(transactionLog) = (d.(transactionLog) ++ [entry])%list
  /\ match customer_of event with
     | Some email =>
       response_of run d
       = Return (mkResponse 200 "Refund webhook processed successfully" None)
       /\ (after run d).(auditLog) = (d.(auditLog) ++ [entry])%list
     | None =>
       (exists text,
           response_of run d
           = Return (mkResponse 500 "Server error" (Some text)))
       /\ (after run d).(auditLog) = d.(auditLog)
     end.
Proof.
  intros Hev Href Hpay Hfound run entry.
  unfold run, response_of, after.
  rewrite (handleRefundWebhook_settles d signature event status reference
             payment refund Hev Href Hpay Hfound).
  unfold stored_refund.
  destruct (customer_of event) as [email|]; cbn [fst snd];
    cbn [refunds transactionLog auditLog set_auditLog set_transactionLog
         set_refunds].
  - split; [exact (find_save_by Refund r_id _ (refunds d))|].
    split; [intros i Hi; apply find_save_by_other; cbn; congruence|].
    repeat split.
  - split; [exact (find_save_by Refund r_id _ (refunds d))|].
    split; [intros i Hi; apply find_save_by_other; cbn; congruence|].
    repeat split. eexists. reflexivity.
Qed.

(** The refund was only requested, never approved, when the gateway
    reports it processed, in an event that has no [customer] object. *)
Lemma handleRefundWebhook_settles_first_open_witness :
  let event :=
    mkRefundEvent "refund.processed"
                  (Some (mkRefundEventData (Some "PAY-1") None)) in
  let run := handleRefundWebhook "9f2c" "9f2c" event in
  let d := dbWithRefund "requested" in
  let refund := refund10 "requested" in
  let entry :=
    mkLogEntry ("refund_" ++ "processed") (Some refund.(r_paymentId))
               (Some refund.(r_id)) in
  stored_refund refund.(r_id) (after run d)
  = Some (mkRefund refund.(r_id) refund.(r_paymentId)
            refund.(r_studentId) refund.(r_schoolId) refund.(r_amount)
            refund.(reason) "processed" refund.(fraudScore)
            (refund.(auditTrail)
             ++ [mkAuditItem ("refund_" ++ "processed") None
                             (Some "PAY-1")])%list)
  /\ (forall i, i <> refund.(r_id) ->
        stored_refund i (after run d) = stored_refund i d)
  /\ (after run d).(transactionLog) = (d.(transactionLog) ++ [entry])%list
  /\ match customer_of event with
     | Some email =>
       response_of run d
       = Return (mkResponse 200 "Refund webhook processed successfully" None)
       /\ (after run d).(auditLog) = (d.(auditLog) ++ [entry])%list
     | None =>
       (exists text,
           response_of run d
           = Return (mkResponse 500 "Server error" (Some text)))
       /\ (after run d).(auditLog) = d.(auditLog)
     end.
Proof.
  apply (handleRefundWebhook_settles_first_open (dbWithRefund "requested")
           "9f2c"
           (mkRefundEvent "refund.processed"
                          (Some (mkRefundEventData (Some "PAY-1") None)))
           "processed" "PAY-1" (payment1 "confirmed") (refund10 "requested")).
  - left. split; reflexivity.
  - reflexivity.
  - reflexivity.
  - reflexivity.
Defined.

(** X3.  When a signed refund event writes nothing.  An event of another
    type is acknowledged as ignored.  A [refund.processed] or
    [refund.failed] event without [data] or [data.transaction] makes the
    handler fail on [event.data.transaction.reference] and is answered 500;
    one whose reference no payment carries, or whose payment has no
    approved or requested refund, is answered 404.  In each of these cases
    the store is left as it was, and in the one remaining case the handler
    writes a TransactionLog entry. *)
Theorem handleRefundWebhook_without_effect
  (d : Db) (signature : string) (event : RefundEvent) :
  let run := handleRefundWebhook signature signature event in
  if negb (String.eqb event.(re_event) "refund.processed"
           || String.eqb event.(re_event) "refund.failed")
  then run d = (Return (mkResponse 200 "Webhook event ignored" None), d)
  else
    match reference_of event with
    | None =>
      after run d = d
      /\ exists text,
           response_of run d
           = Return (mkResponse 500 "Server error" (Some text))
    | Some reference =>
      match payment_by_ref reference d with
      | None => run d = (Return (mkResponse 404 "Payment not found" None), d)
      | Some payment =>
        match hd_error (refunds_of payment.(p_id) ["approved"; "requested"]
                                   d.(refunds)) with
        | None =>
          run d = (Return (mkResponse 404 "Refund not found" None), d)
        | Some refund =>
          exists entry,
            (after run d).(transactionLog)
            = (d.(transactionLog) ++ [entry])%list
        end
      end
    end.
Proof.
  cbv zeta.
  destruct (String.eqb (re_event event) "refund.processed") eqn:E1;
    [|destruct (String.eqb (re_event event) "refund.failed") eqn:E2];
    cbn [orb negb].
  3:{ unfold handleRefundWebhook. unfold_flow.
      now rewrite String.eqb_refl, E1, E2. }
  all: destruct (reference_of event) as [reference|] eqn:Href.
  all: try (destruct (payment_by_ref reference d) as [payment|] eqn:Hpay;
            [destruct (hd_error (refunds_of (p_id payment)
                                   ["approved"; "requested"] (refunds d)))
               as [refund|] eqn:Hfound|]).
  - apply String.eqb_eq in E1.
    pose proof (handleRefundWebhook_settles d signature event "processed"
                  reference payment refund (or_introl (conj E1 eq_refl))
                  Href Hpay Hfound) as H.
    cbv zeta in H. unfold after. rewrite H.
    destruct (customer_of event); eexists; reflexivity.
  - unfold reference_of in Href. unfold payment_by_ref in Hpay.
    unfold handleRefundWebhook, transaction_reference. unfold_store.
    unfold_flow. rewrite String.eqb_refl, E1. cbn [negb].
    destruct (re_data event) as [[transaction customer]|]; [|discriminate].
    cbn [red_transaction] in *. subst transaction.
    rewrite Hpay. cbv beta iota. now rewrite Hfound.
  - unfold reference_of in Href. unfold payment_by_ref in Hpay.
    unfold handleRefundWebhook, transaction_reference. unfold_store.
    unfold_flow. rewrite String.eqb_refl, E1. cbn [negb].
    destruct (re_data event) as [[transaction customer]|]; [|discriminate].
    cbn [red_transaction] in *. subst transaction.
    now rewrite Hpay.
  - unfold reference_of in Href. unfold after, response_of.
    unfold handleRefundWebhook, transaction_reference. unfold_store.
    unfold_flow. rewrite String.eqb_refl, E1. cbn [negb].
    destruct (re_data event) as [[transaction customer]|];
      cbn [red_transaction] in *; [subst transaction|];
      (split; [reflexivity | eexists; reflexivity]).
  - apply String.eqb_eq in E2.
    pose proof (handleRefundWebhook_settles d signature event "failed"
                  reference payment refund (or_intror (conj E2 eq_refl))
                  Href Hpay Hfound) as H.
    cbv zeta in H. unfold after. rewrite H.
    destruct (customer_of event); eexists; reflexivity.
  - unfold reference_of in Href. unfold payment_by_ref in Hpay.
    unfold handleRefundWebhook, transaction_reference. unfold_store.
    unfold_flow. rewrite String.eqb_refl, E1, E2. cbn [negb].
    destruct (re_data event) as [[transaction customer]|]; [|discriminate].
    cbn [red_transaction] in *. subst transaction.
    rewrite Hpay. cbv beta iota. now rewrite Hfound.
  - unfold reference_of in Href. unfold payment_by_ref in Hpay.
    unfold handleRefundWebhook, transaction_reference. unfold_store.
    unfold_flow. rewrite String.eqb_refl, E1, E2. cbn [negb].
    destruct (re_data event) as [[transaction customer]|]; [|discriminate].
    cbn [red_transaction] in *. subst transaction.
    now rewrite Hpay.
  - unfold reference_of in Href. unfold after, response_of.
    unfold handleRefundWebhook, transaction_reference. unfold_store.
    unfold_flow. rewrite String.eqb_refl, E1, E2. cbn [negb].
    destruct (re_data event) as [[transaction customer]|];
      cbn [red_transaction] in *; [subst transaction|];
      (split; [reflexivity | eexists; reflexivity]).
Qed.

Section Review.
Variables (d : Db) (paystack : GatewayAnswer) (adminId refundId : Id).
Variables (refund : Refund) (school : School).
Hypothesis refund_found : stored_refund refundId d = Some refund.
Hypothesis school_found :
  populate_school refund.(r_schoolId) d = (Next (Some school), d).

Lemma reviewRefund_found (status : string) :
  reviewRefund paystack adminId refundId status d
  = if negb (id_eqb school.(sc_id) adminId) then
      (Return (mkResponse 403
                 "Unauthorized: Refund does not belong to this school" None),
       d)
    else if negb (includes ["approved"; "rejected"] status) then
      (Return (mkResponse 400 "Invalid status. Must be approved or rejected"
                          None), d)
    else
      try_catch
        ((if String.eqb status "approved" then
            payment <- PaymentModel_findById refund.(r_paymentId) ;;
            match payment with
            | None => reply 404 "Associated payment not found"
            | Some payment =>
              if negb (String.eqb payment.(paymentProvider) "Paystack") then
                reply 400 ("Unsupported payment provider: "
                           ++ payment.(paymentProvider))
              else if negb (truthy payment.(paystackRef)) then
                reply 400 "Paystack reference not found in payment"
              else if negb (includes school.(paymentProviders) "Paystack")
              then reply 400 "Paystack not configured for this school"
              else
                match paystack with
                | Rejected e => throw e
                | Answered true _ =>
                  let approved :=
                    push_audit (mkAuditItem "refund_approved" (Some adminId)
                                            payment.(paystackRef))
                               (with_status "approved"
                                            (decided adminId status refund))
                  in
                  Refund_save approved ;;
                  TransactionLogModel_create
                    (mkLogEntry "refund_approved"
                                (Some approved.(r_paymentId))
                                (Some approved.(r_id))) ;;
                  logActionUtil
                    (mkLogEntry "refund_approved"
                                (Some approved.(r_paymentId))
                                (Some approved.(r_id))) ;;
                  Refund_save approved
                | Answered false msg =>
                  reply_error 400 "Paystack refund initiation failed" msg
                end
            end
          else ret tt) ;;
         reply 200 ("Refund " ++ status ++ " successfully"))
        (fun error => reply_error 500 "Server error" (error_message error))
        (decision_recorded adminId status refund d).
Proof.
  unfold stored_refund in refund_found.
  unfold reviewRefund.
  unfold RefundModel_findById at 1. unfold try_catch at 1.
  unfold bind at 1, get, ret at 1.
  unfold bind at 1. rewrite refund_found.
  unfold bind at 1. rewrite school_found.
  destruct (negb (id_eqb (sc_id school) adminId)); [reflexivity|].
  destruct (negb (includes ["approved"; "rejected"] status)); [reflexivity|].
  reflexivity.
Qed.
End Review.

Lemma find_saved (A : Type) (key : A -> Id) (doc : A) (i : Id)
  (coll : list A) :
  key doc = i ->
  find (fun x => id_eqb (key x) i) (save_by key doc coll) = Some doc.
Proof. intros <-. apply find_save_by. Qed.

(** X4.  [reviewRefund] refuses without writing anything: an unknown
    refund with 404, a refund of another school with 403, and for the owning
    school a decision other than the words approved and rejected with
    400. *)
Theorem reviewRefund_refusals
  (d : Db) (paystack : GatewayAnswer) (adminId refundId : Id)
  (status : string) :
  (stored_refund refundId d = None ->
   reviewRefund paystack adminId refundId status d
   = (Return (mkResponse 404 "Refund not found" None), d))
  /\ (forall refund school,
         stored_refund refundId d = Some refund ->
         populate_school refund.(r_schoolId) d = (Next (Some school), d) ->
         (school.(sc_id) <> adminId ->
          reviewRefund paystack adminId refundId status d
          = (Return (mkResponse 403
                       "Unauthorized: Refund does not belong to this school"
                       None), d))
         /\ (school.(sc_id) = adminId ->
             includes ["approved"; "rejected"] status = false ->
             reviewRefund paystack adminId refundId status d
             = (Return (mkResponse 400
                          "Invalid status. Must be approved or rejected"
                          None), d))).
Proof.
  split.
  - unfold stored_refund. intros F.
    unfold reviewRefund, RefundModel_findById. unfold_flow. now rewrite F.
  - intros refund school F S.
    rewrite (reviewRefund_found d paystack adminId refundId refund school F S).
    split.
    + intros Hne. apply id_eqb_neq in Hne. now rewrite Hne.
    + intros -> Hbad. now rewrite id_eqb_refl, Hbad.
Qed.

(** School 4 reviews the refund of school 3. *)
Lemma reviewRefund_refusals_witness :
  reviewRefund (Answered true "ok") 4 10 "approved" (dbWithRefund "requested")
  = (Return (mkResponse 403
               "Unauthorized: Refund does not belong to this school" None),
     dbWithRefund "requested").
Proof.
  apply (proj2 (reviewRefund_refusals (dbWithRefund "requested")
                  (Answered true "ok") 4 10 "approved")
           (refund10 "requested") school3).
  - reflexivity.
  - reflexivity.
  - discriminate.
Defined.

(** X5.  A rejection by the owning school never consults the gateway: for
    every gateway answer it is acknowledged with 200, stores the refund as
    rejected with one more audit entry, and writes one TransactionLog and
    one AuditLog entry. *)
Theorem reviewRefund_rejection
  (d : Db) (paystack : GatewayAnswer) (refundId : Id) (refund : Refund)
  (school : School) :
  stored_refund refundId d = Some refund ->
  populate_school refund.(r_schoolId) d = (Next (Some school), d) ->
  reviewRefund paystack school.(sc_id) refundId "rejected" d
  = (Return (mkResponse 200 "Refund rejected successfully" None),
     decision_recorded school.(sc_id) "rejected" refund d)
  /\ stored_refund refundId
       (decision_recorded school.(sc_id) "rejected" refund d)
     = Some (mkRefund refund.(r_id) refund.(r_paymentId)
               refund.(r_studentId) refund.(r_schoolId) refund.(r_amount)
               refund.(reason) "rejected" refund.(fraudScore)
               (refund.(auditTrail)
                ++ [mkAuditItem "refund_rejected" (Some school.(sc_id))
                                None])%list).
Proof.
  intros F S. split.
  - rewrite (reviewRefund_found d paystack school.(sc_id) refundId refund
               school F S).
    rewrite id_eqb_refl. reflexivity.
  - assert (Hid : refund.(r_id) = refundId).
    { unfold stored_refund in F. apply find_some in F. now apply id_eqb_eq. }
    subst refundId. unfold stored_refund, decision_recorded.
    cbn [refunds set_auditLog set_transactionLog set_refunds].
    exact (find_save_by Refund r_id
             (decided school.(sc_id) "rejected" refund) (refunds d)).
Qed.

Lemma reviewRefund_rejection_witness :
  reviewRefund (Rejected (Error "unreachable")) school3.(sc_id) 10
               "rejected" (dbWithRefund "requested")
  = (Return (mkResponse 200 "Refund rejected successfully" None),
     decision_recorded school3.(sc_id) "rejected" (refund10 "requested")
                       (dbWithRefund "requested"))
  /\ stored_refund 10
       (decision_recorded school3.(sc_id) "rejected" (refund10 "requested")
                          (dbWithRefund "requested"))
     = Some (mkRefund (refund10 "requested").(r_id)
               (refund10 "requested").(r_paymentId)
               (refund10 "requested").(r_studentId)
               (refund10 "requested").(r_schoolId)
               (refund10 "requested").(r_amount)
               (refund10 "requested").(reason) "rejected"
               (refund10 "requested").(fraudScore)
               ((refund10 "requested").(auditTrail)
                ++ [mkAuditItem "refund_rejected" (Some school3.(sc_id))
                                None])%list).
Proof.
  apply (reviewRefund_rejection (dbWithRefund "requested")
           (Rejected (Error "unreachable")) 10 (refund10 "requested")
           school3); reflexivity.
Defined.

(** X6.  An approval that the gateway accepts is acknowledged with 200 and
    leaves the refund approved with two new audit entries, the second one
    carrying the gateway reference of the payment; the TransactionLog gains
    two [refund_approved] entries. *)
Theorem reviewRefund_approval_accepted
  (d : Db) (refundId : Id) (refund : Refund) (school : School)
  (payment : Payment) (msg reference : string) :
  stored_refund refundId d = Some refund ->
  populate_school refund.(r_schoolId) d = (Next (Some school), d) ->
  stored_payment refund.(r_paymentId) d = Some payment ->
  payment.(paymentProvider) = "Paystack" ->
  payment.(paystackRef) = Some reference ->
  reference <> "" ->
  includes school.(paymentProviders) "Paystack" = true ->
  let run := reviewRefund (Answered true msg) school.(sc_id) refundId
                          "approved" in
  response_of run d
  = Return (mkResponse 200 "Refund approved successfully" None)
  /\ stored_refund refundId (after run d)
     = Some (mkRefund refund.(r_id) refund.(r_paymentId)
               refund.(r_studentId) refund.(r_schoolId) refund.(r_amount)
               refund.(reason) "approved" refund.(fraudScore)
               (refund.(auditTrail)
                ++ [mkAuditItem "refund_approved" (Some school.(sc_id)) None;
                    mkAuditItem "refund_approved" (Some school.(sc_id))
                                (Some reference)])%list)
  /\ (after run d).(transactionLog)
     = (d.(transactionLog)
        ++ [mkLogEntry "refund_approved" (Some refund.(r_paymentId))
                       (Some refund.(r_id));
            mkLogEntry "refund_approved" (Some refund.(r_paymentId))
                       (Some refund.(r_id))])%list.
Proof.
  intros F S P Hprov Href Hne Hconf run.
  assert (Hid : refund.(r_id) = refundId).
  { unfold stored_refund in F. apply find_some in F. now apply id_eqb_eq. }
  subst refundId.
  assert (E : run d
              = (Return (mkResponse 200 "Refund approved successfully" None),
                 set_refunds
                   (save_by r_id
                      (push_audit (mkAuditItem "refund_approved"
                                     (Some school.(sc_id)) (Some reference))
                         (with_status "approved"
                            (decided school.(sc_id) "approved" refund))))
                   (set_auditLog
                      (fun l => l ++ [mkLogEntry "refund_approved"
                                        (Some refund.(r_paymentId))
                                        (Some refund.(r_id))])%list
                      (set_transactionLog
                         (fun l => l ++ [mkLogEntry "refund_approved"
                                           (Some refund.(r_paymentId))
                                           (Some refund.(r_id))])%list
                         (set_refunds
                            (save_by r_id
                               (push_audit
                                  (mkAuditItem "refund_approved"
                                     (Some school.(sc_id)) (Some reference))
                                  (with_status "approved"
                                     (decided school.(sc_id) "approved"
                                              refund))))
                            (decision_recorded school.(sc_id) "approved"
                                               refund d)))))).
  { unfold run.
    rewrite (reviewRefund_found d (Answered true msg) school.(sc_id)
               refund.(r_id) refund school F S).
    rewrite id_eqb_refl. cbn [negb includes existsb String.eqb Ascii.eqb
                                Bool.eqb orb].
    unfold stored_payment in P.
    unfold PaymentModel_findById, Refund_save, TransactionLogModel_create,
      logActionUtil.
    unfold_flow. cbv beta iota.
    cbn [payments decision_recorded set_auditLog set_transactionLog
         set_refunds].
    rewrite P, Hprov, Href, Hconf.
    replace (truthy (Some reference)) with true.
    - reflexivity.
    - symmetry. unfold truthy. apply negb_true_iff.
      now apply String.eqb_neq. }
  unfold response_of, after. rewrite E. cbn [fst snd].
  split; [reflexivity|]. split.
  - unfold stored_refund. cbn [refunds set_refunds].
    rewrite find_saved by reflexivity.
    unfold decided, push_audit, with_status. cbn. now rewrite <- app_assoc.
  - cbn. now rewrite <- app_assoc.
Qed.

Lemma reviewRefund_approval_accepted_witness :
  let run := reviewRefund (Answered true "Refund queued") school3.(sc_id) 10
                          "approved" in
  response_of run (dbWithRefund "requested")
  = Return (mkResponse 200 "Refund approved successfully" None)
  /\ stored_refund 10 (after run (dbWithRefund "requested"))
     = Some (mkRefund (refund10 "requested").(r_id)
               (refund10 "requested").(r_paymentId)
               (refund10 "requested").(r_studentId)
               (refund10 "requested").(r_schoolId)
               (refund10 "requested").(r_amount)
               (refund10 "requested").(reason) "approved"
               (refund10 "requested").(fraudScore)
               ((refund10 "requested").(auditTrail)
                ++ [mkAuditItem "refund_approved" (Some school3.(sc_id)) None;
                    mkAuditItem "refund_approved" (Some school3.(sc_id))
                                (Some "PAY-1")])%list)
  /\ (after run (dbWithRefund "requested")).(transactionLog)
     = ((dbWithRefund "requested").(transactionLog)
        ++ [mkLogEntry "refund_approved"
                       (Some (refund10 "requested").(r_paymentId))
                       (Some (refund10 "requested").(r_id));
            mkLogEntry "refund_approved"
                       (Some (refund10 "requested").(r_paymentId))
                       (Some (refund10 "requested").(r_id))])%list.
Proof.
  apply (reviewRefund_approval_accepted (dbWithRefund "requested") 10
           (refund10 "requested") school3 (payment1 "confirmed")
           "Refund queued" "PAY-1"); try reflexivity.
  discriminate.
Defined.

(** X7.  An approval is stored before the payment behind the refund is
    looked at: when the payment is missing, was not paid through Paystack,
    has no gateway reference, or the school has no Paystack entry, the
    caller gets the 404 or 400 of that check, and the refund is approved in
    the store all the same. *)
Theorem reviewRefund_approval_stored_before_checks
  (d : Db) (paystack : GatewayAnswer) (refundId : Id) (refund : Refund)
  (school : School) :
  stored_refund refundId d = Some refund ->
  populate_school refund.(r_schoolId) d = (Next (Some school), d) ->
  match stored_payment refund.(r_paymentId) d with
  | None => True
  | Some payment =>
    payment.(paymentProvider) <> "Paystack"
    \/ truthy payment.(paystackRef) = false
    \/ includes school.(paymentProviders) "Paystack" = false
  end ->
  let run := reviewRefund paystack school.(sc_id) refundId "approved" in
  (exists r, response_of run d = Return r
             /\ (r.(code) = 404 \/ r.(code) = 400)%nat)
  /\ after run d = decision_recorded school.(sc_id) "approved" refund d
  /\ option_map r_status (stored_refund refundId (after run d))
     = Some "approved".
Proof.
  intros F S Hbad run.
  assert (Hid : refund.(r_id) = refundId).
  { unfold stored_refund in F. apply find_some in F. now apply id_eqb_eq. }
  assert (E : exists r,
             run d = (Return r,
                      decision_recorded school.(sc_id) "approved" refund d)
             /\ (r.(code) = 404 \/ r.(code) = 400)%nat).
  { unfold run.
    rewrite (reviewRefund_found d paystack school.(sc_id) refundId refund
               school F S).
    rewrite id_eqb_refl. cbn [negb includes existsb String.eqb Ascii.eqb
                                Bool.eqb orb].
    unfold stored_payment in Hbad.
    unfold PaymentModel_findById. unfold_flow. cbv beta iota.
    cbn [payments decision_recorded set_auditLog set_transactionLog
         set_refunds].
    destruct (find _ (payments d)) as [payment|].
    - destruct (String.eqb (paymentProvider payment) "Paystack") eqn:Ep;
        cbn [negb]; [|eexists; split; [reflexivity | now right]].
      destruct (truthy (paystackRef payment)) eqn:Et;
        cbn [negb]; [|eexists; split; [reflexivity | now right]].
      destruct (includes (paymentProviders school) "Paystack") eqn:Ei;
        cbn [negb]; [|eexists; split; [reflexivity | now right]].
      apply String.eqb_eq in Ep. destruct Hbad as [H|[H|H]];
        [contradiction | discriminate | discriminate].
    - eexists; split; [reflexivity | now left]. }
  destruct E as (r & E & Hcode).
  unfold response_of, after. rewrite E. cbn [fst snd].
  split; [exists r; auto|]. split; [reflexivity|].
  subst refundId. unfold stored_refund, decision_recorded.
  cbn [refunds set_auditLog set_transactionLog set_refunds].
  now rewrite find_saved by reflexivity.
Qed.

Lemma reviewRefund_approval_stored_before_checks_witness :
  let run := reviewRefund (Answered true "ok") school3.(sc_id) 10 "approved"
  in
  (exists r,
      response_of run (set_payments (fun _ => []) (dbWithRefund "requested"))
      = Return r
      /\ (r.(code) = 404 \/ r.(code) = 400)%nat)
  /\ after run (set_payments (fun _ => []) (dbWithRefund "requested"))
     = decision_recorded school3.(sc_id) "approved" (refund10 "requested")
         (set_payments (fun _ => []) (dbWithRefund "requested"))
  /\ option_map r_status
       (stored_refund 10
          (after run (set_payments (fun _ => []) (dbWithRefund "requested"))))
     = Some "approved".
Proof.
  apply (reviewRefund_approval_stored_before_checks
           (set_payments (fun _ => []) (dbWithRefund "requested"))
           (Answered true "ok") 10 (refund10 "requested") school3).
  - reflexivity.
  - reflexivity.
  - exact I.
Defined.

(** X8.  [requestRefund] refuses without writing anything when the payment
    does not exist (404) or belongs to another student (403). *)
Theorem requestRefund_refusals
  (toString : Number -> string) (d : Db) (_id studentId paymentId : Id)
  (amount : Number) (reason : string) :
  (stored_payment paymentId d = None ->
   requestRefund toString _id studentId paymentId amount reason d
   = (Return (mkResponse 404 "Payment not found" None), d))
  /\ (forall payment,
         stored_payment paymentId d = Some payment ->
         payment.(p_studentId) <> studentId ->
         requestRefund toString _id studentId paymentId amount reason d
         = (Return (mkResponse 403
                      "Unauthorized: Payment does not belong to this student"
                      None), d)).
Proof.
  unfold stored_payment. split.
  - intros F. unfold requestRefund. unfold_store. unfold_flow. now rewrite F.
  - intros payment F Hne. apply id_eqb_neq in Hne.
    unfold requestRefund. unfold_store. unfold_flow.
    rewrite F. cbv beta iota. now rewrite Hne.
Qed.

(** Student 8 asks for a refund of the payment of student 7. *)
Lemma requestRefund_refusals_witness :
  requestRefund sample_toString 10 8 1 (num 2000) "not mine"
                (dbWithPayment "confirmed")
  = (Return (mkResponse 403
               "Unauthorized: Payment does not belong to this student" None),
     dbWithPayment "confirmed").
Proof.
  apply (proj2 (requestRefund_refusals sample_toString
                  (dbWithPayment "confirmed") 10 8 1 (num 2000) "not mine")
               (payment1 "confirmed")).
  - reflexivity.
  - discriminate.
Defined.

(** X9.  An accepted request stores the refund with fraud score 0 and an
    audit trail of one [refund_requested] entry by the student, appends one
    TransactionLog entry, touches no payment, and leaves the refundable
    amount of the payment as it was: a refund that is only requested does
    not count against the cap. *)
Theorem requestRefund_accepted
  (toString : Number -> string) (d : Db) (_id studentId paymentId : Id)
  (amount : Number) (reason : string) (payment : Payment) :
  stored_payment paymentId d = Some payment ->
  payment.(p_studentId) = studentId ->
  js_lt (num 0) amount = true ->
  js_le amount (refundableAmount payment d) = true ->
  (forall r, In r d.(refunds) -> r.(r_id) <> _id) ->
  let d' :=
    after (requestRefund toString _id studentId paymentId amount reason) d in
  stored_refund _id d'
  = Some (mkRefund _id paymentId studentId
            (option_map sc_id
               (find (fun s => id_eqb s.(sc_id) payment.(p_schoolId))
                     d.(schools)))
            amount reason "requested" 0
            [mkAuditItem "refund_requested" (Some studentId) None])
  /\ d'.(transactionLog)
     = (d.(transactionLog)
        ++ [mkLogEntry "refund_requested" (Some paymentId) (Some _id)])%list
  /\ d'.(payments) = d.(payments)
  /\ refundableAmount payment d' = refundableAmount payment d.
Proof.
  intros Hfind Hown Hpos Hcap Hfresh d'.
  unfold d', after.
  rewrite (requestRefund_owned toString d _id studentId paymentId amount
             reason payment Hfind Hown).
  rewrite (js_lt_not_ge _ _ Hpos), (js_le_not_gt _ _ Hcap). cbn [orb].
  cbn [snd]. split; [|split; [reflexivity | split; [reflexivity|]]].
  - unfold stored_refund.
    cbn [refunds set_auditLog set_transactionLog set_refunds].
    now rewrite find_saved by reflexivity.
  - unfold refundableAmount.
    cbn [refunds set_auditLog set_transactionLog set_refunds].
    rewrite save_by_fresh by exact Hfresh.
    unfold refunds_of. rewrite filter_app. cbn [filter r_status includes
      existsb String.eqb Ascii.eqb Bool.eqb orb andb].
    rewrite andb_false_r. now rewrite app_nil_r.
Qed.

Lemma requestRefund_accepted_witness :
  let d' := after (requestRefund sample_toString 10 7 1 (num 5000) "first")
                  (dbWithPayment "confirmed") in
  stored_refund 10 d'
  = Some (mkRefund 10 1 7
            (option_map sc_id
               (find (fun s => id_eqb s.(sc_id)
                                      (payment1 "confirmed").(p_schoolId))
                     (dbWithPayment "confirmed").(schools)))
            (num 5000) "first" "requested" 0
            [mkAuditItem "refund_requested" (Some 7) None])
  /\ d'.(transactionLog)
     = ((dbWithPayment "confirmed").(transactionLog)
        ++ [mkLogEntry "refund_requested" (Some 1) (Some 10)])%list
  /\ d'.(payments) = (dbWithPayment "confirmed").(payments)
  /\ refundableAmount (payment1 "confirmed") d'
     = refundableAmount (payment1 "confirmed") (dbWithPayment "confirmed").
Proof.
  apply (requestRefund_accepted sample_toString (dbWithPayment "confirmed")
           10 7 1 (num 5000) "first" (payment1 "confirmed")).
  - reflexivity.
  - reflexivity.
  - reflexivity.
  - reflexivity.
  - simpl. intros r [].
Defined.

(* ------------------------------------------------------------------ *)
(** ** Further properties of the payment handlers *)

(** The first [charge.success] for a payment that is not yet confirmed. *)
Lemma handleWebhook_confirms (d : Db) (event : ChargeEvent)
  (payment : Payment) :
  event.(ce_event) = "charge.success" ->
  payment_by_ref event.(ce_data).(cd_reference) d = Some payment ->
  payment.(p_status) <> "confirmed" ->
  exists d',
    handleWebhook event d
    = (Return (mkResponse 200 "Webhook processed successfully" None), d')
    /\ d'.(payments)
       = save_by p_id (set_paystackData event.(ce_data)
                         (set_p_status "confirmed" payment))
                 d.(payments).
Proof.
  intros He F Hs. unfold payment_by_ref in F. apply String.eqb_neq in Hs.
  unfold handleWebhook, PaymentModel_findByRef, try_catch, get.
  rewrite He. cbn [String.eqb Ascii.eqb Bool.eqb].
  unfold bind at 1. unfold bind at 1. unfold ret at 1. cbv beta iota.
  rewrite F. cbv beta iota. rewrite Hs. cbn [negb].
  unfold Payment_save, TransactionLogModel_create, logActionUtil,
    createInvoice.
  unfold_flow. cbv beta iota.
  match goal with
  | |- context [updateFeeAssignmentStatus ?i ?s] =>
      destruct (updateFeeAssignmentStatus_next i s) as (d' & -> & Hp)
  end.
  exists d'. split; [reflexivity | exact Hp].
Qed.

(** X10.  Delivering the same [charge.success] event a second time changes
    nothing: the store after two deliveries is the store after one. *)
Theorem handleWebhook_success_idempotent (d : Db) (event : ChargeEvent) :
  NoDup (map p_id d.(payments)) ->
  event.(ce_event) = "charge.success" ->
  after (handleWebhook event) (after (handleWebhook event) d)
  = after (handleWebhook event) d.
Proof.
  intros Hnd He. unfold after.
  destruct (payment_by_ref event.(ce_data).(cd_reference) d)
    as [payment|] eqn:F.
  - destruct (String.eqb payment.(p_status) "confirmed") eqn:Es.
    + apply String.eqb_eq in Es.
      rewrite (handleWebhook_confirmed_unchanged d event payment He F Es).
      cbn [snd].
      now rewrite (handleWebhook_confirmed_unchanged d event payment He F Es).
    + apply String.eqb_neq in Es.
      destruct (handleWebhook_confirms d event payment He F Es)
        as (d' & E & Hp).
      rewrite E. cbn [snd].
      rewrite (handleWebhook_confirmed_unchanged d' event
                 (set_paystackData event.(ce_data)
                    (set_p_status "confirmed" payment)) He);
        [reflexivity | | reflexivity].
      unfold payment_by_ref in *. rewrite Hp.
      apply (find_save_by_pred Payment p_id _ payment); auto.
      apply find_some in F. cbn. tauto.
  - assert (E : handleWebhook event d
                = (Return (mkResponse 404 "Payment not found" None), d)).
    { unfold payment_by_ref in F.
      unfold handleWebhook, PaymentModel_findByRef. unfold_flow.
      rewrite He. cbn [String.eqb Ascii.eqb Bool.eqb]. cbv beta iota.
      now rewrite F. }
    rewrite E. cbn [snd]. now rewrite E.
Qed.

Lemma handleWebhook_success_idempotent_witness :
  after (handleWebhook chargeSuccess)
        (after (handleWebhook chargeSuccess) (dbWithPayment "initiated"))
  = after (handleWebhook chargeSuccess) (dbWithPayment "initiated").
Proof.
  apply (handleWebhook_success_idempotent (dbWithPayment "initiated")
           chargeSuccess).
  - simpl. constructor; [intros [] | constructor].
  - reflexivity.
Defined.

(** X11.  A gateway reference that no payment carries: [verifyPayment]
    answers 404 whatever the gateway would say, both charge events are
    answered 404, and nothing is written. *)
Theorem unknown_reference_not_found (d : Db) (reference : string) :
  payment_by_ref reference d = None ->
  (forall paystack,
      verifyPayment paystack reference d
      = (Return (mkResponse 404 "Payment not found" None), d))
  /\ (forall status,
         handleWebhook (mkChargeEvent "charge.success"
                                      (mkChargeData status reference)) d
         = (Return (mkResponse 404 "Payment not found" None), d))
  /\ (forall status,
         handleWebhook (mkChargeEvent "charge.failed"
                                      (mkChargeData status reference)) d
         = (Return (mkResponse 404 "Payment not found" None), d)).
Proof.
  unfold payment_by_ref. intros F. repeat split.
  - intros paystack. unfold verifyPayment, PaymentModel_findByRef.
    unfold_flow. now rewrite F.
  - intros status. unfold handleWebhook, PaymentModel_findByRef.
    unfold_flow. cbn [ce_event ce_data cd_reference String.eqb Ascii.eqb
                      Bool.eqb]. cbv beta iota. now rewrite F.
  - intros status. unfold handleWebhook, PaymentModel_findByRef.
    unfold_flow. cbn [ce_event ce_data cd_reference String.eqb Ascii.eqb
                      Bool.eqb]. cbv beta iota. now rewrite F.
Qed.

Lemma unknown_reference_not_found_witness :
  (forall paystack,
      verifyPayment paystack "PAY-404" (dbWithPayment "initiated")
      = (Return (mkResponse 404 "Payment not found" None),
         dbWithPayment "initiated"))
  /\ (forall status,
         handleWebhook (mkChargeEvent "charge.success"
                                      (mkChargeData status "PAY-404"))
                       (dbWithPayment "initiated")
         = (Return (mkResponse 404 "Payment not found" None),
            dbWithPayment "initiated"))
  /\ (forall status,
         handleWebhook (mkChargeEvent "charge.failed"
                                      (mkChargeData status "PAY-404"))
                       (dbWithPayment "initiated")
         = (Return (mkResponse 404 "Payment not found" None),
            dbWithPayment "initiated")).
Proof.
  apply (unknown_reference_not_found (dbWithPayment "initiated") "PAY-404").
  reflexivity.
Defined.

(** Every run of [initializePayment], by the place where it ends. *)
Lemma initializePayment_outcomes
  (d : Db) (paystack : InitAnswer) (upload : UploadResult)
  (_id studentId feeId : Id) (amount : Number) :
  exists (r : Response) (d' : Db),
    initializePayment paystack upload _id studentId feeId amount d
    = (Return r, d')
    /\ d'.(payments) = d.(payments)
    /\ d'.(receipts) = d.(receipts)
    /\ ((r.(code) = 400 /\ d' = d)
        \/ (r.(code) = 404 /\ r.(message) <> "Student not found" /\ d' = d)
        \/ (r.(code) = 404 /\ r.(message) = "Student not found")
        \/ (r.(code) = 500 /\ r.(message) = "Paystack initialization failed"
            /\ d' = d)
        \/ (r.(code) = 500 /\ r.(message) = "Server error"))%nat.
Proof.
  unfold_tx. unfold_store. unfold_flow. cbn [db].
  destruct (find _ (fees d)) as [fee|].
  2:{ do 2 eexists. split; [reflexivity|]. repeat split.
      right; left. repeat split. discriminate. }
  destruct (js_lt amount (f_amount fee) && negb (allowPartialPayment fee)).
  { do 2 eexists. split; [reflexivity|]. repeat split. now left. }
  destruct (js_le amount (num 0)).
  { do 2 eexists. split; [reflexivity|]. repeat split. now left. }
  cbn [db pendingPayments pendingReceipts schools].
  destruct (find _ (schools d)) as [school|].
  2:{ do 2 eexists. split; [reflexivity|]. repeat split.
      right; left. repeat split. discriminate. }
  destruct (negb (includes (paymentProviders school) "Paystack")).
  { do 2 eexists. split; [reflexivity|]. repeat split. now left. }
  destruct paystack as [e|[|] msg reference url].
  - do 2 eexists. split; [reflexivity|]. repeat split.
    do 4 right. now split.
  - cbn [db pendingPayments pendingReceipts p_feeId p_studentId
         set_paystackRef].
    destruct (find _ (assignments d)) as [assignment|].
    2:{ do 2 eexists. split; [reflexivity|]. repeat split.
        right; left. repeat split. discriminate. }
    cbn [db pendingPayments pendingReceipts set_assignments students].
    destruct (find _ (students d)) as [student|].
    2:{ do 2 eexists. split; [reflexivity|]. repeat split.
        right; right; left. now split. }
    destruct upload as [e|url'].
    + do 2 eexists. split; [reflexivity|]. repeat split.
      do 4 right. now split.
    + do 2 eexists. split; [reflexivity|]. repeat split.
      do 4 right. now split.
  - do 2 eexists. split; [reflexivity|]. repeat split.
    do 3 right; left. now repeat split.
Qed.

(** X12.  No run of [initializePayment] adds or changes a Payment or a
    Receipt, and none is answered with a 2xx: the reply is always a 400, a
    404 or a 500.  (The commit comes after the call of
    [sendFeeAssignmentEmail], which the module never imports.) *)
Theorem initializePayment_never_commits
  (d : Db) (paystack : InitAnswer) (upload : UploadResult)
  (_id studentId feeId : Id) (amount : Number) :
  let run := initializePayment paystack upload _id studentId feeId amount in
  (after run d).(payments) = d.(payments)
  /\ (after run d).(receipts) = d.(receipts)
  /\ exists r, response_of run d = Return r
               /\ (r.(code) = 400 \/ r.(code) = 404 \/ r.(code) = 500)%nat.
Proof.
  intros run. unfold run, response_of, after.
  destruct (initializePayment_outcomes d paystack upload _id studentId feeId
              amount) as (r & d' & -> & Hp & Hr & Hcases).
  cbn [fst snd]. split; [exact Hp|]. split; [exact Hr|].
  exists r. split; [reflexivity|].
  destruct Hcases as [[H _]|[[H _]|[[H _]|[[H _]|[H _]]]]]; auto.
Qed.

(** X13.  Apart from "Student not found", a reply of [initializePayment]
    that is not a "Server error" comes with an untouched store: validation
    failures and a declined gateway initialization write nothing, not even
    a log entry. *)
Theorem initializePayment_refusals_write_nothing
  (d : Db) (paystack : InitAnswer) (upload : UploadResult)
  (_id studentId feeId : Id) (amount : Number) (r : Response) :
  response_of (initializePayment paystack upload _id studentId feeId amount)
              d = Return r ->
  r.(message) <> "Server error" ->
  r.(message) <> "Student not found" ->
  after (initializePayment paystack upload _id studentId feeId amount) d = d.
Proof.
  unfold response_of, after.
  destruct (initializePayment_outcomes d paystack upload _id studentId feeId
              amount) as (r' & d' & -> & _ & _ & Hcases).
  cbn [fst snd]. intros E Hs Hn. injection E as <-.
  destruct Hcases as [[_ H]|[[_ [_ H]]|[[_ H]|[[_ [_ H]]|[_ H]]]]];
    auto; contradiction.
Qed.

(** The amount is not positive, for a fee that allows partial payment. *)
Lemma initializePayment_refusals_write_nothing_witness :
  after (initializePayment initializedOk (Uploaded "https://files.example/r")
                           1 7 5 (num 0))
        (mkDb [mkFee 5 3 (num 5000) true] [school3] [student7] []
              [assignment9] [] [] [] [] [])
  = mkDb [mkFee 5 3 (num 5000) true] [school3] [student7] [] [assignment9] []
         [] [] [] [].
Proof.
  apply (initializePayment_refusals_write_nothing
           (mkDb [mkFee 5 3 (num 5000) true] [school3] [student7] []
                 [assignment9] [] [] [] [] [])
           initializedOk (Uploaded "https://files.example/r") 1 7 5 (num 0)
           (mkResponse 400 "Amount must be greater than 0" None)).
  - reflexivity.
  - discriminate.
  - discriminate.
Defined.

(** X14.  Once the gateway has accepted the initialization and the fee
    assignment is found, the amount is added to [amountPaid] of the stored
    assignment, whatever happens to the receipt afterwards, although no
    payment is stored: [assignment.save()] does not go through the
    session. *)
Theorem initializePayment_settles_without_payment
  (d : Db) (upload : UploadResult) (_id studentId feeId : Id)
  (amount : Number) (msg reference url : string) (fee : Fee) (school : School)
  (assignment : FeeAssignment) :
  NoDup (map fa_id d.(assignments)) ->
  find (fun f => id_eqb f.(f_id) feeId) d.(fees) = Some fee ->
  js_lt amount fee.(f_amount) && negb fee.(allowPartialPayment) = false ->
  js_lt (num 0) amount = true ->
  find (fun s => id_eqb s.(sc_id) fee.(f_schoolId)) d.(schools)
  = Some school ->
  includes school.(paymentProviders) "Paystack" = true ->
  find (fun a => id_eqb a.(fa_feeId) feeId
                 && id_eqb a.(fa_studentId) studentId) d.(assignments)
  = Some assignment ->
  let run := initializePayment (InitAnswered true msg reference url) upload
                               _id studentId feeId amount in
  find (fun a => id_eqb a.(fa_feeId) feeId
                 && id_eqb a.(fa_studentId) studentId)
       (after run d).(assignments)
  = Some (mkFeeAssignment assignment.(fa_id) assignment.(fa_feeId)
            assignment.(fa_studentId) assignment.(amountDue)
            (js_add assignment.(amountPaid) amount)
            (if js_ge (js_add assignment.(amountPaid) amount)
                      assignment.(amountDue)
             then "fully_paid" else "partially_paid"))
  /\ (after run d).(payments) = d.(payments).
Proof.
  intros Hnd Hfee Hpart Hpos Hschool Hconf Hassign run.
  set (saved := mkFeeAssignment assignment.(fa_id) assignment.(fa_feeId)
                  assignment.(fa_studentId) assignment.(amountDue)
                  (js_add assignment.(amountPaid) amount)
                  (if js_ge (js_add assignment.(amountPaid) amount)
                            assignment.(amountDue)
                   then "fully_paid" else "partially_paid")).
  assert (E : (after run d).(assignments)
              = save_by fa_id saved d.(assignments)
              /\ (after run d).(payments) = d.(payments)).
  { unfold run, after. unfold_tx. unfold_store. unfold_flow.
    cbn [db]. rewrite Hfee, Hpart.
    rewrite (js_lt_not_ge _ _ Hpos).
    cbn [db pendingPayments pendingReceipts schools].
    rewrite Hschool, Hconf.
    cbn [negb db pendingPayments pendingReceipts p_feeId p_studentId
         p_amount set_paystackRef].
    rewrite Hassign.
    cbn [db pendingPayments pendingReceipts set_assignments students].
    destruct (find _ (students d)) as [student|]; [|split; reflexivity].
    destruct upload as [e|url']; split; reflexivity. }
  destruct E as [Ea Ep]. split; [|exact Ep].
  rewrite Ea.
  apply (find_save_by_pred FeeAssignment fa_id _ assignment); auto.
  apply find_some in Hassign. cbn. tauto.
Qed.

Lemma initializePayment_settles_without_payment_witness :
  let run := initializePayment initializedOk
                               (Uploaded "https://files.example/r.pdf")
                               1 7 5 (num 5000) in
  find (fun a => id_eqb a.(fa_feeId) 5 && id_eqb a.(fa_studentId) 7)
       (after run emptyDb).(assignments)
  = Some (mkFeeAssignment assignment9.(fa_id) assignment9.(fa_feeId)
            assignment9.(fa_studentId) assignment9.(amountDue)
            (js_add assignment9.(amountPaid) (num 5000))
            (if js_ge (js_add assignment9.(amountPaid) (num 5000))
                      assignment9.(amountDue)
             then "fully_paid" else "partially_paid"))
  /\ (after run emptyDb).(payments) = emptyDb.(payments).
Proof.
  apply (initializePayment_settles_without_payment emptyDb
           (Uploaded "https://files.example/r.pdf") 1 7 5 (num 5000)
           "Authorization URL created" "PAY-1"
           "https://checkout.paystack.example/PAY-1" fee5 school3
           assignment9).
  - simpl. constructor; [intros [] | constructor].
  - reflexivity.
  - reflexivity.
  - reflexivity.
  - reflexivity.
  - reflexivity.
  - reflexivity.
Defined.

(* ------------------------------------------------------------------ *)
(** ** Further properties of the fraud score *)

(** X15.  Whatever the oracle answers, the derived score is never above
    100: it is NaN, minus infinity, or a finite number that is at most
    100. *)
Theorem fraudScoreOf_at_most_100 (reconstruction_error threshold : Number) :
  match FraudDetection.fraudScoreOf reconstruction_error threshold with
  | S754_nan => True
  | S754_infinity negative => negative = true
  | score => js_le score (num 100) = true
  end.
Proof.
  unfold FraudDetection.fraudScoreOf.
  generalize (js_mul (js_div reconstruction_error
                             (js_mul threshold two_and_a_half)) (num 100)).
  intros x.
  assert (Hh : num 100 = S754_finite false 7036874417766400 (-46))
    by (vm_compute; reflexivity).
  rewrite Hh. clear Hh.
  destruct x as [s|s| |s m e]; try reflexivity.
  - destruct s; reflexivity.
  - unfold Math_min. unfold js_lt at 1.
    destruct (SFltb (S754_finite s m e) _) eqn:E1.
    + unfold js_le, SFleb. unfold SFltb in E1.
      destruct (SFcompare _ _) as [[| |]|]; try discriminate. reflexivity.
    + destruct (js_lt _ (S754_finite s m e)); reflexivity.
Qed.

(** X16.  A threshold of zero does not raise an exception: the division
    gives an infinity or NaN.  With a threshold of [+0] the score is 100 for
    a positive reconstruction error and minus infinity for a negative one,
    with a threshold of [-0] it is the other way round, and an error that
    is zero or NaN gives NaN. *)
Theorem fraudScoreOf_zero_threshold
  (reconstruction_error : Number) (negative_zero : bool) :
  FraudDetection.fraudScoreOf reconstruction_error (S754_zero negative_zero)
  = match reconstruction_error with
    | S754_nan | S754_zero _ => S754_nan
    | S754_infinity negative | S754_finite negative _ _ =>
      if xorb negative negative_zero then S754_infinity true else num 100
    end.
Proof.
  destruct reconstruction_error as [s|s| |s m e], negative_zero;
    try destruct s; reflexivity.
Qed.

(** X18.  [checkFraud] never writes to FraudLog.  It appends
    [fraud_check_error] to the TransactionLog on every call, preceded by
    [fraud_check] when the student and the fee assignment were found and the
    oracle answered. *)
Theorem checkFraud_log_entries
  (w : FraudDetection.World) (payment : Payment) (userAgent : string)
  (s : FraudDetection.Store) :
  let s' := snd (FraudDetection.checkFraud w payment userAgent s) in
  s'.(FraudDetection.fraudLog) = s.(FraudDetection.fraudLog)
  /\ s'.(FraudDetection.transactionLog)
     = (s.(FraudDetection.transactionLog)
        ++ match w.(FraudDetection.w_student),
                 w.(FraudDetection.w_feeAssignment),
                 w.(FraudDetection.w_oracle) with
           | Some _, Some _, FraudDetection.OracleAnswered _ _ _ =>
             ["fraud_check"; "fraud_check_error"]
           | _, _, _ => ["fraud_check_error"]
           end)%list.
Proof.
  destruct w as [student feeAssignment lastTransaction lastPayment oracle].
  unfold FraudDetection.checkFraud.
  cbn [FraudDetection.w_student FraudDetection.w_feeAssignment
       FraudDetection.w_oracle FraudDetection.w_lastTransaction
       FraudDetection.w_lastPayment].
  destruct student as [student|];
    [destruct feeAssignment as [feeAssignment|];
     [destruct oracle as [e|re th scale]|]|];
    (split; [reflexivity|]); cbn; try reflexivity.
  now rewrite <- app_assoc.
Qed.

(* ------------------------------------------------------------------ *)
(** ** Reading refunds back *)

Lemma listed_populate (withStudent : bool) (d : Db) (l : list Refund) :
  map v_refund (map (populate_refund withStudent d) l) = l.
Proof.
  induction l as [|r l IH]; simpl; [reflexivity | now rewrite IH].
Qed.

(** X19.  A refund that [requestRefund] accepted can be read back:
    [getRefundById] returns it under its id, in status requested, and
    [getStudentRefunds] lists it last for the requesting student, while the
    list of every other student is what it was. *)
Theorem requested_refund_is_listed
  (toString : Number -> string) (d : Db) (_id studentId paymentId : Id)
  (amount : Number) (reason : string) (payment : Payment) :
  stored_payment paymentId d = Some payment ->
  payment.(p_studentId) = studentId ->
  js_lt (num 0) amount = true ->
  js_le amount (refundableAmount payment d) = true ->
  (forall r, In r d.(refunds) -> r.(r_id) <> _id) ->
  let d' :=
    after (requestRefund toString _id studentId paymentId amount reason) d in
  exists refund,
    refund.(r_id) = _id /\ refund.(r_status) = "requested"
    /\ refund.(r_amount) = amount
    /\ getRefundById _id d'
       = (Return (mkRefundsReply 200 true
                    (OneRefund (populate_refund true d' refund))), d')
    /\ listed (fst (getStudentRefunds studentId d'))
       = (listed (fst (getStudentRefunds studentId d)) ++ [refund])%list
    /\ (forall other, other <> studentId ->
          listed (fst (getStudentRefunds other d'))
          = listed (fst (getStudentRefunds other d))).
Proof.
  intros Hfind Hown Hpos Hcap Hfresh d'.
  set (refund := mkRefund _id paymentId studentId
                   (option_map sc_id
                      (find (fun s => id_eqb s.(sc_id) payment.(p_schoolId))
                            d.(schools)))
                   amount reason "requested" 0
                   [mkAuditItem "refund_requested" (Some studentId) None]).
  assert (Hrefunds : d'.(refunds) = (d.(refunds) ++ [refund])%list).
  { unfold d', after.
    rewrite (requestRefund_owned toString d _id studentId paymentId amount
               reason payment Hfind Hown).
    rewrite (js_lt_not_ge _ _ Hpos), (js_le_not_gt _ _ Hcap). cbn [orb].
    cbn [snd refunds set_auditLog set_transactionLog set_refunds].
    now apply save_by_fresh. }
  exists refund. repeat split.
  - unfold getRefundById. unfold_flow. rewrite Hrefunds.
    replace (find (fun r => id_eqb (r_id r) _id) (refunds d ++ [refund]))
      with (Some refund); [reflexivity|].
    symmetry. rewrite <- (save_by_fresh Refund r_id refund (refunds d))
      by exact Hfresh.
    now apply find_saved.
  - unfold getStudentRefunds. unfold_flow. cbn [fst listed].
    rewrite !listed_populate, Hrefunds, filter_app.
    cbn [filter r_studentId refund]. now rewrite id_eqb_refl.
  - intros other Hne. unfold getStudentRefunds. unfold_flow.
    cbn [fst listed].
    rewrite !listed_populate, Hrefunds, filter_app.
    cbn [filter r_studentId refund].
    replace (id_eqb studentId other) with false
      by (symmetry; apply id_eqb_neq; congruence).
    now rewrite app_nil_r.
Qed.

Lemma requested_refund_is_listed_witness :
  let d' := after (requestRefund sample_toString 10 7 1 (num 2000)
                                 "duplicate charge")
                  (dbWithPayment "confirmed") in
  exists refund,
    refund.(r_id) = 10 /\ refund.(r_status) = "requested"
    /\ refund.(r_amount) = num 2000
    /\ getRefundById 10 d'
       = (Return (mkRefundsReply 200 true
                    (OneRefund (populate_refund true d' refund))), d')
    /\ listed (fst (getStudentRefunds 7 d'))
       = (listed (fst (getStudentRefunds 7 (dbWithPayment "confirmed")))
          ++ [refund])%list
    /\ (forall other, other <> 7 ->
          listed (fst (getStudentRefunds other d'))
          = listed (fst (getStudentRefunds other
                                            (dbWithPayment "confirmed")))).
Proof.
  apply (requested_refund_is_listed sample_toString
           (dbWithPayment "confirmed") 10 7 1 (num 2000) "duplicate charge"
           (payment1 "confirmed")).
  - reflexivity.
  - reflexivity.
  - reflexivity.
  - reflexivity.
  - simpl. intros r [].
Defined.

(* ------------------------------------------------------------------ *)
(** ** Authentication middleware *)

Lemma starts_with_Bearer_has_space (s : string) :
  Auth.starts_with "Bearer " s = true -> Auth.has_space s = true.
Proof.
  intros H.
  do 7 (destruct s as [|? s];
        [cbn in H; repeat rewrite andb_false_r in H; discriminate|]).
  cbn [Auth.starts_with] in H.
  repeat (apply andb_true_iff in H; destruct H as [? H]).
  cbn [Auth.has_space].
  apply Ascii.eqb_eq in H6. subst a5.
  change (Ascii.eqb Ascii.Space Ascii.Space) with true.
  now rewrite !orb_true_r.
Qed.

Lemma append_assoc (a b c : string) : ((a ++ b) ++ c = a ++ (b ++ c))%string.
Proof. induction a as [|x a IH]; simpl; [reflexivity | now rewrite IH]. Qed.

Lemma append_nil_r (a : string) : (a ++ "")%string = a.
Proof. induction a as [|x a IH]; simpl; [reflexivity | now rewrite IH]. Qed.

Lemma split_from_no_space (s piece : string) :
  Auth.has_space s = false ->
  Auth.split_from "Bearer " s piece 0 = [(piece ++ s)%string].
Proof.
  revert piece. induction s as [|c rest IH]; intros piece Hs.
  - cbn [Auth.split_from]. now rewrite append_nil_r.
  - cbn [Auth.split_from].
    destruct (Auth.starts_with "Bearer " (String c rest)) eqn:E.
    + apply starts_with_Bearer_has_space in E. congruence.
    + cbn [Auth.has_space] in Hs. apply orb_false_iff in Hs.
      rewrite IH by tauto. now rewrite append_assoc.
Qed.

(** X20.  The token of an [Authorization] header: for a token without a
    space, the header [Bearer <token>] yields the token back, and the bare
    token without the prefix yields none. *)
Theorem bearer_token_round_trip (token : string) :
  Auth.has_space token = false ->
  Auth.bearer_token (Some ("Bearer " ++ token)) = Some token
  /\ Auth.bearer_token (Some token) = None.
Proof.
  intros Hs. unfold Auth.bearer_token, Auth.split. split.
  - cbn [append Auth.split_from Auth.starts_with Ascii.eqb Bool.eqb andb
         String.length Nat.sub].
    now rewrite (split_from_no_space token "" Hs).
  - now rewrite (split_from_no_space token "" Hs).
Qed.

Lemma bearer_token_round_trip_witness :
  Auth.bearer_token (Some ("Bearer " ++ "eyJhbGciOi.eyJpZCI6Mw.c2ln"))
  = Some "eyJhbGciOi.eyJpZCI6Mw.c2ln"
  /\ Auth.bearer_token (Some "eyJhbGciOi.eyJpZCI6Mw.c2ln") = None.
Proof.
  apply (bearer_token_round_trip "eyJhbGciOi.eyJpZCI6Mw.c2ln"). reflexivity.
Defined.

Ltac unfold_auth :=
  unfold Auth.authenticateSchool, Auth.authenticateStudent,
    Auth.verifySchoolToken, Auth.jwt_verify in *.

(** X21.  [authenticateSchool] calls [next()] exactly when the header
    carries a non-empty bearer token that verifies, the school of the token
    exists, and the token is temporary or the school is verified; [req.user]
    then holds the id and email of the stored school. *)
Theorem authenticateSchool_grants_iff
  (verify : Auth.Verify) (secret : string) (authorization : option string)
  (a : Auth.Accounts) (user : Auth.User) :
  fst (Auth.authenticateSchool verify secret authorization a) = Next user
  <-> exists token decoded school,
        Auth.bearer_token authorization = Some token
        /\ token <> ""
        /\ verify token secret = inr decoded
        /\ find (fun s => id_eqb s.(Auth.school_id) decoded.(Auth.decoded_id))
                a.(Auth.schools) = Some school
        /\ (decoded.(Auth.isTemp) = true \/ school.(Auth.isVerified) = true)
        /\ user = Auth.mkUser school.(Auth.school_id)
                              school.(Auth.school_email) None None.
Proof.
  unfold_auth. unfold_flow. unfold truthy.
  destruct (Auth.bearer_token authorization) as [token|].
  2:{ cbn. split; [discriminate | intros (? & ? & ? & ? & _); discriminate]. }
  destruct (String.eqb token "") eqn:Et; cbn [negb].
  { apply String.eqb_eq in Et. cbn.
    split; [discriminate|].
    intros (t & ? & ? & E & Hne & _). injection E as <-. contradiction. }
  apply String.eqb_neq in Et.
  destruct (verify token secret) as [e|decoded] eqn:Ev.
  { cbn. split; [discriminate|].
    intros (t & ? & ? & E & _ & Ev' & _). injection E as <-. congruence. }
  cbv beta iota.
  destruct (find _ (Auth.schools a)) as [school|] eqn:Ef.
  2:{ cbn. split; [discriminate|].
      intros (t & dec & ? & E & _ & Ev' & Ef' & _). injection E as <-.
      rewrite Ev in Ev'. injection Ev' as <-. congruence. }
  destruct (negb (Auth.isTemp decoded) && negb (Auth.isVerified school))
    eqn:Em.
  - cbn. split; [discriminate|].
    intros (t & dec & sch & E & _ & Ev' & Ef' & Hm & _). injection E as <-.
    rewrite Ev in Ev'. injection Ev' as <-.
    rewrite Ef in Ef'. injection Ef' as <-.
    apply andb_true_iff in Em. destruct Em as [E1 E2].
    apply negb_true_iff in E1, E2. destruct Hm; congruence.
  - cbn. split.
    + intros E. injection E as <-.
      exists token, decoded, school. repeat split; auto.
      apply andb_false_iff in Em.
      destruct Em as [E|E]; apply negb_false_iff in E; auto.
    + intros (t & dec & sch & E & _ & Ev' & Ef' & _ & ->). injection E as <-.
      rewrite Ev in Ev'. injection Ev' as <-.
      rewrite Ef in Ef'. now injection Ef' as <-.
Qed.

(** X22.  The MFA gate is in [authenticateSchool] only: a full (not
    temporary) token of a school that is not verified is turned away by
    [authenticateSchool] with 401 "MFA verification required", and let
    through by [verifySchoolToken]. *)
Theorem unverified_school_passes_verifySchoolToken
  (verify : Auth.Verify) (secret : string) (authorization : option string)
  (a : Auth.Accounts) (token : string) (decoded : Auth.Decoded)
  (school : Auth.SchoolDoc) :
  Auth.bearer_token authorization = Some token ->
  token <> "" ->
  verify token secret = inr decoded ->
  find (fun s => id_eqb s.(Auth.school_id) decoded.(Auth.decoded_id))
       a.(Auth.schools) = Some school ->
  decoded.(Auth.isTemp) = false ->
  school.(Auth.isVerified) = false ->
  Auth.authenticateSchool verify secret authorization a
  = (Return (Auth.mkDenial 401 "MFA verification required"), a)
  /\ Auth.verifySchoolToken verify secret authorization a
     = (Next (Auth.mkUser school.(Auth.school_id) school.(Auth.school_email)
                          None None), a).
Proof.
  intros Hb Hne Hv Hf Ht Hs. apply String.eqb_neq in Hne.
  unfold_auth. unfold_flow. unfold truthy.
  rewrite Hb, Hne. cbn [negb]. rewrite Hv. cbv beta iota.
  rewrite Hf, Ht, Hs. split; reflexivity.
Qed.

Lemma unverified_school_passes_verifySchoolToken_witness :
  Auth.authenticateSchool Auth.sampleVerify "school-secret"
                          (Some "Bearer tok-3") Auth.sampleAccounts
  = (Return (Auth.mkDenial 401 "MFA verification required"),
     Auth.sampleAccounts)
  /\ Auth.verifySchoolToken Auth.sampleVerify "school-secret"
                            (Some "Bearer tok-3") Auth.sampleAccounts
     = (Next (Auth.mkUser
                (Auth.mkSchoolDoc 3 "bursar@hilltop.example" false)
                  .(Auth.school_id)
                (Auth.mkSchoolDoc 3 "bursar@hilltop.example" false)
                  .(Auth.school_email)
                None None), Auth.sampleAccounts).
Proof.
  apply (unverified_school_passes_verifySchoolToken Auth.sampleVerify
           "school-secret" (Some "Bearer tok-3") Auth.sampleAccounts "tok-3"
           (Auth.mkDecoded 3 false)
           (Auth.mkSchoolDoc 3 "bursar@hilltop.example" false));
    try reflexivity.
  discriminate.
Defined.

(** X23.  [authenticateStudent] reads the accounts and never writes them;
    every refusal is a 401; and when it calls [next()], [req.user] is built
    from the stored student whose id is in the verified token, not from
    the other fields of the token. *)
Theorem authenticateStudent_outcomes
  (verify : Auth.Verify) (secret : string) (authorization : option string)
  (a : Auth.Accounts) :
  snd (Auth.authenticateStudent verify secret authorization a) = a
  /\ match fst (Auth.authenticateStudent verify secret authorization a) with
     | Next user =>
       exists token decoded student,
         Auth.bearer_token authorization = Some token
         /\ verify token secret = inr decoded
         /\ In student a.(Auth.students)
         /\ student.(Auth.student_id) = decoded.(Auth.decoded_id)
         /\ user = Auth.mkUser student.(Auth.student_id)
                               student.(Auth.student_email)
                               (Some student.(Auth.student_schoolId))
                               (Some student.(Auth.studentId))
     | Return denial => denial.(Auth.denial_code) = 401%nat
     | Throw _ => False
     end.
Proof.
  unfold_auth. unfold_flow. unfold truthy.
  destruct (Auth.bearer_token authorization) as [token|];
    [|split; reflexivity].
  destruct (String.eqb token ""); cbn [negb]; [split; reflexivity|].
  destruct (verify token secret) as [e|decoded] eqn:Ev;
    [split; reflexivity|].
  cbv beta iota.
  destruct (find _ (Auth.students a)) as [student|] eqn:Ef;
    [|split; reflexivity].
  split; [reflexivity|]. cbn [fst].
  apply find_some in Ef. destruct Ef as [Hin Hid]. apply id_eqb_eq in Hid.
  exists token, decoded, student. auto.
Qed.

(* ------------------------------------------------------------------ *)
(** ** Student login *)

Ltac unfold_login :=
  unfold Login.login, Login.login_body, Login.logFailedLogin, Login.notify,
    Login.startTransaction, Login.abortTransaction, Login.commitTransaction,
    Login.endSession, Login.save_log, Login.save_log_in_session,
    Login.save_token_in_session, Login.save_notification_in_session in *.

(** A well-formed request passes the two input checks. *)
Lemma login_well_formed (env : Login.Env) (req : Login.Request)
  (s : Login.Store) :
  Login.well_formed env req ->
  Login.login env req s
  = if Login.attempts_seen req s >=? env.(Login.MAX_LOGIN_ATTEMPTS) then
      (Return Login.locked_out, s)
    else
      match find (fun st => String.eqb st.(Login.s_email)
                              (match req.(Login.email) with
                               | Some e => e | None => "" end))
                 s.(Login.students) with
      | None =>
        (Return Login.invalid_credentials,
         Login.add_logs
           [Login.failure_entry req None (Login.attempts_seen req s + 1)] s)
      | Some student =>
        if env.(Login.compare)
             (match req.(Login.password) with Some p => p | None => "" end)
             student.(Login.s_password)
        then
          (Return (Login.mkReply 200 true None
                     (Some (Login.mkProfile student.(Login.s_id)
                              student.(Login.s_name) student.(Login.s_email)
                              student.(Login.s_studentId)
                              student.(Login.s_schoolId)
                              student.(Login.s_department)
                              student.(Login.s_yearOfStudy)))
                     (Some (env.(Login.sign) student))
                     (Some (env.(Login.signRefresh) student))),
           Login.mkStore s.(Login.students)
             (s.(Login.transactionLog)
              ++ Login.mkLogDoc "student_login_success"
                   (Some student.(Login.s_id)) req.(Login.ip) (Some 0)
                   req.(Login.now)
                 :: match env.(Login.mail) with
                    | Some _ =>
                      [Login.mkLogDoc "notification_failure"
                         (Some student.(Login.s_id)) req.(Login.ip) None
                         req.(Login.now)]
                    | None => []
                    end)%list
             (s.(Login.refreshTokens)
              ++ [Login.mkRefreshTokenDoc student.(Login.s_id)
                    (env.(Login.signRefresh) student)
                    (req.(Login.now) + 7 * 24 * 60 * 60 * 1000)])%list
             (s.(Login.notifications)
              ++ match env.(Login.mail) with
                 | Some _ => []
                 | None =>
                   [Login.mkNotificationDoc student.(Login.s_email)
                      "student_login_success" student.(Login.s_id)]
                 end)%list)
        else
          (Return Login.invalid_credentials,
           Login.add_logs
             [Login.failure_entry req (Some student.(Login.s_id))
                                  (Login.attempts_seen req s + 1)] s)
      end.
Proof.
  intros (e & p & He & Hne & Hp & Hnp & Hmail).
  apply String.eqb_neq in Hne, Hnp.
  unfold Login.attempts_seen. unfold_login. unfold_flow. unfold truthy.
  rewrite He, Hp, Hne, Hnp. cbn [negb app List.length Z.of_nat Z.ltb
                                 Z.compare].
  rewrite Hmail. cbn [negb Login.store].
  destruct (Login.failedAttempts _ _ s >=? _); [destruct s; reflexivity|].
  destruct (find _ (Login.students s)) as [student|];
    [|destruct s; reflexivity].
  destruct (Login.compare env p (Login.s_password student)); cbn [negb].
  - destruct (Login.mail env); destruct s; reflexivity.
  - destruct (Login.mail env); destruct s; reflexivity.
Qed.

(** A well-formed request from an address that has used up its attempts. *)
Lemma login_refused_when_locked (env : Login.Env) (req : Login.Request)
  (s : Login.Store) :
  Login.well_formed env req ->
  env.(Login.MAX_LOGIN_ATTEMPTS) <= Login.attempts_seen req s ->
  Login.login env req s = (Return Login.locked_out, s).
Proof.
  intros Hwf Hmax. rewrite (login_well_formed env req s Hwf).
  replace (Login.attempts_seen req s >=? Login.MAX_LOGIN_ATTEMPTS env)
    with true; [reflexivity|].
  symmetry. rewrite Z.geb_leb. now apply Z.leb_le.
Qed.

(** X24.  Lockout: when the address of a well-formed request has at least
    [MAX_LOGIN_ATTEMPTS] failed attempts in the last hour, the request is
    answered 400 "Too many failed login attempts" before the student is
    looked up or the password is compared, and nothing is written. *)
Theorem login_lockout (env : Login.Env) (req : Login.Request)
  (s : Login.Store) :
  Login.well_formed env req ->
  env.(Login.MAX_LOGIN_ATTEMPTS) <= Login.attempts_seen req s ->
  Login.login env req s = (Return Login.locked_out, s).
Proof.
  exact (login_refused_when_locked env req s).
Qed.

(** The right password, after three failures within the hour. *)
Lemma login_lockout_witness :
  Login.login Login.sampleEnv (Login.attempt "pw" 4000)
    (Login.logins Login.sampleEnv
       [Login.attempt "a" 1000; Login.attempt "b" 2000;
        Login.attempt "c" 3000] Login.sampleStore)
  = (Return Login.locked_out,
     Login.logins Login.sampleEnv
       [Login.attempt "a" 1000; Login.attempt "b" 2000;
        Login.attempt "c" 3000] Login.sampleStore).
Proof.
  apply (login_lockout Login.sampleEnv (Login.attempt "pw" 4000)).
  - exists "ada@hilltop.example", "pw".
    repeat split; try reflexivity; discriminate.
  - vm_compute. discriminate.
Defined.

Lemma failedAttempts_add_logs (address : string) (since : Z)
  (ls : list Login.LogDoc) (s : Login.Store) :
  Login.failedAttempts address since (Login.add_logs ls s)
  = Login.failedAttempts address since s
    + Z.of_nat (List.length (filter (Login.recent_failure address since) ls)).
Proof.
  unfold Login.failedAttempts, Login.add_logs. cbn [Login.transactionLog].
  rewrite filter_app, length_app. lia.
Qed.

(** X25.  A failed attempt is counted: a well-formed request that is not
    locked out and whose email is unknown or whose password does not match
    is answered 401 "Invalid credentials" and adds exactly one
    [student_login_failure] entry for its address, with a fraud score of
    [min(20 * attempts, 100)] between 20 and 100; the next check for that
    address sees one attempt more.  Nothing else is stored, whether the
    warning email could be sent or not. *)
Theorem login_failure_is_counted (env : Login.Env) (req : Login.Request)
  (s : Login.Store) :
  Login.well_formed env req ->
  Login.attempts_seen req s < env.(Login.MAX_LOGIN_ATTEMPTS) ->
  Login.wrong_credentials env req s ->
  exists studentId,
    Login.login env req s
    = (Return Login.invalid_credentials,
       Login.add_logs
         [Login.failure_entry req studentId (Login.attempts_seen req s + 1)]
         s)
    /\ Login.attempts_seen req (snd (Login.login env req s))
       = Login.attempts_seen req s + 1
    /\ 20 <= Login.failure_score (Login.attempts_seen req s + 1) <= 100.
Proof.
  intros Hwf Hmax Hwrong.
  assert (Hcount : forall sid,
             Login.attempts_seen req
               (Login.add_logs
                  [Login.failure_entry req sid
                     (Login.attempts_seen req s + 1)] s)
             = Login.attempts_seen req s + 1).
  { intros sid. unfold Login.attempts_seen at 1.
    rewrite failedAttempts_add_logs. unfold Login.attempts_seen. f_equal.
    cbn [filter]. unfold Login.recent_failure, Login.failure_entry.
    cbn [Login.action Login.log_ip Login.createdAt].
    rewrite !String.eqb_refl.
    replace (Login.now req - 60 * 60 * 1000 <=? Login.now req) with true
      by (symmetry; apply Z.leb_le; lia).
    reflexivity. }
  assert (Hscore : 20 <= Login.failure_score (Login.attempts_seen req s + 1)
                   <= 100).
  { unfold Login.failure_score, Login.attempts_seen, Login.failedAttempts.
    lia. }
  rewrite (login_well_formed env req s Hwf).
  replace (Login.attempts_seen req s >=? Login.MAX_LOGIN_ATTEMPTS env)
    with false by (symmetry; rewrite Z.geb_leb; apply Z.leb_gt; lia).
  unfold Login.wrong_credentials in Hwrong.
  destruct (find _ (Login.students s)) as [student|].
  - rewrite Hwrong. exists (Some student.(Login.s_id)). cbn [snd]. auto.
  - exists None. cbn [snd]. auto.
Qed.

Lemma login_failure_is_counted_witness :
  exists studentId,
    Login.login Login.sampleEnv (Login.attempt "guess" 1000)
                Login.sampleStore
    = (Return Login.invalid_credentials,
       Login.add_logs
         [Login.failure_entry (Login.attempt "guess" 1000) studentId
            (Login.attempts_seen (Login.attempt "guess" 1000)
                                 Login.sampleStore + 1)]
         Login.sampleStore)
    /\ Login.attempts_seen (Login.attempt "guess" 1000)
         (snd (Login.login Login.sampleEnv (Login.attempt "guess" 1000)
                           Login.sampleStore))
       = Login.attempts_seen (Login.attempt "guess" 1000) Login.sampleStore
         + 1
    /\ 20 <= Login.failure_score
               (Login.attempts_seen (Login.attempt "guess" 1000)
                                    Login.sampleStore + 1) <= 100.
Proof.
  apply (login_failure_is_counted Login.sampleEnv
           (Login.attempt "guess" 1000) Login.sampleStore).
  - exists "ada@hilltop.example", "guess".
    repeat split; try reflexivity; discriminate.
  - reflexivity.
  - reflexivity.
Defined.

(** X26.  A successful login is answered 200 with the two signed tokens,
    stores the refresh token with an expiry of seven days, and leaves the
    count of failed attempts of every address as it was: success does not
    reset the lockout counter. *)
Theorem login_success (env : Login.Env) (req : Login.Request)
  (s : Login.Store) (student : Login.StudentDoc) :
  Login.well_formed env req ->
  Login.attempts_seen req s < env.(Login.MAX_LOGIN_ATTEMPTS) ->
  find (fun st => String.eqb st.(Login.s_email)
                    (match req.(Login.email) with Some e => e | None => "" end))
       s.(Login.students) = Some student ->
  env.(Login.compare)
    (match req.(Login.password) with Some p => p | None => "" end)
    student.(Login.s_password) = true ->
  fst (Login.login env req s)
  = Return (Login.mkReply 200 true None
              (Some (Login.mkProfile student.(Login.s_id)
                       student.(Login.s_name) student.(Login.s_email)
                       student.(Login.s_studentId)
                       student.(Login.s_schoolId)
                       student.(Login.s_department)
                       student.(Login.s_yearOfStudy)))
              (Some (env.(Login.sign) student))
              (Some (env.(Login.signRefresh) student)))
  /\ (snd (Login.login env req s)).(Login.refreshTokens)
     = (s.(Login.refreshTokens)
        ++ [Login.mkRefreshTokenDoc student.(Login.s_id)
              (env.(Login.signRefresh) student)
              (req.(Login.now) + 604800000)])%list
  /\ (forall address since,
         Login.failedAttempts address since (snd (Login.login env req s))
         = Login.failedAttempts address since s).
Proof.
  intros Hwf Hmax Hfind Hmatch.
  rewrite (login_well_formed env req s Hwf).
  replace (Login.attempts_seen req s >=? Login.MAX_LOGIN_ATTEMPTS env)
    with false by (symmetry; rewrite Z.geb_leb; apply Z.leb_gt; lia).
  rewrite Hfind, Hmatch. cbn [fst snd Login.refreshTokens].
  split; [reflexivity|]. split; [reflexivity|].
  intros address since. unfold Login.failedAttempts.
  cbn [Login.transactionLog]. rewrite filter_app.
  destruct (Login.mail env); cbn; now rewrite app_nil_r.
Qed.

Lemma login_success_witness :
  fst (Login.login Login.sampleEnv (Login.attempt "pw" 1000)
                   Login.sampleStore)
  = Return (Login.mkReply 200 true None
              (Some (Login.mkProfile Login.ada.(Login.s_id)
                       Login.ada.(Login.s_name) Login.ada.(Login.s_email)
                       Login.ada.(Login.s_studentId)
                       Login.ada.(Login.s_schoolId)
                       Login.ada.(Login.s_department)
                       Login.ada.(Login.s_yearOfStudy)))
              (Some (Login.sampleEnv.(Login.sign) Login.ada))
              (Some (Login.sampleEnv.(Login.signRefresh) Login.ada)))
  /\ (snd (Login.login Login.sampleEnv (Login.attempt "pw" 1000)
                       Login.sampleStore)).(Login.refreshTokens)
     = (Login.sampleStore.(Login.refreshTokens)
        ++ [Login.mkRefreshTokenDoc Login.ada.(Login.s_id)
              (Login.sampleEnv.(Login.signRefresh) Login.ada)
              ((Login.attempt "pw" 1000).(Login.now) + 604800000)])%list
  /\ (forall address since,
         Login.failedAttempts address since
           (snd (Login.login Login.sampleEnv (Login.attempt "pw" 1000)
                             Login.sampleStore))
         = Login.failedAttempts address since Login.sampleStore).
Proof.
  apply (login_success Login.sampleEnv (Login.attempt "pw" 1000)
           Login.sampleStore Login.ada).
  - exists "ada@hilltop.example", "pw".
    repeat split; try reflexivity; discriminate.
  - reflexivity.
  - reflexivity.
  - reflexivity.
Defined.

(** The failure entries of an address are not older than [lo]. *)
Lemma failedAttempts_window (address : string) (lo since : Z)
  (s : Login.Store) :
  (forall l, In l s.(Login.transactionLog) ->
             l.(Login.action) = "student_login_failure" ->
             l.(Login.log_ip) = address -> lo <= l.(Login.createdAt)) ->
  since <= lo ->
  Login.failedAttempts address since s = Login.failedAttempts address lo s.
Proof.
  intros Hq Hs. unfold Login.failedAttempts. do 2 f_equal.
  apply filter_ext_in. intros l Hin. unfold Login.recent_failure.
  destruct (String.eqb (Login.action l) "student_login_failure") eqn:Ea;
    [|reflexivity].
  destruct (String.eqb (Login.log_ip l) address) eqn:Ei; [|reflexivity].
  apply String.eqb_eq in Ea, Ei. specialize (Hq l Hin Ea Ei).
  cbn [andb].
  replace (since <=? Login.createdAt l) with true
    by (symmetry; apply Z.leb_le; lia).
  symmetry. apply Z.leb_le. lia.
Qed.

Lemma lockout_is_reached (env : Login.Env) (address : string) (lo : Z)
  (final : Login.Request) (reqs : list Login.Request) :
  final.(Login.ip) = address ->
  Login.well_formed env final ->
  final.(Login.now) <= lo + 3600000 ->
  forall s,
    (forall l, In l s.(Login.transactionLog) ->
               l.(Login.action) = "student_login_failure" ->
               l.(Login.log_ip) = address -> lo <= l.(Login.createdAt)) ->
    (forall r, In r reqs ->
               r.(Login.ip) = address /\ Login.well_formed env r
               /\ lo <= r.(Login.now) <= lo + 3600000
               /\ Login.wrong_credentials env r s) ->
    env.(Login.MAX_LOGIN_ATTEMPTS)
    <= Login.failedAttempts address lo s + Z.of_nat (List.length reqs) ->
    Login.login env final (Login.logins env reqs s)
    = (Return Login.locked_out, Login.logins env reqs s).
Proof.
  intros Hip Hwf Hlate. induction reqs as [|r rest IH]; intros s Hq Hreqs Hmax.
  - cbn [Login.logins]. apply login_refused_when_locked; [exact Hwf|].
    unfold Login.attempts_seen. rewrite Hip.
    rewrite (failedAttempts_window address lo _ s Hq) by lia.
    cbn [List.length Z.of_nat] in Hmax. lia.
  - cbn [Login.logins].
    destruct (Hreqs r (or_introl eq_refl)) as (Hrip & Hrwf & Hrt & Hrw).
    assert (Hseen : Login.attempts_seen r s
                    = Login.failedAttempts address lo s).
    { unfold Login.attempts_seen. rewrite Hrip.
      apply failedAttempts_window; [exact Hq | lia]. }
    destruct (Z.le_gt_cases env.(Login.MAX_LOGIN_ATTEMPTS)
                (Login.attempts_seen r s)) as [Hlocked|Hopen].
    + rewrite (login_refused_when_locked env r s Hrwf Hlocked). cbn [snd].
      apply IH; [exact Hq | | lia].
      intros r' Hin. apply Hreqs. now right.
    + assert (Hlog : exists sid,
                 snd (Login.login env r s)
                 = Login.add_logs
                     [Login.failure_entry r sid
                        (Login.attempts_seen r s + 1)] s).
      { rewrite (login_well_formed env r s Hrwf).
        replace (Login.attempts_seen r s >=? Login.MAX_LOGIN_ATTEMPTS env)
          with false by (symmetry; rewrite Z.geb_leb; apply Z.leb_gt; lia).
        unfold Login.wrong_credentials in Hrw.
        destruct (find _ (Login.students s)) as [student|].
        - rewrite Hrw. now exists (Some student.(Login.s_id)).
        - now exists None. }
      destruct Hlog as (sid & ->).
      apply IH.
      * intros l Hin Ha Hi. cbn [Login.add_logs Login.transactionLog] in Hin.
        apply in_app_or in Hin. destruct Hin as [Hin|[<-|[]]].
        -- now apply Hq.
        -- cbn. lia.
      * intros r' Hin.
        destruct (Hreqs r' (or_intror Hin)) as (? & ? & ? & Hw).
        repeat split; auto; try lia.
      * rewrite failedAttempts_add_logs.
        cbn [filter]. unfold Login.recent_failure, Login.failure_entry.
        cbn [Login.action Login.log_ip Login.createdAt].
        rewrite Hrip, !String.eqb_refl.
        replace (lo <=? Login.now r) with true
          by (symmetry; apply Z.leb_le; lia).
        cbn [andb List.length] in *. lia.
Qed.

(** X27.  Lockout is reached: when the failed attempts already stored for
    an address, none older than [lo], and a series of well-formed requests
    with wrong credentials from that address add up to
    [MAX_LOGIN_ATTEMPTS], all within one hour from [lo], then a further
    request from the address within that hour is refused with "Too many
    failed login attempts", whatever its password. *)
Theorem lockout_after_repeated_failures (env : Login.Env) (address : string)
  (lo : Z) (final : Login.Request) (reqs : list Login.Request)
  (s : Login.Store) :
  final.(Login.ip) = address ->
  Login.well_formed env final ->
  final.(Login.now) <= lo + 3600000 ->
  (forall l, In l s.(Login.transactionLog) ->
             l.(Login.action) = "student_login_failure" ->
             l.(Login.log_ip) = address -> lo <= l.(Login.createdAt)) ->
  (forall r, In r reqs ->
             r.(Login.ip) = address /\ Login.well_formed env r
             /\ lo <= r.(Login.now) <= lo + 3600000
             /\ Login.wrong_credentials env r s) ->
  env.(Login.MAX_LOGIN_ATTEMPTS)
  <= Login.failedAttempts address lo s + Z.of_nat (List.length reqs) ->
  fst (Login.login env final (Login.logins env reqs s))
  = Return Login.locked_out.
Proof.
  intros Hip Hwf Hlate Hq Hreqs Hmax.
  now rewrite (lockout_is_reached env address lo final reqs Hip Hwf Hlate s
                 Hq Hreqs Hmax).
Qed.

(** Three wrong passwords, then the right one. *)
Lemma lockout_after_repeated_failures_witness :
  fst (Login.login Login.sampleEnv (Login.attempt "pw" 4000)
         (Login.logins Login.sampleEnv
            [Login.attempt "a" 1000; Login.attempt "b" 2000;
             Login.attempt "c" 3000] Login.sampleStore))
  = Return Login.locked_out.
Proof.
  apply (lockout_after_repeated_failures Login.sampleEnv "203.0.113.9" 1000
           (Login.attempt "pw" 4000)
           [Login.attempt "a" 1000; Login.attempt "b" 2000;
            Login.attempt "c" 3000] Login.sampleStore).
  - reflexivity.
  - exists "ada@hilltop.example", "pw".
    repeat split; try reflexivity; discriminate.
  - cbn. lia.
  - intros l [].
  - intros r [<-|[<-|[<-|[]]]];
      (split; [reflexivity|]; split;
       [eexists _, _; repeat split; try reflexivity; discriminate|];
       split; [cbn; lia | reflexivity]).
  - vm_compute. discriminate.
Defined.

(* ------------------------------------------------------------------ *)
(** ** Notifications *)

Ltac unfold_notifications :=
  unfold Notifications.deleteNotification,
    Notifications.clearAllNotifications,
    Notifications.markNotificationsRead, Notifications.updateMany,
    Notifications.logged, Notifications.logActionUtil,
    Notifications.TransactionLog_create in *.

(** Saving over a stored document keeps the ids of the collection. *)
Lemma save_by_keys (A : Type) (key : A -> Id) (doc : A) (coll : list A) :
  In (key doc) (map key coll) ->
  map key (save_by key doc coll) = map key coll.
Proof.
  induction coll as [|x rest IH]; cbn [map save_by]; intros Hin.
  - contradiction.
  - destruct (id_eqb (key x) (key doc)) eqn:E; cbn [map].
    + apply id_eqb_eq in E. now rewrite E.
    + f_equal. apply IH. destruct Hin as [Hin|Hin]; [|exact Hin].
      rewrite Hin, id_eqb_refl in E. discriminate.
Qed.

(** X28.  Deleting a notification is a soft delete that works once: the
    owner's first request is answered 200 and stamps [deletedAt] on the
    stored notification without removing any document; a second request for
    the same id, by anyone and at any time, is answered 404 and writes
    nothing. *)
Theorem deleteNotification_once
  (s : Notifications.Store) (studentId schoolId notificationId : Id)
  (time : Z) (n : Notifications.NotificationDoc) :
  NoDup (map Notifications.n_id s.(Notifications.notifications)) ->
  find (fun n => id_eqb n.(Notifications.n_id) notificationId
                 && Notifications.visible_to studentId schoolId n)
       s.(Notifications.notifications) = Some n ->
  let s' := snd (Notifications.deleteNotification studentId schoolId
                   notificationId time s) in
  fst (Notifications.deleteNotification studentId schoolId notificationId
         time s)
  = Return (mkResponse 200 "Notification deleted successfully" None)
  /\ find (fun m => id_eqb m.(Notifications.n_id) notificationId)
          s'.(Notifications.notifications)
     = Some (Notifications.set_deletedAt time n)
  /\ List.length s'.(Notifications.notifications)
     = List.length s.(Notifications.notifications)
  /\ (forall student school later,
         Notifications.deleteNotification student school notificationId
                                          later s'
         = (Return (mkResponse 404
                      "Notification not found or already deleted" None),
            s')).
Proof.
  intros Hnd Hfind. cbv zeta.
  pose proof (find_some _ _ Hfind) as [Hin Hn].
  apply andb_true_iff in Hn. destruct Hn as [Hid Hvis].
  apply id_eqb_eq in Hid.
  assert (E : Notifications.deleteNotification studentId schoolId
                notificationId time s
              = (Return (mkResponse 200 "Notification deleted successfully"
                                    None),
                 Notifications.mkStore
                   (save_by Notifications.n_id
                      (Notifications.set_deletedAt time n)
                      s.(Notifications.notifications))
                   (s.(Notifications.transactionLog)
                    ++ ["notification_deleted"])%list
                   (s.(Notifications.auditLog)
                    ++ ["notification_deleted"])%list)).
  { unfold_notifications. unfold_flow. now rewrite Hfind. }
  rewrite E. cbn [fst snd Notifications.notifications].
  split; [reflexivity|].
  assert (Hsaved : find (fun m => id_eqb m.(Notifications.n_id) notificationId)
                     (save_by Notifications.n_id
                        (Notifications.set_deletedAt time n)
                        s.(Notifications.notifications))
                   = Some (Notifications.set_deletedAt time n))
    by (apply find_saved; exact Hid).
  assert (Hkeys : map Notifications.n_id
                    (save_by Notifications.n_id
                       (Notifications.set_deletedAt time n)
                       s.(Notifications.notifications))
                  = map Notifications.n_id s.(Notifications.notifications)).
  { apply save_by_keys. now apply (in_map Notifications.n_id) in Hin. }
  split; [exact Hsaved|]. split.
  - now rewrite <- (length_map Notifications.n_id), Hkeys, length_map.
  - intros student school later.
    clear E. unfold_notifications. unfold_flow. cbv beta.
    cbn [Notifications.notifications].
    match goal with
    | |- context [find ?P (save_by ?k ?doc ?l)] =>
        destruct (find P (save_by k doc l)) as [m|] eqn:Fm
    end; [|reflexivity].
    exfalso. apply find_some in Fm. destruct Fm as [Hm Hmatch].
    apply andb_true_iff in Hmatch. destruct Hmatch as [Hmid Hmvis].
    apply id_eqb_eq in Hmid.
    assert (Hm' : find (fun x => id_eqb x.(Notifications.n_id)
                                        m.(Notifications.n_id))
                    (save_by Notifications.n_id
                       (Notifications.set_deletedAt time n)
                       s.(Notifications.notifications)) = Some m).
    { apply (find_unique _ Notifications.n_id); [|exact Hm].
      now rewrite Hkeys. }
    rewrite Hmid, Hsaved in Hm'. injection Hm' as <-.
    unfold Notifications.visible_to in Hmvis. cbn in Hmvis.
    now rewrite andb_false_r in Hmvis.
Qed.

Lemma deleteNotification_once_witness :
  let s' := snd (Notifications.deleteNotification 7 3 1 5000
                   Notifications.sampleStore) in
  fst (Notifications.deleteNotification 7 3 1 5000 Notifications.sampleStore)
  = Return (mkResponse 200 "Notification deleted successfully" None)
  /\ find (fun m => id_eqb m.(Notifications.n_id) 1)
          s'.(Notifications.notifications)
     = Some (Notifications.set_deletedAt 5000
               (Notifications.mkNotificationDoc 1 7 3 "login_failure" "sent"
                                                false None None))
  /\ List.length s'.(Notifications.notifications)
     = List.length Notifications.sampleStore.(Notifications.notifications)
  /\ (forall student school later,
         Notifications.deleteNotification student school 1 later s'
         = (Return (mkResponse 404
                      "Notification not found or already deleted" None),
            s')).
Proof.
  apply (deleteNotification_once Notifications.sampleStore 7 3 1 5000
           (Notifications.mkNotificationDoc 1 7 3 "login_failure" "sent"
                                            false None None)).
  - cbn. repeat constructor; cbn; intuition discriminate.
  - reflexivity.
Defined.

Section UpdateMany.
Variable A : Type.
Variables (query : A -> bool) (set : A -> A).
Hypothesis settles : forall n, query n = true -> query (set n) = false.

Lemma updated_none_matches (l : list A) :
  filter query (map (fun n => if query n then set n else n) l) = [].
Proof.
  induction l as [|n l IH]; cbn [map filter]; [reflexivity|].
  destruct (query n) eqn:E.
  - now rewrite (settles n E).
  - now rewrite E.
Qed.

Lemma updated_again (l : list A) :
  map (fun n => if query n then set n else n)
      (map (fun n => if query n then set n else n) l)
  = map (fun n => if query n then set n else n) l.
Proof.
  rewrite map_map. apply map_ext. intros n.
  destruct (query n) eqn:E.
  - now rewrite (settles n E).
  - now rewrite E.
Qed.

Lemma updated_keeps (l : list A) (n : A) :
  In n l -> query n = false ->
  In n (map (fun n => if query n then set n else n) l).
Proof.
  intros Hin Hq. apply in_map_iff. exists n. now rewrite Hq.
Qed.
End UpdateMany.

(** X29.  [clearAllNotifications] is a soft delete of all that the student
    still sees.  It reports how many notifications of the student were
    visible; each of them stays in the store with [deletedAt] stamped and
    nothing else changed, no document is removed or added, every
    notification of another student or school, and every one deleted
    earlier, is exactly as before; afterwards none of the student's
    notifications is visible, and a second call reports 0 and changes no
    notification. *)
Theorem clearAllNotifications_clears
  (s : Notifications.Store) (studentId schoolId : Id) (time later : Z) :
  let s' := snd (Notifications.clearAllNotifications studentId schoolId time
                   s) in
  fst (Notifications.clearAllNotifications studentId schoolId time s)
  = Return (mkResponse 200
              (Notifications.count_message "Cleared"
                 (List.length (filter (Notifications.visible_to studentId
                                                                schoolId)
                                      s.(Notifications.notifications)))
                 "notifications") None)
  /\ (forall n, In n s.(Notifications.notifications) ->
                Notifications.visible_to studentId schoolId n = true ->
                In (Notifications.set_deletedAt time n)
                   s'.(Notifications.notifications))
  /\ map Notifications.n_id s'.(Notifications.notifications)
     = map Notifications.n_id s.(Notifications.notifications)
  /\ (forall n, In n s.(Notifications.notifications) ->
                Notifications.visible_to studentId schoolId n = false ->
                In n s'.(Notifications.notifications))
  /\ (forall n, In n s'.(Notifications.notifications) ->
                Notifications.visible_to studentId schoolId n = false)
  /\ fst (Notifications.clearAllNotifications studentId schoolId later s')
     = Return (mkResponse 200 "Cleared 0 notifications" None)
  /\ (snd (Notifications.clearAllNotifications studentId schoolId later s'))
       .(Notifications.notifications)
     = s'.(Notifications.notifications).
Proof.
  cbv zeta.
  assert (Hsettles : forall t n,
             Notifications.visible_to studentId schoolId n = true ->
             Notifications.visible_to studentId schoolId
               (Notifications.set_deletedAt t n) = false).
  { intros t n _. unfold Notifications.visible_to. cbn.
    apply andb_false_r. }
  assert (E : forall t s0,
             Notifications.clearAllNotifications studentId schoolId t s0
             = (Return (mkResponse 200
                          (Notifications.count_message "Cleared"
                             (List.length
                                (filter (Notifications.visible_to studentId
                                                                  schoolId)
                                        s0.(Notifications.notifications)))
                             "notifications") None),
                Notifications.mkStore
                  (map (fun n =>
                          if Notifications.visible_to studentId schoolId n
                          then Notifications.set_deletedAt t n else n)
                       s0.(Notifications.notifications))
                  (s0.(Notifications.transactionLog)
                   ++ ["notifications_cleared"])%list
                  (s0.(Notifications.auditLog)
                   ++ ["notifications_cleared"])%list)).
  { intros t s0. unfold_notifications. unfold_flow. reflexivity. }
  rewrite !E. cbn [fst snd Notifications.notifications].
  split; [reflexivity|]. split; [|split; [|split; [|split; [|split]]]].
  - intros n Hin Hq. apply in_map_iff. exists n. now rewrite Hq.
  - rewrite map_map. apply map_ext. intros n.
    now destruct (Notifications.visible_to studentId schoolId n).
  - intros n Hin Hq. now apply updated_keeps.
  - intros n Hin. apply in_map_iff in Hin. destruct Hin as (m & <- & _).
    destruct (Notifications.visible_to studentId schoolId m) eqn:Em;
      [now apply Hsettles | exact Em].
  - rewrite (updated_none_matches _ _ _ (Hsettles time)). reflexivity.
  - rewrite <- (updated_again _ _ (Notifications.set_deletedAt time)
                  (Hsettles time)) at 2.
    apply map_ext_in. intros n Hin.
    apply in_map_iff in Hin. destruct Hin as (m & <- & _).
    destruct (Notifications.visible_to studentId schoolId m) eqn:Em.
    + now rewrite (Hsettles time m Em).
    + now rewrite Em.
Qed.

(** X30.  [markNotificationsRead] marks exactly the student's visible,
    unread notifications that the request selects (all of them when no id
    list is sent): the reply counts them, each is stored as read with status
    [sent], every other notification (another student's, a deleted one, one
    already read, one not in the list) is exactly as before, and the same
    request sent again reports 0.  An empty id list selects nothing. *)
Theorem markNotificationsRead_marks
  (s : Notifications.Store) (studentId schoolId : Id)
  (notificationIds : option (list Id)) (time later : Z) :
  let selected n :=
    match notificationIds with
    | Some ids => existsb (id_eqb n.(Notifications.n_id)) ids
    | None => true
    end in
  let query n :=
    Notifications.visible_to studentId schoolId n
    && negb n.(Notifications.read) && selected n in
  let s' := snd (Notifications.markNotificationsRead studentId schoolId
                   notificationIds time s) in
  fst (Notifications.markNotificationsRead studentId schoolId
         notificationIds time s)
  = Return (mkResponse 200
              (Notifications.count_message "Marked"
                 (List.length (filter query s.(Notifications.notifications)))
                 "notifications as read") None)
  /\ (forall n, In n s.(Notifications.notifications) -> query n = true ->
                In (Notifications.set_read time n)
                   s'.(Notifications.notifications))
  /\ (forall n, In n s.(Notifications.notifications) -> query n = false ->
                In n s'.(Notifications.notifications))
  /\ (forall n, In n s'.(Notifications.notifications) -> query n = false)
  /\ List.length s'.(Notifications.notifications)
     = List.length s.(Notifications.notifications)
  /\ fst (Notifications.markNotificationsRead studentId schoolId
            notificationIds later s')
     = Return (mkResponse 200 "Marked 0 notifications as read" None)
  /\ (notificationIds = Some [] ->
      s'.(Notifications.notifications) = s.(Notifications.notifications)).
Proof.
  cbv zeta.
  set (query := fun n : Notifications.NotificationDoc =>
         Notifications.visible_to studentId schoolId n
         && negb n.(Notifications.read)
         && match notificationIds with
            | Some ids => existsb (id_eqb n.(Notifications.n_id)) ids
            | None => true
            end).
  assert (Hsettles : forall t n,
             query n = true -> query (Notifications.set_read t n) = false).
  { intros t n _. unfold query. cbn.
    rewrite andb_false_r. reflexivity. }
  assert (E : forall t s0,
             Notifications.markNotificationsRead studentId schoolId
               notificationIds t s0
             = (Return (mkResponse 200
                          (Notifications.count_message "Marked"
                             (List.length
                                (filter query
                                        s0.(Notifications.notifications)))
                             "notifications as read") None),
                Notifications.mkStore
                  (map (fun n => if query n
                                 then Notifications.set_read t n else n)
                       s0.(Notifications.notifications))
                  (s0.(Notifications.transactionLog)
                   ++ ["notifications_marked_read"])%list
                  (s0.(Notifications.auditLog)
                   ++ ["notifications_marked_read"])%list)).
  { intros t s0. unfold_notifications. unfold_flow. reflexivity. }
  rewrite !E. cbn [fst snd Notifications.notifications].
  split; [reflexivity|]. repeat split.
  - intros n Hin Hq. apply in_map_iff. exists n. now rewrite Hq.
  - intros n Hin Hq. now apply updated_keeps.
  - intros n Hin. apply in_map_iff in Hin. destruct Hin as (m & <- & _).
    destruct (query m) eqn:Em; [now apply Hsettles | exact Em].
  - apply length_map.
  - rewrite (updated_none_matches _ _ _ (Hsettles time)). reflexivity.
  - intros ->. rewrite <- (map_id (Notifications.notifications s)) at 2.
    apply map_ext. intros n. unfold query. cbn [existsb].
    now rewrite andb_false_r.
Qed.
